(** * Recommendation and behavior-blending engine: model and properties

    A shallow embedding of the bounty recommendation engine
    ([packages/api/src/services/recommendation.ts]), of the behavior tracker
    ([packages/api/src/services/behavior.ts]) and of the two router helpers
    that feed them (the three-layer mutual expansion and the divergence
    response of the recommendation router).

    Conventions of the model:
    - a JavaScript [number] that carries a score, a weight, a price or a
      strength is a rational [Q]; the arithmetic is exact, comparisons are the
      boolean tests of [QArith], [Math.min]/[Math.max] are [Qmin]/[Qmax];
      the few exact values that the specification names are checked again in
      binary64 ([Binary64]);
    - identifiers and counters ([tagId], [bounty.id], [viewCount], ...) are [Z];
    - a JavaScript [Map] is a [gmap], built entry after entry so that a later
      entry for a key overwrites an earlier one; a [Set] is a [gset];
    - a database table is the list of its rows: a [select ... where] is a
      [List.filter], [findFirst] is [List.find], an [update ... where] maps
      over every matching row and an [insert] appends a row;
    - a function that can [throw] returns a [result]. *)

From Stdlib Require Import QArith Qminmax Qpower Qabs Qround Lqa ZArith List Sorting.Permutation Sorting.Sorted.
From Stdlib Require Import Floats.PrimFloat.
From stdpp Require Import gmap strings list.
From stdpp Require Import pretty.

Local Open Scope Q_scope.

(** ** JavaScript primitives *)

Definition Qltb (x y : Q) : bool := negb (Qle_bool y x).
Definition Qleb (x y : Q) : bool := Qle_bool x y.
Definition Qgeb (x y : Q) : bool := Qle_bool y x.
Definition Qgtb (x y : Q) : bool := negb (Qle_bool x y).

(** [o || 0] on the result of a [Map.get] of numbers: [undefined] and [0] both
    give [0]. *)
Definition orZero (o : option Q) : Q :=
  match o with
  | Some v => v
  | None => 0
  end.

(** [new Map(entries)]: entries are set from left to right. *)
Definition mapOfEntries {K V : Type} `{Countable K} (entries : list (K * V)) : gmap K V :=
  fold_left (fun m kv => <[kv.1 := kv.2]> m) entries ∅.

(** A function that may throw. *)
Inductive result (A : Type) : Type :=
| Ok (a : A)
| Throw (msg : string).
Arguments Ok {A} a.
Arguments Throw {A} msg.

(** ** Rounding

    JavaScript numbers are IEEE 754 binary64 and the [real] columns of the
    database are binary32: every arithmetic operation, and every write to a
    [real] column, keeps the nearest representable number, ties going to the
    even significand. [roundTo prec] is that rounding for a format of [prec]
    significant bits, on rationals and with an unbounded exponent: the scores,
    weights and prices of the data model are far from the overflow and
    underflow thresholds of both formats. *)

Module Rounding.

(** The integer part of the binary logarithm of a positive rational. *)
Definition ilog2 (q : Q) : Z :=
  let e := (Z.log2 (Qnum q) - Z.log2 (Z.pos (Qden q)))%Z in
  if Qle_bool (2 ^ e) q then e else (e - 1)%Z.

(** The nearest integer, a tie going to the even one. *)
Definition nearestEven (q : Q) : Z :=
  let f := Qfloor q in
  match Qcompare (q - inject_Z f) (1 # 2) with
  | Lt => f
  | Gt => (f + 1)%Z
  | Eq => if Z.even f then f else (f + 1)%Z
  end.

(** Rounding of a positive rational: the significand is scaled into
    [2^(prec-1), 2^prec) and rounded to an integer. *)
Definition roundPos (prec : Z) (q : Q) : Q :=
  let shift := (ilog2 q - (prec - 1))%Z in
  inject_Z (nearestEven (q / 2 ^ shift)) * 2 ^ shift.

Definition roundTo (prec : Z) (q : Q) : Q :=
  match Qcompare q 0 with
  | Eq => 0
  | Gt => roundPos prec q
  | Lt => - roundPos prec (- q)
  end.

(** The unit roundoff of a format with [prec] significant bits. *)
Definition unitRoundoff (prec : Z) : Q := 2 ^ (- prec).

End Rounding.

(** The arithmetic of JavaScript numbers: the exact result of each operation,
    rounded to binary64. [fl q] is also the value of a decimal literal [q] of
    the source. [toReal] is the value a [real] column keeps of a number. *)

Module Double.

Definition fl (q : Q) : Q := Rounding.roundTo 53 q.

Definition toReal (q : Q) : Q := Rounding.roundTo 24 q.

(** 2^-53, the largest relative error of one rounding. *)
Definition epsilon : Q := Rounding.unitRoundoff 53.

(** The factor by which [n] roundings in a row can raise a result. *)
Definition slack (n : nat) : Q := (1 + epsilon) ^ Z.of_nat n.

(** [x] is not negative and at most [bound], up to [n] roundings. *)
Definition upTo (x bound : Q) (n : nat) : Prop := 0 <= x /\ x <= bound * slack n.

Definition add (x y : Q) : Q := fl (x + y).
Definition sub (x y : Q) : Q := fl (x - y).
Definition mul (x y : Q) : Q := fl (x * y).
Definition div (x y : Q) : Q := fl (x / y).

Declare Scope double_scope.
Delimit Scope double_scope with D.
(** The operands of a rounded operation are read in the same scope: in
    [(a + b * c)%D] the product is rounded, then the sum. *)
Arguments add (x y)%_D.
Arguments sub (x y)%_D.
Arguments mul (x y)%_D.
Arguments div (x y)%_D.
Notation "x + y" := (add x y) : double_scope.
Notation "x - y" := (sub x y) : double_scope.
Notation "x * y" := (mul x y) : double_scope.
Notation "x / y" := (div x y) : double_scope.

End Double.

(** ** recommendation.ts *)

Module Recommendation.

Inductive Tier : Set := basic | middle | high.
Inductive Status : Set := open | claimed | completed | expired.
(** The [layer: 1 | 2 | 3] of a [MutualConnection]. *)
Inductive Layer : Set := L1 | L2 | L3.

#[export] Instance Tier_eq_dec : EqDecision Tier.
Proof. solve_decision. Defined.

Definition layerNum (l : Layer) : Z :=
  match l with
  | L1 => 1
  | L2 => 2
  | L3 => 3
  end.

Definition WEIGHTS_RELEVANCE : Q := 0.55.
Definition WEIGHTS_SOCIAL : Q := 0.15.
Definition WEIGHTS_PRICE : Q := 0.20.
Definition WEIGHTS_ENGAGEMENT : Q := 0.10.

Definition MIN_RELEVANCE_THRESHOLD : Q := 3.0.

Record UserTagScore : Type := {
  ut_tagId : Z;
  ut_tagName : string;
  ut_score : Q
}.

Record UserProfile : Type := {
  avgPriceViewed : Q;
  up_engagementScore : Q;
  accessTier : Tier
}.

Record MutualConnection : Type := {
  mutualId : string;
  layer : Layer;
  strength : Q
}.

Record RecommendationInput : Type := {
  userId : string;
  userTags : list UserTagScore;
  userProfile : UserProfile;
  mutuals : list MutualConnection
}.

Record BountyTag : Type := {
  bt_tagId : Z;
  weight : Q
}.

(** Timestamps are milliseconds since the epoch. *)
Record BountyData : Type := {
  id : Z;
  title : string;
  description : string;
  price : Q;
  tier : Tier;
  status : Status;
  views : Z;
  submissions : Z;
  likes : Z;
  engagementScore : Q;
  creatorId : option string;
  claimedById : option string;
  createdAt : Z;
  updatedAt : Z;
  expiresAt : option Z;
  completedAt : option Z
}.

Record ScoredBounty : Type := {
  bounty : BountyData;
  relevanceScore : Q;
  socialBoost : Q;
  priceAffinity : Q;
  finalScore : Q
}.

Record Debug : Type := {
  totalCandidates : nat;
  filteredByTier : nat;
  filteredByRelevance : nat;
  topRelevanceScores : list Q
}.

Record RecommendationOutput : Type := {
  primary : ScoredBounty;
  secondary : ScoredBounty;
  debug : Debug
}.

Definition tierOrder (t : Tier) : Z :=
  match t with
  | basic => 1
  | middle => 2
  | high => 3
  end.

Definition filterByAccessTier (bounties : list BountyData) (accessTier : Tier)
  : list BountyData :=
  let userTierLevel := tierOrder accessTier in
  List.filter
    (fun b => let bountyTierLevel := tierOrder (tier b) in
              (bountyTierLevel <=? userTierLevel)%Z)
    bounties.

(** One turn of the [for (const bt of bountyTags)] loop, on the pair
    [(totalScore, totalWeight)]. *)
Definition relevanceStep (userTagMap : gmap Z Q) (acc : Q * Q) (bt : BountyTag)
  : Q * Q :=
  let userScore := orZero (userTagMap !! bt_tagId bt) in
  (acc.1 + userScore * weight bt, acc.2 + weight bt).

Definition computeRelevanceScore (userTags : list UserTagScore)
    (bountyTags : list BountyTag) : Q :=
  if (length bountyTags =? 0)%nat then 0
  else
    let userTagMap := mapOfEntries (map (fun t => (ut_tagId t, ut_score t)) userTags) in
    let totals := fold_left (relevanceStep userTagMap) bountyTags (0, 0) in
    let totalScore := totals.1 in
    let totalWeight := totals.2 in
    if Qgtb totalWeight 0 then (totalScore / totalWeight) * 2 else 0.

(** [1 / Math.pow(2, mutual.layer - 1)]. *)
Definition layerMultiplier (l : Layer) : Q := 1 / (2 ^ (layerNum l - 1)).

(** One turn of the [for (const mutual of mutuals)] loop, on [boost]. *)
Definition socialStep (bountyId : Z) (mutualInteractions : gmap string (list Z))
    (boost : Q) (mutual : MutualConnection) : Q :=
  let interactedBounties := default [] (mutualInteractions !! mutualId mutual) in
  if bool_decide (bountyId ∈ interactedBounties)
  then boost + strength mutual * layerMultiplier (layer mutual)
  else boost.

Definition rawSocialBoost (bountyId : Z) (mutuals : list MutualConnection)
    (mutualInteractions : gmap string (list Z)) : Q :=
  fold_left (socialStep bountyId mutualInteractions) mutuals 0.

Definition computeSocialBoost (bountyId : Z) (mutuals : list MutualConnection)
    (mutualInteractions : gmap string (list Z)) : Q :=
  Qmin (rawSocialBoost bountyId mutuals mutualInteractions) 2.0.

Definition computePriceHistoryScore (bountyPrice avgPriceViewed : Q) : Q :=
  if Qleb avgPriceViewed 0 then 0.5
  else
    let ratio := bountyPrice / avgPriceViewed in
    if Qgeb ratio 0.5 && Qleb ratio 2.0 then 1.0
    else if Qltb ratio 0.5 then Qmax 0.1 (ratio * 2)
    else Qmax 0.2 (2.0 / ratio).

Definition computePriceAffinityTierAware (bountyPrice : Q) (bountyTier : Tier)
    (avgPriceViewed : Q) (userAccessTier : Tier) : Q :=
  if Qleb avgPriceViewed 0 then
    (if decide (bountyTier = userAccessTier) then 0.8 else 0.5)
  else
    let historyScore := computePriceHistoryScore bountyPrice avgPriceViewed in
    let userTierLevel := tierOrder userAccessTier in
    let bountyTierLevel := tierOrder bountyTier in
    let tierDiff := (userTierLevel - bountyTierLevel)%Z in
    let tierBonus :=
      if (tierDiff =? 0)%Z then 0.1
      else if (tierDiff =? 1)%Z then 0
      else if (tierDiff >=? 2)%Z then - 0.1
      else 0 in
    Qmax 0 (Qmin 1 (historyScore + tierBonus)).

(** The weighted combination shared by [getRecommendations] and
    [scoreAllBounties]. *)
Definition combine (relevanceScore socialBoost priceAffinity normalizedEngagement : Q)
  : Q :=
  (relevanceScore / 10) * WEIGHTS_RELEVANCE * 10 +
  (socialBoost / 2) * WEIGHTS_SOCIAL * 10 +
  priceAffinity * WEIGHTS_PRICE * 10 +
  normalizedEngagement * WEIGHTS_ENGAGEMENT * 10.

(** The callback of [accessibleBounties.map], the same in both entry
    points. *)
Definition scoreBounty (input : RecommendationInput)
    (bountyTagMap : gmap Z (list BountyTag))
    (mutualInteractions : gmap string (list Z)) (b : BountyData) : ScoredBounty :=
  let tags := default [] (bountyTagMap !! id b) in
  let relevanceScore := computeRelevanceScore (userTags input) tags in
  let socialBoost := computeSocialBoost (id b) (mutuals input) mutualInteractions in
  let priceAffinity :=
    computePriceAffinityTierAware (price b) (tier b)
      (avgPriceViewed (userProfile input)) (accessTier (userProfile input)) in
  let normalizedEngagement := Qmin (engagementScore b / 10) 1 in
  let finalScore := combine relevanceScore socialBoost priceAffinity normalizedEngagement in
  {| bounty := b;
     relevanceScore := relevanceScore;
     socialBoost := socialBoost;
     priceAffinity := priceAffinity;
     finalScore := finalScore |}.

(** [arr.sort((a, b) => b.finalScore - a.finalScore)]: the stable sort by
    decreasing final score. [insertDesc x l] puts [x] in front of the first
    element whose final score is not greater than its own. *)
Fixpoint insertDesc (x : ScoredBounty) (l : list ScoredBounty) : list ScoredBounty :=
  match l with
  | [] => [x]
  | y :: l' =>
      if Qltb (finalScore x) (finalScore y) then y :: insertDesc x l'
      else x :: y :: l'
  end.

Definition sortByFinalScore (l : list ScoredBounty) : list ScoredBounty :=
  foldr insertDesc [] l.

(** [scoredBounties[0]?.finalScore || 1]. *)
Definition topScoreOf (scoredBounties : list ScoredBounty) : Q :=
  match scoredBounties with
  | [] => 1
  | s :: _ => if Qeq_bool (finalScore s) 0 then 1 else finalScore s
  end.

Definition selectStretchBounty (scoredBounties : list ScoredBounty)
  : option ScoredBounty :=
  let stretchCandidates :=
    List.filter
      (fun sb =>
         let isLowRelevance := Qltb (relevanceScore sb) 3.0 in
         let topScore := topScoreOf scoredBounties in
         let isDecentOverall := Qgtb (finalScore sb) (topScore * 0.2) in
         isLowRelevance && isDecentOverall)
      scoredBounties in
  head (sortByFinalScore stretchCandidates).

Definition passesRelevance (sb : ScoredBounty) : bool :=
  Qgeb (relevanceScore sb) MIN_RELEVANCE_THRESHOLD.

Definition getRecommendations (input : RecommendationInput)
    (allBounties : list BountyData) (bountyTagMap : gmap Z (list BountyTag))
    (mutualInteractions : gmap string (list Z)) : result RecommendationOutput :=
  let accessibleBounties :=
    filterByAccessTier allBounties (accessTier (userProfile input)) in
  let allScoredBounties :=
    map (scoreBounty input bountyTagMap mutualInteractions) accessibleBounties in
  let scoredBounties := sortByFinalScore (List.filter passesRelevance allScoredBounties) in
  let secondary := selectStretchBounty scoredBounties in
  match scoredBounties !! 0%nat with
  | None =>
      let allSorted := sortByFinalScore allScoredBounties in
      match allSorted !! 0%nat with
      | None => Throw "No bounties available for recommendations"
      | Some fallback =>
          Ok {| primary := fallback;
                secondary := default fallback (allSorted !! 1%nat);
                debug := {| totalCandidates := length allBounties;
                            filteredByTier := length accessibleBounties;
                            filteredByRelevance := 0;
                            topRelevanceScores :=
                              map relevanceScore (take 5 allSorted) |} |}
      end
  | Some primary =>
      Ok {| primary := primary;
            secondary :=
              match secondary with
              | Some s => s
              | None => default primary (scoredBounties !! 1%nat)
              end;
            debug := {| totalCandidates := length allBounties;
                        filteredByTier := length accessibleBounties;
                        filteredByRelevance := length scoredBounties;
                        topRelevanceScores :=
                          map relevanceScore (take 5 scoredBounties) |} |}
  end.

Definition scoreAllBounties (input : RecommendationInput)
    (allBounties : list BountyData) (bountyTagMap : gmap Z (list BountyTag))
    (mutualInteractions : gmap string (list Z)) (applyRelevanceFilter : bool)
  : list ScoredBounty :=
  let accessibleBounties :=
    filterByAccessTier allBounties (accessTier (userProfile input)) in
  let scoredBounties :=
    map (scoreBounty input bountyTagMap mutualInteractions) accessibleBounties in
  if applyRelevanceFilter then List.filter passesRelevance scoredBounties
  else scoredBounties.

End Recommendation.

(** ** recommendation.ts, in the arithmetic of JavaScript

    The scoring functions again, each arithmetic operation rounded to
    binary64 the way the code evaluates it: every [+], [*] and [/] below is
    the rounded operation and every decimal literal that is not a double is
    the double nearest to it. Comparisons, [Math.min] and [Math.max] are
    exact, and so is [Math.pow(2, k)]. The types, the tier filter and the
    sort are those of [Recommendation]. *)

Module Recommendation64.
Import Recommendation Double.

Definition WEIGHTS_RELEVANCE : Q := fl 0.55.
Definition WEIGHTS_SOCIAL : Q := fl 0.15.
Definition WEIGHTS_PRICE : Q := fl 0.20.
Definition WEIGHTS_ENGAGEMENT : Q := fl 0.10.

Definition relevanceStep (userTagMap : gmap Z Q) (acc : Q * Q) (bt : BountyTag)
  : Q * Q :=
  let userScore := orZero (userTagMap !! bt_tagId bt) in
  ((acc.1 + userScore * weight bt)%D, (acc.2 + weight bt)%D).

Definition computeRelevanceScore (userTags : list UserTagScore)
    (bountyTags : list BountyTag) : Q :=
  if (length bountyTags =? 0)%nat then 0
  else
    let userTagMap := mapOfEntries (map (fun t => (ut_tagId t, ut_score t)) userTags) in
    let totals := fold_left (relevanceStep userTagMap) bountyTags (0, 0) in
    let totalScore := totals.1 in
    let totalWeight := totals.2 in
    if Qgtb totalWeight 0 then ((totalScore / totalWeight) * 2)%D else 0.

Definition layerMultiplier (l : Layer) : Q := (1 / (2 ^ (layerNum l - 1)))%D.

Definition socialStep (bountyId : Z) (mutualInteractions : gmap string (list Z))
    (boost : Q) (mutual : MutualConnection) : Q :=
  let interactedBounties := default [] (mutualInteractions !! mutualId mutual) in
  if bool_decide (bountyId ∈ interactedBounties)
  then (boost + strength mutual * layerMultiplier (layer mutual))%D
  else boost.

Definition rawSocialBoost (bountyId : Z) (mutuals : list MutualConnection)
    (mutualInteractions : gmap string (list Z)) : Q :=
  fold_left (socialStep bountyId mutualInteractions) mutuals 0.

Definition computeSocialBoost (bountyId : Z) (mutuals : list MutualConnection)
    (mutualInteractions : gmap string (list Z)) : Q :=
  Qmin (rawSocialBoost bountyId mutuals mutualInteractions) 2.0.

Definition computePriceHistoryScore (bountyPrice avgPriceViewed : Q) : Q :=
  if Qleb avgPriceViewed 0 then 0.5
  else
    let ratio := (bountyPrice / avgPriceViewed)%D in
    if Qgeb ratio 0.5 && Qleb ratio 2.0 then 1.0
    else if Qltb ratio 0.5 then Qmax (fl 0.1) (ratio * 2)%D
    else Qmax (fl 0.2) (2.0 / ratio)%D.

Definition computePriceAffinityTierAware (bountyPrice : Q) (bountyTier : Tier)
    (avgPriceViewed : Q) (userAccessTier : Tier) : Q :=
  if Qleb avgPriceViewed 0 then
    (if decide (bountyTier = userAccessTier) then fl 0.8 else 0.5)
  else
    let historyScore := computePriceHistoryScore bountyPrice avgPriceViewed in
    let userTierLevel := tierOrder userAccessTier in
    let bountyTierLevel := tierOrder bountyTier in
    let tierDiff := (userTierLevel - bountyTierLevel)%Z in
    let tierBonus :=
      if (tierDiff =? 0)%Z then fl 0.1
      else if (tierDiff =? 1)%Z then 0
      else if (tierDiff >=? 2)%Z then - fl 0.1
      else 0 in
    Qmax 0 (Qmin 1 (historyScore + tierBonus)%D).

Definition combine (relevanceScore socialBoost priceAffinity normalizedEngagement : Q)
  : Q :=
  ((relevanceScore / 10) * WEIGHTS_RELEVANCE * 10 +
   (socialBoost / 2) * WEIGHTS_SOCIAL * 10 +
   priceAffinity * WEIGHTS_PRICE * 10 +
   normalizedEngagement * WEIGHTS_ENGAGEMENT * 10)%D.

Definition scoreBounty (input : RecommendationInput)
    (bountyTagMap : gmap Z (list BountyTag))
    (mutualInteractions : gmap string (list Z)) (b : BountyData) : ScoredBounty :=
  let tags := default [] (bountyTagMap !! id b) in
  let relevanceScore := computeRelevanceScore (userTags input) tags in
  let socialBoost := computeSocialBoost (id b) (mutuals input) mutualInteractions in
  let priceAffinity :=
    computePriceAffinityTierAware (price b) (tier b)
      (avgPriceViewed (userProfile input)) (accessTier (userProfile input)) in
  let normalizedEngagement := Qmin (engagementScore b / 10)%D 1 in
  let finalScore := combine relevanceScore socialBoost priceAffinity normalizedEngagement in
  {| bounty := b;
     relevanceScore := relevanceScore;
     socialBoost := socialBoost;
     priceAffinity := priceAffinity;
     finalScore := finalScore |}.

Definition selectStretchBounty (scoredBounties : list ScoredBounty)
  : option ScoredBounty :=
  let stretchCandidates :=
    List.filter
      (fun sb =>
         let isLowRelevance := Qltb (relevanceScore sb) 3.0 in
         let topScore := topScoreOf scoredBounties in
         let isDecentOverall := Qgtb (finalScore sb) (topScore * fl 0.2)%D in
         isLowRelevance && isDecentOverall)
      scoredBounties in
  head (sortByFinalScore stretchCandidates).

Definition getRecommendations (input : RecommendationInput)
    (allBounties : list BountyData) (bountyTagMap : gmap Z (list BountyTag))
    (mutualInteractions : gmap string (list Z)) : result RecommendationOutput :=
  let accessibleBounties :=
    filterByAccessTier allBounties (accessTier (userProfile input)) in
  let allScoredBounties :=
    map (scoreBounty input bountyTagMap mutualInteractions) accessibleBounties in
  let scoredBounties := sortByFinalScore (List.filter passesRelevance allScoredBounties) in
  let secondary := selectStretchBounty scoredBounties in
  match scoredBounties !! 0%nat with
  | None =>
      let allSorted := sortByFinalScore allScoredBounties in
      match allSorted !! 0%nat with
      | None => Throw "No bounties available for recommendations"
      | Some fallback =>
          Ok {| primary := fallback;
                secondary := default fallback (allSorted !! 1%nat);
                debug := {| totalCandidates := length allBounties;
                            filteredByTier := length accessibleBounties;
                            filteredByRelevance := 0;
                            topRelevanceScores :=
                              map relevanceScore (take 5 allSorted) |} |}
      end
  | Some primary =>
      Ok {| primary := primary;
            secondary :=
              match secondary with
              | Some s => s
              | None => default primary (scoredBounties !! 1%nat)
              end;
            debug := {| totalCandidates := length allBounties;
                        filteredByTier := length accessibleBounties;
                        filteredByRelevance := length scoredBounties;
                        topRelevanceScores :=
                          map relevanceScore (take 5 scoredBounties) |} |}
  end.

Definition scoreAllBounties (input : RecommendationInput)
    (allBounties : list BountyData) (bountyTagMap : gmap Z (list BountyTag))
    (mutualInteractions : gmap string (list Z)) (applyRelevanceFilter : bool)
  : list ScoredBounty :=
  let accessibleBounties :=
    filterByAccessTier allBounties (accessTier (userProfile input)) in
  let scoredBounties :=
    map (scoreBounty input bountyTagMap mutualInteractions) accessibleBounties in
  if applyRelevanceFilter then List.filter passesRelevance scoredBounties
  else scoredBounties.

End Recommendation64.

(** ** Database schema (packages/db/src/schema)

    The rows of the tables the two services read and write. The serial [id]
    and the [createdAt]/[updatedAt] columns, which no modelled function reads,
    are left out. *)

Module Schema.

(** [mutual]: the stored social graph. *)
Record MutualRow : Type := {
  m_userId : string;
  m_mutualId : string;
  m_layer : Z;
  m_strength : Q
}.

(** [bounty_tag] *)
Record BountyTagRow : Type := {
  btr_bountyId : Z;
  btr_tagId : Z;
  btr_weight : Q
}.

(** [user_tag]: the explicit profile; [score] is an integer column. *)
Record UserTagRow : Type := {
  utr_userId : string;
  utr_tagId : Z;
  utr_score : Z;
  utr_source : string
}.

(** [user_behavior_tag] *)
Record UserBehaviorTag : Type := {
  ubt_userId : string;
  ubt_tagId : Z;
  viewCount : Z;
  viewScore : Q;
  likeCount : Z;
  likeScore : Q;
  submitCount : Z;
  submitScore : Q;
  completeCount : Z;
  completeScore : Q;
  implicitScore : Q;
  lastExplicitScore : option Q;
  divergenceDetected : bool
}.

(** [user_behavior_price] *)
Record UserBehaviorPrice : Type := {
  ubp_userId : string;
  avgPriceViewed : Q;
  avgPriceLiked : Q;
  avgPriceSubmitted : Q;
  avgPriceCompleted : Q;
  implicitPriceMin : option Q;
  implicitPriceMax : option Q;
  lastExplicitMin : option Q;
  lastExplicitMax : option Q;
  ubp_divergenceDetected : bool
}.

(** [user_blend_config] *)
Record UserBlendConfig : Type := {
  ubc_userId : string;
  explicitWeight : Q;
  implicitWeight : Q;
  totalInteractions : Z;
  divergenceThreshold : Q;
  lastDivergencePrompt : option Z;
  divergencePromptCount : Z
}.

Record DB : Type := {
  bountyTable : list Recommendation.BountyData;
  bountyTagTable : list BountyTagRow;
  userTagTable : list UserTagRow;
  mutualTable : list MutualRow;
  userBehaviorTagTable : list UserBehaviorTag;
  userBehaviorPriceTable : list UserBehaviorPrice;
  userBlendConfigTable : list UserBlendConfig
}.

Definition withUserTags (db : DB) (rows : list UserTagRow) : DB :=
  {| bountyTable := bountyTable db;
     bountyTagTable := bountyTagTable db;
     userTagTable := rows;
     mutualTable := mutualTable db;
     userBehaviorTagTable := userBehaviorTagTable db;
     userBehaviorPriceTable := userBehaviorPriceTable db;
     userBlendConfigTable := userBlendConfigTable db |}.

Definition withBehaviorTags (db : DB) (rows : list UserBehaviorTag) : DB :=
  {| bountyTable := bountyTable db;
     bountyTagTable := bountyTagTable db;
     userTagTable := userTagTable db;
     mutualTable := mutualTable db;
     userBehaviorTagTable := rows;
     userBehaviorPriceTable := userBehaviorPriceTable db;
     userBlendConfigTable := userBlendConfigTable db |}.

Definition withBehaviorPrices (db : DB) (rows : list UserBehaviorPrice) : DB :=
  {| bountyTable := bountyTable db;
     bountyTagTable := bountyTagTable db;
     userTagTable := userTagTable db;
     mutualTable := mutualTable db;
     userBehaviorTagTable := userBehaviorTagTable db;
     userBehaviorPriceTable := rows;
     userBlendConfigTable := userBlendConfigTable db |}.

Definition withBlendConfigs (db : DB) (rows : list UserBlendConfig) : DB :=
  {| bountyTable := bountyTable db;
     bountyTagTable := bountyTagTable db;
     userTagTable := userTagTable db;
     mutualTable := mutualTable db;
     userBehaviorTagTable := userBehaviorTagTable db;
     userBehaviorPriceTable := userBehaviorPriceTable db;
     userBlendConfigTable := rows |}.

(** [update(table).set(f).where(p)]: every matching row is rewritten. *)
Definition updateWhere {A : Type} (p : A -> bool) (f : A -> A) (rows : list A)
  : list A :=
  map (fun r => if p r then f r else r) rows.

End Schema.

(** ** behavior.ts *)

Module Behavior.
Import Schema.

Inductive InteractionType : Set := view | like | submit | complete.

Definition BEHAVIOR_WEIGHTS (t : InteractionType) : Q :=
  match t with
  | view => 0.1
  | like => 0.2
  | submit => 0.3
  | complete => 0.4
  end.

Definition START_BLENDING : Z := 10.
Definition EQUAL_WEIGHT : Z := 50.
Definition TRUST_IMPLICIT : Z := 100.

(** [existing[countField]] and [existing[scoreField]], the field being
    chosen by the interaction type. *)
Definition countField (t : InteractionType) (r : UserBehaviorTag) : Z :=
  match t with
  | view => viewCount r
  | like => likeCount r
  | submit => submitCount r
  | complete => completeCount r
  end.

Definition scoreField (t : InteractionType) (r : UserBehaviorTag) : Q :=
  match t with
  | view => viewScore r
  | like => likeScore r
  | submit => submitScore r
  | complete => completeScore r
  end.

(** [{ ...r, [countField]: c, [scoreField]: s }] *)
Definition setCountScore (t : InteractionType) (c : Z) (s : Q) (r : UserBehaviorTag)
  : UserBehaviorTag :=
  {| ubt_userId := ubt_userId r;
     ubt_tagId := ubt_tagId r;
     viewCount := match t with view => c | _ => viewCount r end;
     viewScore := match t with view => s | _ => viewScore r end;
     likeCount := match t with like => c | _ => likeCount r end;
     likeScore := match t with like => s | _ => likeScore r end;
     submitCount := match t with submit => c | _ => submitCount r end;
     submitScore := match t with submit => s | _ => submitScore r end;
     completeCount := match t with complete => c | _ => completeCount r end;
     completeScore := match t with complete => s | _ => completeScore r end;
     implicitScore := implicitScore r;
     lastExplicitScore := lastExplicitScore r;
     divergenceDetected := divergenceDetected r |}.

Definition setImplicitScore (v : Q) (r : UserBehaviorTag) : UserBehaviorTag :=
  {| ubt_userId := ubt_userId r;
     ubt_tagId := ubt_tagId r;
     viewCount := viewCount r;
     viewScore := viewScore r;
     likeCount := likeCount r;
     likeScore := likeScore r;
     submitCount := submitCount r;
     submitScore := submitScore r;
     completeCount := completeCount r;
     completeScore := completeScore r;
     implicitScore := v;
     lastExplicitScore := lastExplicitScore r;
     divergenceDetected := divergenceDetected r |}.

(** [.set({ divergenceDetected: d, lastExplicitScore: e })] *)
Definition setDivergence (d : bool) (e : option Q) (r : UserBehaviorTag)
  : UserBehaviorTag :=
  {| ubt_userId := ubt_userId r;
     ubt_tagId := ubt_tagId r;
     viewCount := viewCount r;
     viewScore := viewScore r;
     likeCount := likeCount r;
     likeScore := likeScore r;
     submitCount := submitCount r;
     submitScore := submitScore r;
     completeCount := completeCount r;
     completeScore := completeScore r;
     implicitScore := implicitScore r;
     lastExplicitScore := e;
     divergenceDetected := d |}.

(** The row of [db.insert(userBehaviorTag).values({ userId, tagId })] before
    the dynamic fields are filled in: every other column has its default. *)
Definition defaultBehaviorTag (userId : string) (tagId : Z) : UserBehaviorTag :=
  {| ubt_userId := userId;
     ubt_tagId := tagId;
     viewCount := 0; viewScore := 0;
     likeCount := 0; likeScore := 0;
     submitCount := 0; submitScore := 0;
     completeCount := 0; completeScore := 0;
     implicitScore := 0;
     lastExplicitScore := None;
     divergenceDetected := false |}.

(** The [where] clause shared by every access to [user_behavior_tag]. *)
Definition isTagRow (userId : string) (tagId : Z) (r : UserBehaviorTag) : bool :=
  bool_decide (ubt_userId r = userId) && (ubt_tagId r =? tagId)%Z.

Definition computeImplicitTagScore (behavior : UserBehaviorTag) : Q :=
  let raw :=
    viewScore behavior * 0.1 +
    likeScore behavior * 0.2 +
    submitScore behavior * 0.3 +
    completeScore behavior * 0.4 in
  Qmin 10 raw.

Definition updateTagBehavior (db : DB) (userId : string) (tagId : Z)
    (interactionType : InteractionType) : DB :=
  match List.find (isTagRow userId tagId) (userBehaviorTagTable db) with
  | Some existing =>
      let newCount := (countField interactionType existing + 1)%Z in
      let newScore :=
        Qmin 10 (inject_Z newCount * BEHAVIOR_WEIGHTS interactionType * 2) in
      let newImplicit :=
        computeImplicitTagScore
          (setCountScore interactionType newCount newScore existing) in
      withBehaviorTags db
        (updateWhere (isTagRow userId tagId)
           (fun r => setImplicitScore newImplicit
                       (setCountScore interactionType newCount newScore r))
           (userBehaviorTagTable db))
  | None =>
      let initialCount := 1%Z in
      let initialScore := BEHAVIOR_WEIGHTS interactionType * 2 in
      withBehaviorTags db
        (userBehaviorTagTable db ++
           [setImplicitScore initialScore
              (setCountScore interactionType initialCount initialScore
                 (defaultBehaviorTag userId tagId))])
  end.

(** [Math.min(...l)] and [Math.max(...l)] on a list known to be non-empty. *)
Definition minOf (x : Q) (l : list Q) : Q := fold_left Qmin l x.
Definition maxOf (x : Q) (l : list Q) : Q := fold_left Qmax l x.

Definition avgField (t : InteractionType) (r : UserBehaviorPrice) : Q :=
  match t with
  | view => avgPriceViewed r
  | like => avgPriceLiked r
  | submit => avgPriceSubmitted r
  | complete => avgPriceCompleted r
  end.

(** [.set({ [field]: newAvg, implicitPriceMin, implicitPriceMax })] *)
Definition setPriceFields (t : InteractionType) (newAvg : Q)
    (implicitMin implicitMax : option Q) (r : UserBehaviorPrice) : UserBehaviorPrice :=
  {| ubp_userId := ubp_userId r;
     avgPriceViewed := match t with view => newAvg | _ => avgPriceViewed r end;
     avgPriceLiked := match t with like => newAvg | _ => avgPriceLiked r end;
     avgPriceSubmitted := match t with submit => newAvg | _ => avgPriceSubmitted r end;
     avgPriceCompleted := match t with complete => newAvg | _ => avgPriceCompleted r end;
     implicitPriceMin := implicitMin;
     implicitPriceMax := implicitMax;
     lastExplicitMin := lastExplicitMin r;
     lastExplicitMax := lastExplicitMax r;
     ubp_divergenceDetected := ubp_divergenceDetected r |}.

Definition isPriceRow (userId : string) (r : UserBehaviorPrice) : bool :=
  bool_decide (ubp_userId r = userId).

Definition updatePriceBehavior (db : DB) (userId : string) (price : Q)
    (interactionType : InteractionType) : DB :=
  match List.find (isPriceRow userId) (userBehaviorPriceTable db) with
  | None =>
      withBehaviorPrices db
        (userBehaviorPriceTable db ++
           [{| ubp_userId := userId;
               avgPriceViewed := match interactionType with view => price | _ => 0 end;
               avgPriceLiked := match interactionType with like => price | _ => 0 end;
               avgPriceSubmitted := match interactionType with submit => price | _ => 0 end;
               avgPriceCompleted := match interactionType with complete => price | _ => 0 end;
               implicitPriceMin := None;
               implicitPriceMax := None;
               lastExplicitMin := None;
               lastExplicitMax := None;
               ubp_divergenceDetected := false |}])
  | Some existing =>
      let alpha := 0.1 in
      let currentAvg := avgField interactionType existing in
      let newAvg :=
        if Qeq_bool currentAvg 0 then price
        else currentAvg * (1 - alpha) + price * alpha in
      let allAvgs :=
        List.filter (fun v => Qgtb v 0)
          [ match interactionType with view => newAvg | _ => avgPriceViewed existing end;
            match interactionType with like => newAvg | _ => avgPriceLiked existing end;
            match interactionType with submit => newAvg | _ => avgPriceSubmitted existing end;
            match interactionType with complete => newAvg | _ => avgPriceCompleted existing end ] in
      let implicitMin :=
        match allAvgs with
        | [] => None
        | v :: vs => Some (minOf v vs * 0.5)
        end in
      let implicitMax :=
        match allAvgs with
        | [] => None
        | v :: vs => Some (maxOf v vs * 1.5)
        end in
      withBehaviorPrices db
        (updateWhere (isPriceRow userId)
           (setPriceFields interactionType newAvg implicitMin implicitMax)
           (userBehaviorPriceTable db))
  end.

(** The explicit and implicit weights computed for the new interaction
    total [newTotal]. *)
Definition blendWeights (newTotal : Z) : Q * Q :=
  if (newTotal >=? TRUST_IMPLICIT)%Z then (0.3, 0.7)
  else if (newTotal >=? EQUAL_WEIGHT)%Z then (0.5, 0.5)
  else if (newTotal >=? START_BLENDING)%Z then
    let progress :=
      inject_Z (newTotal - START_BLENDING) / inject_Z (EQUAL_WEIGHT - START_BLENDING) in
    (0.8 - progress * 0.3, 0.2 + progress * 0.3)
  else (0.8, 0.2).

(** [.set({ totalInteractions, explicitWeight, implicitWeight })] *)
Definition setBlend (newTotal : Z) (w : Q * Q) (c : UserBlendConfig) : UserBlendConfig :=
  {| ubc_userId := ubc_userId c;
     explicitWeight := w.1;
     implicitWeight := w.2;
     totalInteractions := newTotal;
     divergenceThreshold := divergenceThreshold c;
     lastDivergencePrompt := lastDivergencePrompt c;
     divergencePromptCount := divergencePromptCount c |}.

Definition isConfigRow (userId : string) (c : UserBlendConfig) : bool :=
  bool_decide (ubc_userId c = userId).

Definition updateBlendConfig (db : DB) (userId : string) : DB :=
  match List.find (isConfigRow userId) (userBlendConfigTable db) with
  | None => db
  | Some config =>
      let newTotal := (totalInteractions config + 1)%Z in
      withBlendConfigs db
        (updateWhere (isConfigRow userId)
           (setBlend newTotal (blendWeights newTotal))
           (userBlendConfigTable db))
  end.


(** An insertion-ordered [Map], for a map that is iterated: [set] on a key
    already present replaces its value in place, a new key goes last. *)
Fixpoint orderedSet {V : Type} (k : Z) (v : V) (m : list (Z * V)) : list (Z * V) :=
  match m with
  | [] => [(k, v)]
  | kv :: m' => if (kv.1 =? k)%Z then (k, v) :: m' else kv :: orderedSet k v m'
  end.

Definition orderedMapOfEntries {V : Type} (entries : list (Z * V)) : list (Z * V) :=
  fold_left (fun m kv => orderedSet kv.1 kv.2 m) entries [].

(** One turn of the [for (const [tagId, implicitScore] of implicitMap)] loop
    of [checkDivergence], on the rows of [user_behavior_tag]. *)
Definition divergenceStep (userId : string) (explicitMap : gmap Z Z)
    (rows : list UserBehaviorTag) (entry : Z * Q) : list UserBehaviorTag :=
  let tagId := entry.1 in
  let implicitScore := entry.2 in
  let explicitScore := explicitMap !! tagId in
  let notExplicit :=
    match explicitScore with
    | None => true
    | Some e => (e =? 0)%Z
    end in
  let rows1 :=
    if notExplicit && Qgeb implicitScore 3
    then updateWhere (isTagRow userId tagId) (setDivergence true (Some 0)) rows
    else rows in
  match explicitScore with
  | Some e =>
      if negb (e =? 0)%Z && (e >=? 4)%Z && Qltb implicitScore 1
      then updateWhere (isTagRow userId tagId)
             (setDivergence true (Some (inject_Z e))) rows1
      else rows1
  | None => rows1
  end.

Definition checkDivergence (db : DB) (userId : string) : DB :=
  let explicitTags :=
    map (fun t => (utr_tagId t, utr_score t))
      (List.filter (fun t => bool_decide (utr_userId t = userId)) (userTagTable db)) in
  let implicitTags :=
    map (fun r => (ubt_tagId r, implicitScore r))
      (List.filter (fun r => bool_decide (ubt_userId r = userId))
         (userBehaviorTagTable db)) in
  let explicitMap := mapOfEntries explicitTags in
  let implicitMap := orderedMapOfEntries implicitTags in
  withBehaviorTags db
    (fold_left (divergenceStep userId explicitMap) implicitMap
       (userBehaviorTagTable db)).

Definition trackBehavior (db : DB) (userId : string) (bountyId : Z)
    (interactionType : InteractionType) : DB :=
  match List.find (fun b => (Recommendation.id b =? bountyId)%Z) (bountyTable db) with
  | None => db
  | Some bountyData =>
      let bountyTags :=
        map btr_tagId
          (List.filter (fun bt => (btr_bountyId bt =? bountyId)%Z) (bountyTagTable db)) in
      let db1 :=
        fold_left (fun d tagId => updateTagBehavior d userId tagId interactionType)
          bountyTags db in
      let db2 := updatePriceBehavior db1 userId (Recommendation.price bountyData)
                   interactionType in
      let db3 := updateBlendConfig db2 userId in
      checkDivergence db3 userId
  end.

(** [markDivergencePromptShown]; [now] is the value of [new Date()]. *)
Definition markDivergencePromptShown (db : DB) (userId : string) (now : Z) : DB :=
  withBlendConfigs db
    (updateWhere (isConfigRow userId)
       (fun c =>
          {| ubc_userId := ubc_userId c;
             explicitWeight := explicitWeight c;
             implicitWeight := implicitWeight c;
             totalInteractions := totalInteractions c;
             divergenceThreshold := divergenceThreshold c;
             lastDivergencePrompt := Some now;
             divergencePromptCount := (divergencePromptCount c + 1)%Z |})
       (userBlendConfigTable db)).

Definition clearDivergence (db : DB) (userId : string) (tagId : Z) : DB :=
  withBehaviorTags db
    (updateWhere (isTagRow userId tagId)
       (fun r => setDivergence false (lastExplicitScore r) r)
       (userBehaviorTagTable db)).

End Behavior.

(** ** The recommendation router (routers/recommendation.ts) *)

Module Router.
Import Schema.
Import Recommendation.

(** The entry pushed on [result] for the row [m], found at layer [l], with
    strength [s]. *)
Definition connection (l : Layer) (s : Q) (m : MutualRow) : MutualConnection :=
  {| mutualId := m_mutualId m; layer := l; strength := s |}.

(** One turn of the layer-2 loop, on [(layer2Ids, result)]. *)
Definition layer2Step (userId : string) (layer1Ids : list string)
    (acc : gset string * list MutualConnection) (m : MutualRow)
  : gset string * list MutualConnection :=
  if negb (bool_decide (m_mutualId m ∈ layer1Ids))
     && negb (bool_decide (m_mutualId m = userId))
  then ({[ m_mutualId m ]} ∪ acc.1, acc.2 ++ [connection L2 (m_strength m * 0.5) m])
  else acc.

(** One turn of the layer-3 loop, on [result]. *)
Definition layer3Step (userId : string) (layer1Ids : list string)
    (layer2Ids : gset string) (result : list MutualConnection) (m : MutualRow)
  : list MutualConnection :=
  if negb (bool_decide (m_mutualId m ∈ layer1Ids))
     && negb (bool_decide (m_mutualId m ∈ layer2Ids))
     && negb (bool_decide (m_mutualId m = userId))
  then result ++ [connection L3 (m_strength m * 0.25) m]
  else result.

(** The rows selected by
    [and(inArray(mutual.userId, ids), sql`mutualId != userId`)]. *)
Definition edgesFrom (table : list MutualRow) (ids : list string) (userId : string)
  : list MutualRow :=
  List.filter
    (fun m => bool_decide (m_userId m ∈ ids)
              && negb (bool_decide (m_mutualId m = userId)))
    table.

Definition getMutualsThreeLayers (db : DB) (userId : string) : list MutualConnection :=
  let layer1 :=
    List.filter (fun m => bool_decide (m_userId m = userId)) (mutualTable db) in
  if (length layer1 =? 0)%nat then []
  else
    let layer1Ids := map m_mutualId layer1 in
    let result := map (fun m => connection L1 (m_strength m) m) layer1 in
    let layer2Raw := edgesFrom (mutualTable db) layer1Ids userId in
    let acc := fold_left (layer2Step userId layer1Ids) layer2Raw (∅, result) in
    let layer2Ids := acc.1 in
    let result := acc.2 in
    if (0 <? size layer2Ids)%nat then
      let layer3Raw := edgesFrom (mutualTable db) (elements layer2Ids) userId in
      fold_left (layer3Step userId layer1Ids layer2Ids) layer3Raw result
    else result.

Inductive DivergenceAction : Set := add_skill | remove_skill | keep | dismiss.

(** [respondToDivergence]; [now] is the clock read by
    [markDivergencePromptShown]. *)
Definition respondToDivergence (db : DB) (userId : string) (now : Z) (tagId : Z)
    (action : DivergenceAction) (newScore : option Z) : DB :=
  let addSkill :=
    match action, newScore with
    | add_skill, Some s => if (s =? 0)%Z then None else Some s
    | _, _ => None
    end in
  let db1 :=
    match addSkill with
    | Some s =>
        withUserTags db
          (userTagTable db ++
             [{| utr_userId := userId; utr_tagId := tagId; utr_score := s;
                 utr_source := "divergence_prompt" |}])
    | None =>
        match action with
        | remove_skill =>
            withUserTags db
              (List.filter
                 (fun t => negb (bool_decide (utr_userId t = userId)
                                 && (utr_tagId t =? tagId)%Z))
                 (userTagTable db))
        | _ => db
        end
    end in
  let db2 := Behavior.clearDivergence db1 userId tagId in
  Behavior.markDivergencePromptShown db2 userId now.

End Router.

(** ** Vocabulary of the specification and test data *)

Module Spec.
Import Recommendation.







(** The user's score for a tag, read off the tag list: the last entry for
    the tag counts, and an absent tag scores 0. *)
Fixpoint lastScore (U : list UserTagScore) (tagId : Z) : option Q :=
  match U with
  | [] => None
  | t :: U' =>
      match lastScore U' tagId with
      | Some v => Some v
      | None => if (ut_tagId t =? tagId)%Z then Some (ut_score t) else None
      end
  end.

Definition userScoreOf (U : list UserTagScore) (tagId : Z) : Q :=
  orZero (lastScore U tagId).

(** Sum over the bounty tags of userScore x weight, and sum of the weights. *)
Definition sumProducts (U : list UserTagScore) (B : list BountyTag) : Q :=
  foldr (fun bt acc => userScoreOf U (bt_tagId bt) * weight bt + acc) 0 B.

Definition sumWeights (B : list BountyTag) : Q :=
  foldr (fun bt acc => weight bt + acc) 0 B.

(** [l1] is a strict subset of [l2]. *)
Definition strictSubset {A : Type} (l1 l2 : list A) : Prop :=
  (forall x, x ∈ l1 -> x ∈ l2) /\ exists x, x ∈ l2 /\ x ∉ l1.

(** An open bounty with the given id, price, tier and engagement score. *)
Definition mkBounty (i : Z) (p : Q) (t : Tier) (e : Q) : BountyData :=
  {| id := i; title := "bounty"; description := "test bounty";
     price := p; tier := t; status := open;
     views := 0; submissions := 0; likes := 0;
     engagementScore := e;
     creatorId := None; claimedById := None;
     createdAt := 0; updatedAt := 0;
     expiresAt := None; completedAt := None |}.

(** The multiplier of a layer as the specification lists it. *)
Definition layerDecay (l : Layer) : Q :=
  match l with
  | L1 => 1.0
  | L2 => 0.5
  | L3 => 0.25
  end.

(** The mutual's user has interacted with the bounty. *)
Definition interacted (bountyId : Z) (mutualInteractions : gmap string (list Z))
    (m : MutualConnection) : Prop :=
  bountyId ∈ default [] (mutualInteractions !! mutualId m).

#[export] Instance interacted_dec bountyId mutualInteractions m :
  Decision (interacted bountyId mutualInteractions m).
Proof. unfold interacted. apply _. Defined.

(** What one mutual adds to the boost, and the total over a list of mutuals. *)
Definition contribution (bountyId : Z) (mutualInteractions : gmap string (list Z))
    (m : MutualConnection) : Q :=
  if bool_decide (interacted bountyId mutualInteractions m)
  then strength m * layerDecay (layer m)
  else 0.

Definition socialSum (bountyId : Z) (mutualInteractions : gmap string (list Z))
    (ms : list MutualConnection) : Q :=
  foldr (fun m acc => contribution bountyId mutualInteractions m + acc) 0 ms.

(** Ranking by final score: [a] may stand before [b]. *)
Definition byFinalScoreDesc (a b : ScoredBounty) : Prop :=
  finalScore b <= finalScore a.



(** The end-to-end scenario: a middle-tier user who views bounties of 500 on
    average and declares typescript (tag 1) at 5, no mutuals, and one open
    middle-tier bounty priced 600 that carries typescript with weight 1.0. *)
Definition scenarioInput : RecommendationInput :=
  {| userId := "user";
     userTags := [{| ut_tagId := 1; ut_tagName := "typescript"; ut_score := 5 |}];
     userProfile := {| avgPriceViewed := 500; up_engagementScore := 0;
                       accessTier := middle |};
     mutuals := [] |}.

Definition scenarioBounty : BountyData := mkBounty 1 600 middle 0.

Definition scenarioTagMap : gmap Z (list BountyTag) :=
  {[ 1%Z := [{| bt_tagId := 1; weight := 1.0 |}] ]}.

(** A second open middle-tier bounty priced 600, tagged rust (tag 2) only: the
    scenario user has no score for it. *)
Definition stretchBounty : BountyData := mkBounty 2 600 middle 0.

Definition stretchTagMap : gmap Z (list BountyTag) :=
  {[ 1%Z := [{| bt_tagId := 1; weight := 1.0 |}];
     2%Z := [{| bt_tagId := 2; weight := 1.0 |}] ]}.

End Spec.

(** ** Vocabulary for the behavior tracker *)

Module BehaviorSpec.
Import Schema Behavior.

(** The base weight of an event type, as the specification lists it. *)
Definition baseWeight (t : InteractionType) : Q :=
  match t with
  | view => 0.1
  | like => 0.2
  | submit => 0.3
  | complete => 0.4
  end.

(** The per-type score and the implicit score that the specification
    prescribes for a record, from the record's own counters and scores. *)
Definition perTypeFormula (t : InteractionType) (r : UserBehaviorTag) : Q :=
  Qmin 10 (inject_Z (countField t r) * baseWeight t * 2).

Definition implicitFormula (r : UserBehaviorTag) : Q :=
  Qmin 10 (viewScore r * 0.1 + likeScore r * 0.2 +
           submitScore r * 0.3 + completeScore r * 0.4).

(** A recorded behavior event is one call of [trackBehavior]. *)
Inductive behaviorStep : DB -> DB -> Prop :=
| step_track (db : DB) (userId : string) (bountyId : Z) (t : InteractionType) :
    behaviorStep db (trackBehavior db userId bountyId t).

(** Row by row, [rows'] holds the records of [rows] at the same positions, for
    the same user and tag, and every flag that was set is still set. *)
Definition flagsKept (rows rows' : list UserBehaviorTag) : Prop :=
  forall i r, rows !! i = Some r ->
    exists r', rows' !! i = Some r' /\
               ubt_userId r' = ubt_userId r /\
               ubt_tagId r' = ubt_tagId r /\
               (divergenceDetected r = true -> divergenceDetected r' = true).

(** A database with one open bounty (id 1, price 600) that carries tag 1, and
    no behavior recorded yet. *)
Definition oneBountyDB : DB :=
  {| bountyTable := [Spec.scenarioBounty];
     bountyTagTable := [{| btr_bountyId := 1; btr_tagId := 1; btr_weight := 1.0 |}];
     userTagTable := [];
     mutualTable := [];
     userBehaviorTagTable := [];
     userBehaviorPriceTable := [];
     userBlendConfigTable := [] |}.

(** The same database where the user already has a flagged record for tag 1
    with implicit score 0 and no explicit score: the divergence condition
    does not hold (any more). *)
Definition flaggedDB : DB :=
  withBehaviorTags oneBountyDB
    [setDivergence true (Some 0) (defaultBehaviorTag "user" 1)].

(** A database holding one blend configuration with 29 interactions. *)
Definition blendDB : DB :=
  withBlendConfigs oneBountyDB
    [{| ubc_userId := "user"; explicitWeight := 0.8; implicitWeight := 0.2;
        totalInteractions := 29; divergenceThreshold := 3.0;
        lastDivergencePrompt := None; divergencePromptCount := 0 |}].

End BehaviorSpec.

(** ** Vocabulary for the mutual expansion *)

Module RouterSpec.
Import Schema Recommendation.

(** The stored edges that make up each layer, as the specification describes
    them: layer 1 is the edges of the user; layer 2 is the edges leaving a
    layer-1 id towards an id that is neither the user nor a layer-1 id;
    layer 3 is the edges leaving a layer-2 id towards an id that is neither
    the user, nor a layer-1 id, nor a layer-2 id. *)
Definition layer1Rows (db : DB) (userId : string) : list MutualRow :=
  List.filter (fun m => bool_decide (m_userId m = userId)) (mutualTable db).

Definition layer1Ids (db : DB) (userId : string) : list string :=
  map m_mutualId (layer1Rows db userId).

Definition layer2Rows (db : DB) (userId : string) : list MutualRow :=
  List.filter
    (fun m => negb (bool_decide (m_mutualId m ∈ layer1Ids db userId))
              && negb (bool_decide (m_mutualId m = userId)))
    (Router.edgesFrom (mutualTable db) (layer1Ids db userId) userId).

Definition layer2Ids (db : DB) (userId : string) : list string :=
  map m_mutualId (layer2Rows db userId).

Definition layer3Rows (db : DB) (userId : string) : list MutualRow :=
  List.filter
    (fun m => negb (bool_decide (m_mutualId m ∈ layer1Ids db userId))
              && negb (bool_decide (m_mutualId m ∈ layer2Ids db userId))
              && negb (bool_decide (m_mutualId m = userId)))
    (Router.edgesFrom (mutualTable db) (layer2Ids db userId) userId).

Definition edge (u v : string) (s : Q) : MutualRow :=
  {| m_userId := u; m_mutualId := v; m_layer := 1; m_strength := s |}.

Definition graphDB (edges : list MutualRow) : DB :=
  {| bountyTable := [];
     bountyTagTable := [];
     userTagTable := [];
     mutualTable := edges;
     userBehaviorTagTable := [];
     userBehaviorPriceTable := [];
     userBlendConfigTable := [] |}.

(** A diamond: the user knows ann and bob, who both know cat. *)
Definition diamondDB : DB :=
  graphDB [edge "user" "ann" 1.0; edge "user" "bob" 1.0;
           edge "ann" "cat" 1.0; edge "bob" "cat" 1.0].

End RouterSpec.

(** ** The same arithmetic in binary64

    JavaScript evaluates the formulas in IEEE 754 binary64. The expressions
    whose exact value the specification names (the blend weights and the
    weighted combination of the final score) are replayed here on primitive
    floats, with the decimal constants rounded as JavaScript rounds them. *)

Module Binary64.

#[local] Set Warnings "-inexact-float".

(** An integer below 2^53 as a float. *)
Fixpoint ofPositive (p : positive) : float :=
  match p with
  | xH => 1
  | xO q => 2 * ofPositive q
  | xI q => 2 * ofPositive q + 1
  end%float.

Definition ofZ (z : Z) : float :=
  match z with
  | Z0 => 0
  | Zpos p => ofPositive p
  | Zneg p => - ofPositive p
  end%float.

(** [updateBlendConfig]: the weights for the new total. *)
Definition blendWeights64 (newTotal : Z) : float * float :=
  (if (newTotal >=? Behavior.TRUST_IMPLICIT)%Z then (0.3, 0.7)
   else if (newTotal >=? Behavior.EQUAL_WEIGHT)%Z then (0.5, 0.5)
   else if (newTotal >=? Behavior.START_BLENDING)%Z then
     let progress :=
       ofZ (newTotal - Behavior.START_BLENDING)
       / ofZ (Behavior.EQUAL_WEIGHT - Behavior.START_BLENDING) in
     (0.8 - progress * 0.3, 0.2 + progress * 0.3)
   else (0.8, 0.2))%float.

(** The weighted combination of [getRecommendations] and [scoreAllBounties]. *)
Definition combine64 (relevanceScore socialBoost priceAffinity normalizedEngagement : float)
  : float :=
  ((relevanceScore / 10) * 0.55 * 10 +
   (socialBoost / 2) * 0.15 * 10 +
   priceAffinity * 0.20 * 10 +
   normalizedEngagement * 0.10 * 10)%float.

(** The blend weights for the totals [from], [from + 1], ... ([count] of
    them) sum to 1. *)
Definition sumsToOne (from : Z) (count : nat) : bool :=
  forallb
    (fun k => let w := blendWeights64 (from + Z.of_nat k) in
              PrimFloat.eqb (w.1 + w.2) 1)
    (seq 0 count).

End Binary64.

(** ** recommendation.ts: tag match details *)

Module TagMatch.
Import Recommendation.

(** A bounty tag with its name, as [getBountyFeed] joins it. *)
Record NamedBountyTag : Type := {
  nbt_tagId : Z;
  nbt_tagName : string;
  nbt_weight : Q
}.

Record TagMatchDetail : Type := {
  tmd_tagId : Z;
  tmd_tagName : string;
  userScore : Q;
  bountyWeight : Q;
  contribution : Q
}.

Definition getTagMatchDetails (userTags : list UserTagScore)
    (bountyTags : list NamedBountyTag) : list TagMatchDetail :=
  let userTagMap :=
    mapOfEntries (map (fun t => (ut_tagId t, (ut_score t, ut_tagName t))) userTags) in
  map (fun bt =>
         let userTag := userTagMap !! nbt_tagId bt in
         let userScore := orZero (fst <$> userTag) in
         {| tmd_tagId := nbt_tagId bt;
            tmd_tagName := nbt_tagName bt;
            userScore := userScore;
            bountyWeight := nbt_weight bt;
            contribution := userScore * nbt_weight bt |})
      bountyTags.

(** The entry of [bountyTagMap] that [getBountyFeed] pushes next to the named
    one. *)
Definition withoutName (bt : NamedBountyTag) : BountyTag :=
  {| bt_tagId := nbt_tagId bt; weight := nbt_weight bt |}.

(** Totals over a list of details. *)
Definition totalContribution (ds : list TagMatchDetail) : Q :=
  foldr (fun d acc => contribution d + acc) 0 ds.

Definition totalWeight (ds : list TagMatchDetail) : Q :=
  foldr (fun d acc => bountyWeight d + acc) 0 ds.

End TagMatch.

(** ** More vocabulary for the behavior tracker *)

Module BehaviorSpec2.
Import Schema Behavior.

#[export] Instance InteractionType_eq_dec : EqDecision InteractionType.
Proof. solve_decision. Defined.

(** The counters of a record are non-negative, its four per-type scores and
    its implicit score lie in [0,10]. *)
Definition rowInBounds (r : UserBehaviorTag) : Prop :=
  (forall t, (0 <= countField t r)%Z /\ 0 <= scoreField t r <= 10) /\
  0 <= implicitScore r <= 10.

(** The rows of a table that belong to other users than [userId]. *)
Definition othersTags (userId : string) (rows : list UserBehaviorTag)
  : list UserBehaviorTag :=
  List.filter (fun r => negb (bool_decide (ubt_userId r = userId))) rows.

Definition othersPrices (userId : string) (rows : list UserBehaviorPrice)
  : list UserBehaviorPrice :=
  List.filter (fun r => negb (bool_decide (ubp_userId r = userId))) rows.

Definition othersConfigs (userId : string) (rows : list UserBlendConfig)
  : list UserBlendConfig :=
  List.filter (fun r => negb (bool_decide (ubc_userId r = userId))) rows.



End BehaviorSpec2.

(** ** behavior.ts: divergence alerts *)

Module Alerts.
Import Schema Behavior.

(** [tag] *)
Record TagRow : Type := {
  tag_id : Z;
  tag_name : string;
  tag_category : string;
  tag_popularity : option Z
}.

Inductive AlertType : Set := new_interest | unused_skill.

Record DivergenceAlert : Type := {
  da_type : AlertType;
  da_tagId : Z;
  da_tagName : string;
  da_explicitScore : Q;
  da_implicitScore : Q;
  da_message : string
}.

(** The rows selected by
    [and(eq(userId, userId), eq(divergenceDetected, true))]. *)
Definition divergentTags (db : DB) (userId : string) : list UserBehaviorTag :=
  List.filter
    (fun r => bool_decide (ubt_userId r = userId) && Bool.eqb (divergenceDetected r) true)
    (userBehaviorTagTable db).

(** The guard on [config?.lastDivergencePrompt]: fewer than 24 hours since
    the last prompt; [now] is [Date.now()], in milliseconds. *)
Definition promptedRecently (db : DB) (now : Z) (userId : string) : bool :=
  match List.find (isConfigRow userId) (userBlendConfigTable db) with
  | Some config =>
      match lastDivergencePrompt config with
      | Some last =>
          let hoursSinceLastPrompt :=
            inject_Z (now - last) / inject_Z (1000 * 60 * 60) in
          Qltb hoursSinceLastPrompt 24
      | None => false
      end
  | None => false
  end.

Section NumberFormat.

(** How a template literal prints a number of a [real] column. *)
Variable showNumber : Q -> string.

(** One turn of the [for (const dt of divergentTags)] loop: the alert pushed
    for the row, if any. *)
Definition alertFor (nameMap : gmap Z string) (dt : UserBehaviorTag)
  : option DivergenceAlert :=
  let tagName :=
    match nameMap !! ubt_tagId dt with
    | Some name => name
    | None => "Tag " +:+ pretty (ubt_tagId dt)
    end in
  let explicitScore := default 0 (lastExplicitScore dt) in
  if Qeq_bool explicitScore 0 && Qgeb (implicitScore dt) 3 then
    Some {| da_type := new_interest;
            da_tagId := ubt_tagId dt;
            da_tagName := tagName;
            da_explicitScore := 0;
            da_implicitScore := implicitScore dt;
            da_message :=
              "You've been engaging with " +:+ tagName
              +:+ " bounties. Add it to your skills?" |}
  else if Qgeb explicitScore 4 && Qltb (implicitScore dt) 1 then
    Some {| da_type := unused_skill;
            da_tagId := ubt_tagId dt;
            da_tagName := tagName;
            da_explicitScore := explicitScore;
            da_implicitScore := implicitScore dt;
            da_message :=
              "You said you know " +:+ tagName +:+ " (" +:+ showNumber explicitScore
              +:+ "/5), but haven't engaged with those bounties. Still accurate?" |}
  else None.

Definition getDivergenceAlerts (db : DB) (tags : list TagRow) (now : Z)
    (userId : string) : list DivergenceAlert :=
  if promptedRecently db now userId then []
  else
    let divergent := divergentTags db userId in
    if (length divergent =? 0)%nat then []
    else
      let tagIds := map ubt_tagId divergent in
      let tagNames :=
        if (0 <? length tagIds)%nat
        then List.filter (fun t => bool_decide (tag_id t ∈ tagIds)) tags
        else [] in
      let nameMap := mapOfEntries (map (fun t => (tag_id t, tag_name t)) tagNames) in
      omap (alertFor nameMap) divergent.

End NumberFormat.

End Alerts.

(** ** Vocabulary for the divergence check *)

Module DivergenceSpec.
Import Schema Behavior.

(** The explicit score the check reads for a tag: the last [user_tag] row of
    the user for it. *)
Fixpoint explicitScoreOf (rows : list UserTagRow) (userId : string) (tagId : Z)
  : option Z :=
  match rows with
  | [] => None
  | t :: rows' =>
      match explicitScoreOf rows' userId tagId with
      | Some e => Some e
      | None =>
          if bool_decide (utr_userId t = userId) && (utr_tagId t =? tagId)%Z
          then Some (utr_score t) else None
      end
  end.

(** The implicit score the check reads for a tag: that of the last behavior
    record of the user for it. *)
Fixpoint implicitScoreOf (rows : list UserBehaviorTag) (userId : string) (tagId : Z)
  : option Q :=
  match rows with
  | [] => None
  | r :: rows' =>
      match implicitScoreOf rows' userId tagId with
      | Some s => Some s
      | None => if isTagRow userId tagId r then Some (implicitScore r) else None
      end
  end.

(** The outcome of the check for a tag: [Some e] when the tag is to be
    flagged with last explicit score [e]. New interest: no explicit score (or
    0) and implicit score at least 3. Unused skill: explicit score at least 4
    and implicit score below 1. *)
Definition verdict (explicit : option Z) (implicit : Q) : option Q :=
  match explicit with
  | None => if Qgeb implicit 3 then Some 0 else None
  | Some e =>
      if (e =? 0)%Z then (if Qgeb implicit 3 then Some 0 else None)
      else if (e >=? 4)%Z && Qltb implicit 1 then Some (inject_Z e)
      else None
  end.

Definition applyVerdict (v : option Q) (r : UserBehaviorTag) : UserBehaviorTag :=
  match v with
  | Some e => setDivergence true (Some e) r
  | None => r
  end.

(** What the check makes of one record. *)
Definition checked (db : DB) (userId : string) (r : UserBehaviorTag) : UserBehaviorTag :=
  if bool_decide (ubt_userId r = userId) then
    match implicitScoreOf (userBehaviorTagTable db) userId (ubt_tagId r) with
    | Some s =>
        applyVerdict (verdict (explicitScoreOf (userTagTable db) userId (ubt_tagId r)) s) r
    | None => r
    end
  else r.

(** Lookup in an insertion-ordered map. *)
Fixpoint assocGet {V : Type} (m : list (Z * V)) (k : Z) : option V :=
  match m with
  | [] => None
  | kv :: m' => if (kv.1 =? k)%Z then Some kv.2 else assocGet m' k
  end.

(** The last value set for a key in a list of entries. *)
Fixpoint lastValue {V : Type} (entries : list (Z * V)) (k : Z) : option V :=
  match entries with
  | [] => None
  | kv :: entries' =>
      match lastValue entries' k with
      | Some v => Some v
      | None => if (kv.1 =? k)%Z then Some kv.2 else None
      end
  end.

(** A user with no explicit tags whose record for tag 1 has reached an
    implicit score of 3.5, and who has never been prompted. *)
Definition interestedDB : DB :=
  withBlendConfigs
    (withBehaviorTags BehaviorSpec.oneBountyDB
       [setImplicitScore 3.5 (defaultBehaviorTag "user" 1)])
    [{| ubc_userId := "user"; explicitWeight := 0.8; implicitWeight := 0.2;
        totalInteractions := 40; divergenceThreshold := 3.0;
        lastDivergencePrompt := None; divergencePromptCount := 0 |}].

End DivergenceSpec.

(** ** Vocabulary for the divergence alerts *)

Module AlertSpec.
Import Schema Behavior Alerts DivergenceSpec.

(** The name an alert shows for a tag: that of the (last) row of [tag] with
    the id, or the placeholder. *)
Definition tagNameOf (tags : list TagRow) (tagId : Z) : string :=
  match lastValue (map (fun t => (tag_id t, tag_name t)) tags) tagId with
  | Some name => name
  | None => "Tag " +:+ pretty tagId
  end.


(** The stored explicit score an alert is decided on. *)
Definition storedExplicit (r : UserBehaviorTag) : Q := default 0 (lastExplicitScore r).

(** A flagged record of the user. *)
Definition flagged (db : DB) (userId : string) (r : UserBehaviorTag) : Prop :=
  r ∈ userBehaviorTagTable db /\ ubt_userId r = userId /\ divergenceDetected r = true.

(** Integers print in decimal; used where a concrete printer is needed. *)
Definition showInteger (q : Q) : string := pretty (Qnum q / Z.pos (Qden q))%Z.

(** A tag table with one row. *)
Definition rustTags : list TagRow :=
  [{| tag_id := 1; tag_name := "rust"; tag_category := "language";
      tag_popularity := None |}].

End AlertSpec.

(** ** routers/recommendation.ts: the procedures

    The procedures read and write more tables than the two services: the
    store adds them to the database of the services. The session's user id is
    an argument. *)

Module Endpoints.
Import Recommendation Schema Behavior Router Alerts TagMatch.

(** [user_profile]; the GitHub columns and the timestamps, which no
    procedure below reads, are left out. *)
Record UserProfileRow : Type := {
  upr_userId : string;
  upr_totalInteractions : Z;
  upr_engagementScore : Q;
  upr_avgPriceViewed : Q;
  upr_accessTier : Tier;
  upr_platformScore : Q
}.

(** The [type] of a [bounty_interaction] row. *)
Inductive RecordedType : Set :=
  rec_view | rec_like | rec_submit | rec_claim | rec_complete.

(** [bounty_interaction] *)
Record BountyInteractionRow : Type := {
  bi_userId : string;
  bi_bountyId : Z;
  bi_type : RecordedType
}.

(** [bounty_view]; [viewedAt] in milliseconds. *)
Record BountyViewRow : Type := {
  bv_userId : string;
  bv_bountyId : Z;
  bv_viewedAt : Z
}.

(** The object that [JSON.stringify] serialises into a [reason] column. *)
Record Reason : Type := {
  reason_relevance : Q;
  reason_social : Q;
  reason_price : Q
}.

(** [recommendation_log] *)
Record RecommendationLogRow : Type := {
  rl_userId : string;
  primaryBountyId : Z;
  secondaryBountyId : Z;
  primaryScore : Q;
  secondaryScore : Q;
  reasonPrimary : Reason;
  reasonSecondary : Reason
}.

Record Store : Type := {
  core : DB;
  tagTable : list TagRow;
  userProfileTable : list UserProfileRow;
  bountyInteractionTable : list BountyInteractionRow;
  bountyViewTable : list BountyViewRow;
  recommendationLogTable : list RecommendationLogRow
}.

Definition withCore (st : Store) (db : DB) : Store :=
  {| core := db;
     tagTable := tagTable st;
     userProfileTable := userProfileTable st;
     bountyInteractionTable := bountyInteractionTable st;
     bountyViewTable := bountyViewTable st;
     recommendationLogTable := recommendationLogTable st |}.

Definition withProfiles (st : Store) (rows : list UserProfileRow) : Store :=
  {| core := core st;
     tagTable := tagTable st;
     userProfileTable := rows;
     bountyInteractionTable := bountyInteractionTable st;
     bountyViewTable := bountyViewTable st;
     recommendationLogTable := recommendationLogTable st |}.

Definition withInteractions (st : Store) (rows : list BountyInteractionRow) : Store :=
  {| core := core st;
     tagTable := tagTable st;
     userProfileTable := userProfileTable st;
     bountyInteractionTable := rows;
     bountyViewTable := bountyViewTable st;
     recommendationLogTable := recommendationLogTable st |}.


Definition withLog (st : Store) (rows : list RecommendationLogRow) : Store :=
  {| core := core st;
     tagTable := tagTable st;
     userProfileTable := userProfileTable st;
     bountyInteractionTable := bountyInteractionTable st;
     bountyViewTable := bountyViewTable st;
     recommendationLogTable := rows |}.

Definition withBounties (db : DB) (rows : list BountyData) : DB :=
  {| bountyTable := rows;
     bountyTagTable := bountyTagTable db;
     userTagTable := userTagTable db;
     mutualTable := mutualTable db;
     userBehaviorTagTable := userBehaviorTagTable db;
     userBehaviorPriceTable := userBehaviorPriceTable db;
     userBlendConfigTable := userBlendConfigTable db |}.

Definition isProfileRow (userId : string) (p : UserProfileRow) : bool :=
  bool_decide (upr_userId p = userId).

(** [eq(bounty.status, "open")] *)
Definition isOpen (b : BountyData) : bool :=
  match status b with
  | open => true
  | _ => false
  end.

(** The rows of
    [from(userTag).innerJoin(tag, eq(userTag.tagId, tag.id)).where(eq(userTag.userId, userId))],
    in the order of [user_tag]. *)
Definition userTagsWithNames (st : Store) (userId : string) : list UserTagScore :=
  flat_map
    (fun ut =>
       map (fun t => {| ut_tagId := utr_tagId ut;
                        ut_tagName := tag_name t;
                        ut_score := inject_Z (utr_score ut) |})
         (List.filter (fun t => (tag_id t =? utr_tagId ut)%Z) (tagTable st)))
    (List.filter (fun ut => bool_decide (utr_userId ut = userId)) (userTagTable (core st))).

(** [if (!map.has(k)) map.set(k, []); map.get(k)!.push(v)] *)
Definition pushTo `{Countable K} {V : Type} (m : gmap K (list V)) (k : K) (v : V)
  : gmap K (list V) :=
  let m1 := if bool_decide (is_Some (m !! k)) then m else <[k := []]> m in
  <[k := default [] (m1 !! k) ++ [v]]> m1.

(** The [bountyTagMap] that [getRecommendations] builds from all rows of
    [bounty_tag]. *)
Definition bountyTagMapOf (rows : list BountyTagRow) : gmap Z (list BountyTag) :=
  fold_left
    (fun m bt => pushTo m (btr_bountyId bt)
                   {| bt_tagId := btr_tagId bt; weight := btr_weight bt |})
    rows ∅.

(** The [mutualInteractions] map, built from the interactions of the
    mutuals when there are mutuals. *)
Definition mutualInteractionsOf (st : Store) (mutualIds : list string)
  : gmap string (list Z) :=
  if (0 <? length mutualIds)%nat then
    let mutualInteractionsRaw :=
      List.filter (fun mi => bool_decide (bi_userId mi ∈ mutualIds))
        (bountyInteractionTable st) in
    fold_left (fun m mi => pushTo m (bi_userId mi) (bi_bountyId mi))
      mutualInteractionsRaw ∅
  else ∅.

(** [getBountyTagNames]: name and weight of the tags of a bounty. *)
Definition getBountyTagNames (st : Store) (bountyId : Z) : list (string * Q) :=
  flat_map
    (fun bt =>
       map (fun t => (tag_name t, btr_weight bt))
         (List.filter (fun t => (tag_id t =? btr_tagId bt)%Z) (tagTable st)))
    (List.filter (fun bt => (btr_bountyId bt =? bountyId)%Z) (bountyTagTable (core st))).

Record Scores : Type := {
  sc_relevance : Q;
  sc_social : Q;
  sc_price : Q;
  sc_final : Q
}.

Definition scoresOf (sb : ScoredBounty) : Scores :=
  {| sc_relevance := relevanceScore sb;
     sc_social := socialBoost sb;
     sc_price := priceAffinity sb;
     sc_final := finalScore sb |}.

Definition reasonOf (sb : ScoredBounty) : Reason :=
  {| reason_relevance := relevanceScore sb;
     reason_social := socialBoost sb;
     reason_price := priceAffinity sb |}.

(** A recommended bounty as the procedure returns it. *)
Record Card : Type := {
  card_bounty : BountyData;
  card_tags : list (string * Q);
  card_scores : Scores
}.

Record ProfileSummary : Type := {
  ps_accessTier : Tier;
  ps_avgPriceViewed : Q;
  ps_engagementScore : Q;
  ps_platformScore : Q
}.

Definition summaryOf (profile : UserProfileRow) : ProfileSummary :=
  {| ps_accessTier := upr_accessTier profile;
     ps_avgPriceViewed := upr_avgPriceViewed profile;
     ps_engagementScore := upr_engagementScore profile;
     ps_platformScore := upr_platformScore profile |}.

Record Recommendations : Type := {
  rec_primary : Card;
  rec_secondary : Card;
  rec_userProfile : ProfileSummary;
  rec_debug : Debug
}.

(** The [RecommendationInput] both procedures pass to the service. *)
Definition inputOf (st : Store) (userId : string) (profile : UserProfileRow)
  : RecommendationInput :=
  {| userId := userId;
     userTags := userTagsWithNames st userId;
     userProfile := {| Recommendation.avgPriceViewed := upr_avgPriceViewed profile;
                       up_engagementScore := upr_engagementScore profile;
                       accessTier := upr_accessTier profile |};
     mutuals := getMutualsThreeLayers (core st) userId |}.

(** The [getRecommendations] procedure. The rows of [bounty] are already
    [BountyData]: the field-by-field copy of step 7 is the identity. *)
Definition getRecommendationsProcedure (st : Store) (userId : string)
  : result (Recommendations * Store) :=
  match List.find (isProfileRow userId) (userProfileTable st) with
  | None => Throw "User profile not found. Please complete your profile setup."
  | Some profile =>
      let userMutuals := getMutualsThreeLayers (core st) userId in
      let allBounties := List.filter isOpen (bountyTable (core st)) in
      if (length allBounties =? 0)%nat then Throw "No open bounties available"
      else
        let bountyTagMap := bountyTagMapOf (bountyTagTable (core st)) in
        let mutualIds := map mutualId userMutuals in
        let mutualInteractions := mutualInteractionsOf st mutualIds in
        match getRecommendations (inputOf st userId profile) allBounties bountyTagMap
                mutualInteractions with
        | Throw msg => Throw msg
        | Ok recommendations =>
            let st1 :=
              withLog st
                (recommendationLogTable st ++
                   [{| rl_userId := userId;
                       primaryBountyId := id (bounty (primary recommendations));
                       secondaryBountyId := id (bounty (secondary recommendations));
                       primaryScore := finalScore (primary recommendations);
                       secondaryScore := finalScore (secondary recommendations);
                       reasonPrimary := reasonOf (primary recommendations);
                       reasonSecondary := reasonOf (secondary recommendations) |}]) in
            let primaryTags :=
              getBountyTagNames st1 (id (bounty (primary recommendations))) in
            let secondaryTags :=
              getBountyTagNames st1 (id (bounty (secondary recommendations))) in
            Ok ({| rec_primary :=
                     {| card_bounty := bounty (primary recommendations);
                        card_tags := primaryTags;
                        card_scores := scoresOf (primary recommendations) |};
                   rec_secondary :=
                     {| card_bounty := bounty (secondary recommendations);
                        card_tags := secondaryTags;
                        card_scores := scoresOf (secondary recommendations) |};
                   rec_userProfile := summaryOf profile;
                   rec_debug := debug recommendations |},
                st1)
        end
  end.

End Endpoints.

(** ** Vocabulary for the procedures *)

Module EndpointSpec.
Import Recommendation Schema Behavior Router Alerts Endpoints.

(** The tags of a bounty as [bounty_tag] stores them. *)
Definition tagsOfBounty (db : DB) (bountyId : Z) : list BountyTag :=
  map (fun bt => {| bt_tagId := btr_tagId bt; weight := btr_weight bt |})
    (List.filter (fun bt => (btr_bountyId bt =? bountyId)%Z) (bountyTagTable db)).

(** The bounties a user has interacted with, in the order of
    [bounty_interaction]. *)
Definition interactionsOf (st : Store) (userId : string) : list Z :=
  map bi_bountyId
    (List.filter (fun mi => bool_decide (bi_userId mi = userId))
       (bountyInteractionTable st)).

(** A store around the one-bounty database: the scenario user has a
    middle-tier profile and a score of 5 for typescript. *)
Definition scenarioStore : Store :=
  {| core := withUserTags BehaviorSpec.oneBountyDB
               [{| utr_userId := "user"; utr_tagId := 1; utr_score := 5;
                   utr_source := "manual" |}];
     tagTable := [{| tag_id := 1; tag_name := "typescript"; tag_category := "language";
                     tag_popularity := None |}];
     userProfileTable :=
       [{| upr_userId := "user"; upr_totalInteractions := 0; upr_engagementScore := 0;
           upr_avgPriceViewed := 500; upr_accessTier := middle;
           upr_platformScore := 2.0 |}];
     bountyInteractionTable := [];
     bountyViewTable := [];
     recommendationLogTable := [] |}.

End EndpointSpec.

(** ** [Array.prototype.sort] with a comparator *)

Module ArraySort.

(** [arr.sort(cmp)], a stable sort: [insertWith cmp x l] puts [x] in front of
    the first element that [cmp] does not order before it. *)
Fixpoint insertWith {A : Type} (cmp : A -> A -> Q) (x : A) (l : list A) : list A :=
  match l with
  | [] => [x]
  | y :: l' => if Qgtb (cmp x y) 0 then y :: insertWith cmp x l' else x :: y :: l'
  end.

Definition sortWith {A : Type} (cmp : A -> A -> Q) (l : list A) : list A :=
  foldr (insertWith cmp) [] l.

End ArraySort.

(** ** routers/recommendation.ts: the bounty feed *)

Module FeedProcedure.
Import Recommendation Schema Behavior Router Alerts TagMatch Endpoints ArraySort.

Inductive SortBy : Set :=
  sort_relevance | sort_price_high | sort_price_low | sort_engagement | sort_newest.

(** The validated input; [limit] and [offset] are integers. *)
Record FeedInput : Type := {
  sortBy : SortBy;
  tierFilter : option (list Tier);
  tagFilter : option (list Z);
  limit : nat;
  offset : nat
}.

(** The defaults of the destructuring of [input || {}]. *)
Definition defaultFeedInput : FeedInput :=
  {| sortBy := sort_relevance; tierFilter := None; tagFilter := None;
     limit := 50; offset := 0 |}.

(** The rows of [from(bountyTag).innerJoin(tag, eq(bountyTag.tagId, tag.id))],
    in the order of [bounty_tag], each with its bounty id. *)
Definition bountyTagsWithNames (st : Store) : list (Z * NamedBountyTag) :=
  flat_map
    (fun bt =>
       map (fun t => (btr_bountyId bt,
                      {| nbt_tagId := btr_tagId bt;
                         nbt_tagName := tag_name t;
                         nbt_weight := btr_weight bt |}))
         (List.filter (fun t => (tag_id t =? btr_tagId bt)%Z) (tagTable st)))
    (bountyTagTable (core st)).

(** One turn of the loop that fills [bountyTagMap] and [bountyTagNamesMap]. *)
Definition feedTagStep
    (maps : gmap Z (list BountyTag) * gmap Z (list NamedBountyTag))
    (bt : Z * NamedBountyTag)
  : gmap Z (list BountyTag) * gmap Z (list NamedBountyTag) :=
  let maps1 :=
    if bool_decide (is_Some (maps.1 !! bt.1)) then maps
    else (<[bt.1 := []]> maps.1, <[bt.1 := []]> maps.2) in
  (<[bt.1 := default [] (maps1.1 !! bt.1) ++ [withoutName bt.2]]> maps1.1,
   <[bt.1 := default [] (maps1.2 !! bt.1) ++ [bt.2]]> maps1.2).

(** The comparator passed to [sort] for each [sortBy]. *)
Definition comparator (s : SortBy) (a b : ScoredBounty) : Q :=
  match s with
  | sort_relevance => finalScore b - finalScore a
  | sort_price_high => price (bounty b) - price (bounty a)
  | sort_price_low => price (bounty a) - price (bounty b)
  | sort_engagement => engagementScore (bounty b) - engagementScore (bounty a)
  | sort_newest => inject_Z (createdAt (bounty b)) - inject_Z (createdAt (bounty a))
  end.

Record FeedDebug : Type := {
  tagMatches : list TagMatchDetail;
  priceRatio : option Q;
  mutualCount : nat
}.

Record FeedItem : Type := {
  item_bounty : BountyData;
  item_tags : list (string * Q);
  item_scores : Scores;
  item_debug : FeedDebug
}.

Record Pagination : Type := {
  pg_total : nat;
  pg_limit : nat;
  pg_offset : nat;
  hasMore : bool
}.

Record Feed : Type := {
  feed_bounties : list FeedItem;
  feed_pagination : Pagination;
  feed_userProfile : ProfileSummary;
  feed_userTags : list UserTagScore
}.

(** [getBountyFeed] up to the sort: the scored bounties and the named tags
    per bounty. *)
Definition feedCandidates (st : Store) (userId : string) (profile : UserProfileRow)
    (i : FeedInput) : list ScoredBounty * gmap Z (list NamedBountyTag) :=
  let userMutuals := getMutualsThreeLayers (core st) userId in
  let allBounties := List.filter isOpen (bountyTable (core st)) in
  let allBounties :=
    match tierFilter i with
    | Some tiers =>
        if (0 <? length tiers)%nat
        then List.filter (fun b => bool_decide (tier b ∈ tiers)) allBounties
        else allBounties
    | None => allBounties
    end in
  let maps := fold_left feedTagStep (bountyTagsWithNames st) (∅, ∅) in
  let bountyTagMap := maps.1 in
  let bountyTagNamesMap := maps.2 in
  let allBounties :=
    match tagFilter i with
    | Some tagIds =>
        if (0 <? length tagIds)%nat
        then List.filter
               (fun b =>
                  let tags := default [] (bountyTagMap !! id b) in
                  existsb (fun t => bool_decide (bt_tagId t ∈ tagIds)) tags)
               allBounties
        else allBounties
    | None => allBounties
    end in
  let mutualIds := map mutualId userMutuals in
  let mutualInteractions := mutualInteractionsOf st mutualIds in
  (scoreAllBounties (inputOf st userId profile) allBounties bountyTagMap
     mutualInteractions true,
   bountyTagNamesMap).

(** Step 13: the entry returned for a scored bounty. *)
Definition feedItem (st : Store) (userId : string) (profile : UserProfileRow)
    (bountyTagNamesMap : gmap Z (list NamedBountyTag)) (sb : ScoredBounty) : FeedItem :=
  let bountyTagsWithNames := default [] (bountyTagNamesMap !! id (bounty sb)) in
  let tagMatchDetails :=
    getTagMatchDetails (userTagsWithNames st userId) bountyTagsWithNames in
  {| item_bounty := bounty sb;
     item_tags := map (fun t => (nbt_tagName t, nbt_weight t)) bountyTagsWithNames;
     item_scores := scoresOf sb;
     item_debug :=
       {| tagMatches := tagMatchDetails;
          priceRatio :=
            if Qgtb (upr_avgPriceViewed profile) 0
            then Some (price (bounty sb) / upr_avgPriceViewed profile)
            else None;
          mutualCount := length (getMutualsThreeLayers (core st) userId) |} |}.

(** The [getBountyFeed] procedure. [scoreAllBounties] is called without its
    last argument, which defaults to [true]. *)
Definition getBountyFeed (st : Store) (userId : string) (input : option FeedInput)
  : result Feed :=
  let i := default defaultFeedInput input in
  match List.find (isProfileRow userId) (userProfileTable st) with
  | None => Throw "User profile not found. Please complete your profile setup."
  | Some profile =>
      let candidates := feedCandidates st userId profile i in
      let scoredBounties := sortWith (comparator (sortBy i)) candidates.1 in
      let total := length scoredBounties in
      let paginatedBounties := take (limit i) (drop (offset i) scoredBounties) in
      let bountiesWithDetails :=
        map (feedItem st userId profile candidates.2) paginatedBounties in
      Ok {| feed_bounties := bountiesWithDetails;
            feed_pagination :=
              {| pg_total := total;
                 pg_limit := limit i;
                 pg_offset := offset i;
                 hasMore := (offset i + limit i <? total)%nat |};
            feed_userProfile := summaryOf profile;
            feed_userTags := userTagsWithNames st userId |}
  end.

End FeedProcedure.

(** ** Vocabulary for the feed *)

Module FeedSpec.
Import Recommendation Schema Behavior Router Alerts TagMatch Endpoints ArraySort.
Import FeedProcedure.

(** The named tags of a bounty: its [bounty_tag] rows joined with [tag]. *)
Definition namedTagsOf (st : Store) (bountyId : Z) : list NamedBountyTag :=
  map snd (List.filter (fun bt => bool_decide (bt.1 = bountyId)) (bountyTagsWithNames st)).

(** A filter that is absent or empty lets everything through. *)
Definition passesFilter {A : Type} (f : option (list A)) (p : list A -> bool) : bool :=
  match f with
  | Some l => if (0 <? length l)%nat then p l else true
  | None => true
  end.

(** The bounties the feed lists for a user: open, within the tier filter and
    the tag filter, within the user's access tier, and of relevance at least
    3.0 for the user. *)
Definition listed (st : Store) (userId : string) (profile : UserProfileRow)
    (i : FeedInput) (b : BountyData) : bool :=
  isOpen b
  && passesFilter (tierFilter i) (fun tiers => bool_decide (tier b ∈ tiers))
  && passesFilter (tagFilter i)
       (fun tagIds =>
          existsb (fun t => bool_decide (nbt_tagId t ∈ tagIds)) (namedTagsOf st (id b)))
  && (tierOrder (tier b) <=? tierOrder (upr_accessTier profile))%Z
  && Qgeb (computeRelevanceScore (userTagsWithNames st userId)
             (map withoutName (namedTagsOf st (id b)))) 3.0.

(** The value a [sortBy] ranks by, larger first. *)
Definition sortKey (s : SortBy) (x : FeedItem) : Q :=
  match s with
  | sort_relevance => sc_final (item_scores x)
  | sort_price_high => price (item_bounty x)
  | sort_price_low => - price (item_bounty x)
  | sort_engagement => engagementScore (item_bounty x)
  | sort_newest => inject_Z (createdAt (item_bounty x))
  end.

Definition scoredKey (s : SortBy) (sb : ScoredBounty) : Q :=
  match s with
  | sort_relevance => finalScore sb
  | sort_price_high => price (bounty sb)
  | sort_price_low => - price (bounty sb)
  | sort_engagement => engagementScore (bounty sb)
  | sort_newest => inject_Z (createdAt (bounty sb))
  end.

(** The request for the page at [o] of [l] entries, other inputs as in [i]. *)
Definition page (i : FeedInput) (o l : nat) : option FeedInput :=
  Some {| sortBy := sortBy i; tierFilter := tierFilter i; tagFilter := tagFilter i;
          limit := l; offset := o |}.

(** The entries and the total of an answer; none when the procedure throws. *)
Definition bountiesOf (r : result Feed) : list FeedItem :=
  match r with
  | Ok feed => feed_bounties feed
  | Throw _ => []
  end.

Definition totalOf (r : result Feed) : nat :=
  match r with
  | Ok feed => pg_total (feed_pagination feed)
  | Throw _ => 0
  end.

(** The scenario store with a second open bounty that carries no tag. *)
Definition twoBountyStore : Store :=
  withCore EndpointSpec.scenarioStore
    (withBounties (core EndpointSpec.scenarioStore)
       [Spec.scenarioBounty; Spec.mkBounty 2 900 basic 0]).

End FeedSpec.

(** ** routers/recommendation.ts: the mutations *)

Module Mutations.
Import Recommendation Schema Behavior Router Alerts Endpoints.

(** [trackableTypes.includes(input.type)], with the type as an
    [InteractionType] when it is one. *)
Definition trackableType (type : RecordedType) : option InteractionType :=
  match type with
  | rec_view => Some view
  | rec_like => Some like
  | rec_submit => Some submit
  | rec_complete => Some complete
  | rec_claim => None
  end.

(** The row after an update of the three counters; [updatedAt] is set by
    [$onUpdate]. *)
Definition setCounters (v s l : Z) (now : Z) (b : BountyData) : BountyData :=
  {| id := id b;
     title := title b;
     description := description b;
     price := price b;
     tier := tier b;
     status := status b;
     views := v;
     submissions := s;
     likes := l;
     engagementScore := engagementScore b;
     creatorId := creatorId b;
     claimedById := claimedById b;
     createdAt := createdAt b;
     updatedAt := now;
     expiresAt := expiresAt b;
     completedAt := completedAt b |}.

Definition isBounty (bountyId : Z) (b : BountyData) : bool := (id b =? bountyId)%Z.

(** Step 4 of [recordInteraction] on the rows of [bounty]. *)
Definition updateMetrics (type : RecordedType) (bountyId : Z) (now : Z)
    (rows : list BountyData) : list BountyData :=
  match type with
  | rec_view =>
      updateWhere (isBounty bountyId)
        (fun b => setCounters (views b + 1) (submissions b) (likes b) now b) rows
  | rec_like =>
      updateWhere (isBounty bountyId)
        (fun b => setCounters (views b) (submissions b) (likes b + 1) now b) rows
  | rec_submit =>
      updateWhere (isBounty bountyId)
        (fun b => setCounters (views b) (submissions b + 1) (likes b) now b) rows
  | _ => rows
  end.

Definition setEngagement (total : Z) (score : Q) (p : UserProfileRow) : UserProfileRow :=
  {| upr_userId := upr_userId p;
     upr_totalInteractions := total;
     upr_engagementScore := score;
     upr_avgPriceViewed := upr_avgPriceViewed p;
     upr_accessTier := upr_accessTier p;
     upr_platformScore := upr_platformScore p |}.

(** [recordInteraction]; returns the store and [newEngagementScore]. [now]
    is the clock read by [$onUpdate]. *)
Definition recordInteraction (st : Store) (userId : string) (bountyId : Z)
    (type : RecordedType) (now : Z) : Store * Z :=
  let st1 :=
    withInteractions st
      (bountyInteractionTable st ++
         [{| bi_userId := userId; bi_bountyId := bountyId; bi_type := type |}]) in
  let st2 :=
    match trackableType type with
    | Some t => withCore st1 (trackBehavior (core st1) userId bountyId t)
    | None => st1
    end in
  let interactionCount :=
    Z.of_nat
      (length (List.filter (fun mi => bool_decide (bi_userId mi = userId))
                 (bountyInteractionTable st2))) in
  let engagementScore := Z.min (interactionCount * 2) 100 in
  let st3 :=
    withProfiles st2
      (updateWhere (isProfileRow userId)
         (setEngagement interactionCount (inject_Z engagementScore))
         (userProfileTable st2)) in
  let st4 :=
    withCore st3
      (withBounties (core st3)
         (updateMetrics type bountyId now (bountyTable (core st3)))) in
  (st4, engagementScore).


End Mutations.

(** ** Vocabulary for the mutations *)

Module MutationSpec.
Import Recommendation Schema Behavior Router Alerts Endpoints Mutations.

(** The number of interactions a user has recorded. *)
Definition interactionsRecorded (st : Store) (userId : string) : Z :=
  Z.of_nat
    (length (List.filter (fun mi => bool_decide (bi_userId mi = userId))
               (bountyInteractionTable st))).

(** What an interaction of a type adds to the views, submissions and likes
    of its bounty. *)
Definition increments (type : RecordedType) : Z * Z * Z :=
  match type with
  | rec_view => (1%Z, 0%Z, 0%Z)
  | rec_submit => (0%Z, 1%Z, 0%Z)
  | rec_like => (0%Z, 0%Z, 1%Z)
  | _ => (0%Z, 0%Z, 0%Z)
  end.

(** The row [b'] is the row [b] with its counters raised by [d]. *)
Definition raisedBy (d : Z * Z * Z) (b b' : BountyData) : Prop :=
  id b' = id b /\ price b' = price b /\ tier b' = tier b /\ status b' = status b /\
  engagementScore b' = engagementScore b /\
  views b' = (views b + d.1.1)%Z /\
  submissions b' = (submissions b + d.1.2)%Z /\
  likes b' = (likes b + d.2)%Z.

End MutationSpec.

(** ** behavior.ts: blended tag scores *)

Module Blended.
Import Recommendation Schema Behavior Alerts Endpoints ArraySort.

Record BlendedTagScore : Type := {
  bts_tagId : Z;
  bts_tagName : string;
  bts_explicitScore : Q;
  bts_implicitScore : Q;
  blendedScore : Q;
  divergent : bool
}.

(** [map.get(k)] on an insertion-ordered map. *)
Fixpoint orderedGet {V : Type} (m : list (Z * V)) (k : Z) : option V :=
  match m with
  | [] => None
  | kv :: m' => if (kv.1 =? k)%Z then Some kv.2 else orderedGet m' k
  end.

(** [new Set(ids)], in insertion order. *)
Definition orderedSetOf (ids : list Z) : list Z :=
  fold_left (fun acc x => if bool_decide (x ∈ acc) then acc else acc ++ [x]) ids [].

(** One turn of the [for (const tagId of allTagIds)] loop: the entry pushed
    for the tag. *)
Definition blendedEntry (explicitWeight implicitWeight : Q)
    (explicitMap : list (Z * (string * Q))) (implicitMap : list (Z * (Q * bool)))
    (tagNameMap : gmap Z string) (tagId : Z) : BlendedTagScore :=
  let explicit := orderedGet explicitMap tagId in
  let implicit := orderedGet implicitMap tagId in
  let explicitScore := match explicit with Some e => e.2 | None => 0 end in
  let implicitScore := match implicit with Some i => i.1 | None => 0 end in
  let blendedScore := explicitScore * explicitWeight + implicitScore * implicitWeight in
  {| bts_tagId := tagId;
     bts_tagName :=
       match explicit with
       | Some e => e.1
       | None =>
           match tagNameMap !! tagId with
           | Some name => name
           | None => "Tag " +:+ pretty tagId
           end
       end;
     bts_explicitScore := explicitScore;
     bts_implicitScore := implicitScore;
     blendedScore := blendedScore;
     divergent := match implicit with Some i => i.2 | None => false end |}.

Definition getBlendedTagScores (st : Store) (userId : string) : list BlendedTagScore :=
  let config := List.find (isConfigRow userId) (userBlendConfigTable (core st)) in
  let explicitWeight := match config with Some c => explicitWeight c | None => 0.8 end in
  let implicitWeight := match config with Some c => implicitWeight c | None => 0.2 end in
  let explicitTags := userTagsWithNames st userId in
  let implicitTags :=
    List.filter (fun r => bool_decide (ubt_userId r = userId))
      (userBehaviorTagTable (core st)) in
  let explicitMap :=
    orderedMapOfEntries
      (map (fun t => (ut_tagId t, (ut_tagName t, ut_score t))) explicitTags) in
  let implicitMap :=
    orderedMapOfEntries
      (map (fun r => (ubt_tagId r, (implicitScore r, divergenceDetected r)))
         implicitTags) in
  let implicitOnlyTagIds :=
    List.filter (fun k => negb (bool_decide (is_Some (orderedGet explicitMap k))))
      (map fst implicitMap) in
  let implicitOnlyTagNames :=
    if (0 <? length implicitOnlyTagIds)%nat
    then List.filter (fun t => bool_decide (tag_id t ∈ implicitOnlyTagIds)) (tagTable st)
    else [] in
  let tagNameMap := mapOfEntries (map (fun t => (tag_id t, tag_name t)) implicitOnlyTagNames) in
  let allTagIds := orderedSetOf (map fst explicitMap ++ map fst implicitMap) in
  let results :=
    map (blendedEntry explicitWeight implicitWeight explicitMap implicitMap tagNameMap)
      allTagIds in
  sortWith (fun a b => blendedScore b - blendedScore a) results.

End Blended.

(** ** Vocabulary for the blended scores *)

Module BlendedSpec.
Import Recommendation Schema Behavior Alerts Endpoints Blended.

(** The explicit entry of a tag: name and score of the user's last named
    [user_tag] row for it. *)
Definition explicitOf (st : Store) (userId : string) (tagId : Z) : option (string * Q) :=
  DivergenceSpec.lastValue
    (map (fun t => (ut_tagId t, (ut_tagName t, ut_score t))) (userTagsWithNames st userId))
    tagId.

(** The implicit entry of a tag: implicit score and flag of the user's last
    behavior record for it. *)
Definition implicitOf (st : Store) (userId : string) (tagId : Z) : option (Q * bool) :=
  DivergenceSpec.lastValue
    (map (fun r => (ubt_tagId r, (implicitScore r, divergenceDetected r)))
       (List.filter (fun r => bool_decide (ubt_userId r = userId))
          (userBehaviorTagTable (core st))))
    tagId.

(** The weights the blend uses for a user. *)
Definition weightsOf (st : Store) (userId : string) : Q * Q :=
  match List.find (isConfigRow userId) (userBlendConfigTable (core st)) with
  | Some c => (explicitWeight c, implicitWeight c)
  | None => (0.8, 0.2)
  end.

(** The scenario store after the user's record for tag 2 has reached an
    implicit score of 3.5. *)
Definition blendedStore : Store :=
  withCore EndpointSpec.scenarioStore
    (withBehaviorTags (core EndpointSpec.scenarioStore)
       [setImplicitScore 3.5 (defaultBehaviorTag "user" 2)]).

End BlendedSpec.

(** ** Vocabulary for sequences of events *)

Module EventSpec.
Import Schema Behavior.

(** The events of one user, tracked one after the other. *)
Definition trackAll (db : DB) (userId : string) (events : list (Z * InteractionType))
  : DB :=
  fold_left (fun d ev => trackBehavior d userId ev.1 ev.2) events db.

End EventSpec.

(** ** routers/onboarding.ts *)

Module Onboarding.
Import Schema Behavior.

Inductive TimeCommitment : Set := side_hustle | part_time | full_time.
Inductive TimezonePreference : Set := async_only | some_overlap | flexible.
Inductive DeadlineStyle : Set := quick | standard | long_term.
Inductive RiskTolerance : Set := safe | balanced | adventurous.

Record TechStack : Type := {
  frontend : option (list string);
  backend : option (list string);
  database : option (list string);
  infra : option (list string)
}.

(** [user_onboarding]; the timestamps [createdAt] and [updatedAt] are left
    out. *)
Record OnboardingRow : Type := {
  ob_id : Z;
  ob_userId : string;
  ob_timeCommitment : option TimeCommitment;
  ob_timezonePreference : option TimezonePreference;
  ob_deadlineStyle : option DeadlineStyle;
  ob_techStack : option TechStack;
  ob_priceRangeMin : option Z;
  ob_priceRangeMax : option Z;
  ob_bountyTypes : option (list string);
  ob_riskTolerance : option RiskTolerance;
  ob_completedAt : option Z;
  ob_currentStep : Z
}.

(** The database of the services with [user_onboarding] and the last value
    of its [serial] id. *)
Record OnboardingStore : Type := {
  ob_core : DB;
  userOnboardingTable : list OnboardingRow;
  userOnboardingSeq : Z
}.


Definition withDB (st : OnboardingStore) (db : DB) : OnboardingStore :=
  {| ob_core := db;
     userOnboardingTable := userOnboardingTable st;
     userOnboardingSeq := userOnboardingSeq st |}.

Definition isOnboardingRow (userId : string) (o : OnboardingRow) : bool :=
  bool_decide (ob_userId o = userId).

Record OnboardingStatus : Type := {
  started : bool;
  completed : bool;
  currentStep : Z;
  data : option OnboardingRow
}.

Definition getStatus (st : OnboardingStore) (userId : string) : OnboardingStatus :=
  match List.find (isOnboardingRow userId) (userOnboardingTable st) with
  | None =>
      {| started := false; completed := false; currentStep := 1; data := None |}
  | Some onboarding =>
      {| started := true;
         completed := match ob_completedAt onboarding with
                      | Some _ => true
                      | None => false
                      end;
         currentStep := ob_currentStep onboarding;
         data := Some onboarding |}
  end.

(** The row of [insert(userOnboarding).values({ userId, currentStep: 1 })]:
    the other columns have their defaults. *)
Definition newOnboarding (newId : Z) (userId : string) : OnboardingRow :=
  {| ob_id := newId;
     ob_userId := userId;
     ob_timeCommitment := None;
     ob_timezonePreference := None;
     ob_deadlineStyle := None;
     ob_techStack := None;
     ob_priceRangeMin := Some 100%Z;
     ob_priceRangeMax := Some 5000%Z;
     ob_bountyTypes := None;
     ob_riskTolerance := None;
     ob_completedAt := None;
     ob_currentStep := 1 |}.

(** The row of [insert(userBlendConfig).values({ userId })]. *)
Definition newBlendConfig (userId : string) : UserBlendConfig :=
  {| ubc_userId := userId;
     explicitWeight := 0.8;
     implicitWeight := 0.2;
     totalInteractions := 0;
     divergenceThreshold := 3.0;
     lastDivergencePrompt := None;
     divergencePromptCount := 0 |}.

(** The row of [insert(userBehaviorPrice).values({ userId })]. *)
Definition newBehaviorPrice (userId : string) : UserBehaviorPrice :=
  {| ubp_userId := userId;
     avgPriceViewed := 0;
     avgPriceLiked := 0;
     avgPriceSubmitted := 0;
     avgPriceCompleted := 0;
     implicitPriceMin := None;
     implicitPriceMax := None;
     lastExplicitMin := None;
     lastExplicitMax := None;
     ubp_divergenceDetected := false |}.

(** The error of an [insert] that meets the UNIQUE constraint on [user_id]
    of a table: the driver throws, and the text names the constraint. *)
Definition uniqueViolation (constraint : string) : string :=
  "duplicate key value violates unique constraint " +:+ constraint.

(** [initialize]; returns [onboardingId], or the error thrown, and the
    store. The insert into [user_onboarding] returns the new row, so the
    guard on a missing row never fires. The three inserts run one after the
    other without a transaction; [user_blend_config.user_id] and
    [user_behavior_price.user_id] are UNIQUE, so the second insert throws for
    a user who has a blend configuration and the third for a user who has a
    price record (the behavior tracker creates one at a user's first event),
    and the rows inserted before the throw stay. *)
Definition initialize (st : OnboardingStore) (userId : string)
  : result Z * OnboardingStore :=
  match List.find (isOnboardingRow userId) (userOnboardingTable st) with
  | Some existing => (Ok (ob_id existing), st)
  | None =>
      let newId := (userOnboardingSeq st + 1)%Z in
      let onboarding := newOnboarding newId userId in
      let st1 :=
        {| ob_core := ob_core st;
           userOnboardingTable := userOnboardingTable st ++ [onboarding];
           userOnboardingSeq := newId |} in
      match List.find (isConfigRow userId) (userBlendConfigTable (ob_core st1)) with
      | Some _ => (Throw (uniqueViolation "user_blend_config_user_id_unique"), st1)
      | None =>
          let db1 :=
            withBlendConfigs (ob_core st1)
              (userBlendConfigTable (ob_core st1) ++ [newBlendConfig userId]) in
          let st2 := withDB st1 db1 in
          match List.find (isPriceRow userId) (userBehaviorPriceTable db1) with
          | Some _ =>
              (Throw (uniqueViolation "user_behavior_price_user_id_unique"), st2)
          | None =>
              let db2 :=
                withBehaviorPrices db1
                  (userBehaviorPriceTable db1 ++ [newBehaviorPrice userId]) in
              (Ok (ob_id onboarding), withDB st2 db2)
          end
      end
  end.











End Onboarding.

(** ** Vocabulary for the onboarding *)

Module OnboardingSpec.
Import Schema Behavior Onboarding.






(** An empty store around the one-bounty database. *)
Definition freshStore : OnboardingStore :=
  {| ob_core := BehaviorSpec.oneBountyDB;
     userOnboardingTable := [];
     userOnboardingSeq := 0 |}.

End OnboardingSpec.

(** ** routers/recommendation.ts: recording a view *)

Module ViewProcedure.
Import Recommendation Schema Behavior Endpoints ArraySort.




End ViewProcedure.

(** * Properties *)

(** ** Boolean comparisons on rationals *)

Lemma Qltb_lt (x y : Q) : Qltb x y = true <-> x < y.
Proof.
  unfold Qltb. rewrite negb_true_iff, <- not_true_iff_false, Qle_bool_iff.
  split; [apply Qnot_le_lt | apply Qlt_not_le].
Qed.

Lemma Qleb_le (x y : Q) : Qleb x y = true <-> x <= y.
Proof. apply Qle_bool_iff. Qed.

Lemma Qgeb_ge (x y : Q) : Qgeb x y = true <-> y <= x.
Proof. apply Qle_bool_iff. Qed.

Lemma Qgtb_gt (x y : Q) : Qgtb x y = true <-> y < x.
Proof.
  unfold Qgtb. rewrite negb_true_iff, <- not_true_iff_false, Qle_bool_iff.
  split; [apply Qnot_le_lt | apply Qlt_not_le].
Qed.

Lemma Qltb_ge (x y : Q) : Qltb x y = false <-> y <= x.
Proof.
  unfold Qltb. rewrite negb_false_iff. apply Qle_bool_iff.
Qed.

Lemma Qgtb_le (x y : Q) : Qgtb x y = false <-> x <= y.
Proof.
  unfold Qgtb. rewrite negb_false_iff. apply Qle_bool_iff.
Qed.

Lemma Qgeb_lt (x y : Q) : Qgeb x y = false <-> x < y.
Proof.
  unfold Qgeb. rewrite <- not_true_iff_false, Qle_bool_iff.
  split; [apply Qnot_le_lt | apply Qlt_not_le].
Qed.

Lemma Qmin_cases (x y : Q) : (x <= y /\ Qmin x y == x) \/ (y <= x /\ Qmin x y == y).
Proof.
  destruct (Qlt_le_dec y x) as [H | H].
  - right. split; [lra |]. apply Q.min_r. lra.
  - left. split; [lra |]. apply Q.min_l. lra.
Qed.

Lemma Qmax_cases (x y : Q) : (y <= x /\ Qmax x y == x) \/ (x <= y /\ Qmax x y == y).
Proof.
  destruct (Qlt_le_dec x y) as [H | H].
  - right. split; [lra |]. apply Q.max_r. lra.
  - left. split; [lra |]. apply Q.max_l. lra.
Qed.

(** ** Filters on lists *)



(** ** Tier filter *)

Module TierFilter.
Import Recommendation Spec.

Lemma elem_of_filterByAccessTier bounties t b :
  b ∈ filterByAccessTier bounties t <->
  b ∈ bounties /\ (tierOrder (tier b) <= tierOrder t)%Z.
Proof.
  unfold filterByAccessTier. rewrite !list_elem_of_In, filter_In.
  rewrite Z.leb_le. reflexivity.
Qed.

Lemma filterByAccessTier_sublist bounties t1 t2 :
  (tierOrder t1 <= tierOrder t2)%Z ->
  filterByAccessTier bounties t1 `sublist_of` filterByAccessTier bounties t2.
Proof.
  intros Hle. unfold filterByAccessTier.
  induction bounties as [| b bs IH]; simpl; [constructor |].
  destruct (Z.leb_spec (tierOrder (tier b)) (tierOrder t1)) as [H1 | H1].
  - destruct (Z.leb_spec (tierOrder (tier b)) (tierOrder t2)) as [H2 | H2]; [| lia].
    now constructor.
  - destruct (Z.leb_spec (tierOrder (tier b)) (tierOrder t2)); [constructor |]; exact IH.
Qed.

(** The inclusion between the results for two tiers is strict exactly when
    some bounty lies between the two levels. *)
Lemma filterByAccessTier_strict bounties t1 t2 :
  (tierOrder t1 <= tierOrder t2)%Z ->
  strictSubset (filterByAccessTier bounties t1) (filterByAccessTier bounties t2) <->
  exists b, b ∈ bounties /\
            (tierOrder t1 < tierOrder (tier b) <= tierOrder t2)%Z.
Proof.
  intros Hle. unfold strictSubset. split.
  - intros [_ (b & Hin & Hout)].
    apply elem_of_filterByAccessTier in Hin as [Hb Ht].
    exists b. split; [exact Hb |]. split; [| exact Ht].
    destruct (Z.lt_ge_cases (tierOrder t1) (tierOrder (tier b))) as [H | H]; [exact H |].
    exfalso. apply Hout. apply elem_of_filterByAccessTier. split; [exact Hb | lia].
  - intros (b & Hb & Hlo & Hhi). split.
    + intros x Hx. apply elem_of_filterByAccessTier in Hx as [Hx1 Hx2].
      apply elem_of_filterByAccessTier. split; [exact Hx1 | lia].
    + exists b. split.
      * apply elem_of_filterByAccessTier. split; [exact Hb | lia].
      * intros Hx. apply elem_of_filterByAccessTier in Hx as [_ Hx]. lia.
Qed.

(** C9 (as stated, refuted): for the list holding a single basic-tier bounty
    the basic-tier result is not a strict subset of the middle-tier result:
    the two results are the same list. *)
Lemma filterByAccessTier_not_always_strict :
  ~ strictSubset (filterByAccessTier [mkBounty 1 100 basic 0] basic)
                 (filterByAccessTier [mkBounty 1 100 basic 0] middle).
Proof.
  intros [_ (b & Hin & Hout)]. apply Hout. exact Hin.
Qed.

(** C9 (amended): [filterByAccessTier] keeps exactly the bounties whose tier
    level is at most the user's level; a basic-tier user gets basic-tier
    bounties only; the basic-tier result is a sublist of the middle-tier
    result, itself a sublist of the high-tier result; and each inclusion is
    strict exactly when the list holds a middle-tier (resp. high-tier)
    bounty. *)
Theorem filterByAccessTier_monotone (bounties : list BountyData) :
  (forall t b, b ∈ filterByAccessTier bounties t <->
               b ∈ bounties /\ (tierOrder (tier b) <= tierOrder t)%Z) /\
  (forall b, b ∈ filterByAccessTier bounties basic -> tier b = basic) /\
  filterByAccessTier bounties basic `sublist_of` filterByAccessTier bounties middle /\
  filterByAccessTier bounties middle `sublist_of` filterByAccessTier bounties high /\
  (strictSubset (filterByAccessTier bounties basic) (filterByAccessTier bounties middle)
   <-> exists b, b ∈ bounties /\ tier b = middle) /\
  (strictSubset (filterByAccessTier bounties middle) (filterByAccessTier bounties high)
   <-> exists b, b ∈ bounties /\ tier b = high).
Proof.
  split; [intros t b; apply elem_of_filterByAccessTier |].
  split.
  { intros b Hb. apply elem_of_filterByAccessTier in Hb as [_ Hb].
    destruct (tier b); simpl in Hb; [reflexivity | lia | lia]. }
  split; [apply filterByAccessTier_sublist; simpl; lia |].
  split; [apply filterByAccessTier_sublist; simpl; lia |].
  split.
  - rewrite filterByAccessTier_strict by (simpl; lia).
    split; intros (b & Hb & Ht); exists b; (split; [exact Hb |]).
    + destruct (tier b); simpl in Ht; [lia | reflexivity | lia].
    + rewrite Ht. simpl. lia.
  - rewrite filterByAccessTier_strict by (simpl; lia).
    split; intros (b & Hb & Ht); exists b; (split; [exact Hb |]).
    + destruct (tier b); simpl in Ht; [lia | lia | reflexivity].
    + rewrite Ht. simpl. lia.
Qed.

End TierFilter.


(** ** Tag match (relevance) *)

Module Relevance.
Import Recommendation Spec.

Lemma mapOfEntries_lookup_gen (U : list UserTagScore) (m : gmap Z Q) (k : Z) :
  fold_left (fun m kv => <[kv.1 := kv.2]> m)
    (map (fun t => (ut_tagId t, ut_score t)) U) m !! k =
  match lastScore U k with
  | Some v => Some v
  | None => m !! k
  end.
Proof.
  revert m. induction U as [| t U IH]; intros m; simpl; [reflexivity |].
  rewrite IH. destruct (lastScore U k) as [v |]; [reflexivity |].
  destruct (Z.eqb_spec (ut_tagId t) k) as [-> | Hne].
  - apply lookup_insert_eq.
  - rewrite lookup_insert_ne by exact Hne. reflexivity.
Qed.

(** The [Map] built by [computeRelevanceScore] answers like the tag list read
    from its end. *)
Lemma userTagMap_lookup (U : list UserTagScore) (k : Z) :
  orZero (mapOfEntries (map (fun t => (ut_tagId t, ut_score t)) U) !! k) = userScoreOf U k.
Proof.
  unfold mapOfEntries, userScoreOf. rewrite mapOfEntries_lookup_gen.
  destruct (lastScore U k); [reflexivity |]. rewrite lookup_empty. reflexivity.
Qed.


Lemma relevance_loop (U : list UserTagScore) (B : list BountyTag) (acc : Q * Q) :
  let m := mapOfEntries (map (fun t => (ut_tagId t, ut_score t)) U) in
  (fold_left (relevanceStep m) B acc).1 == acc.1 + sumProducts U B /\
  (fold_left (relevanceStep m) B acc).2 == acc.2 + sumWeights B.
Proof.
  intros m. revert acc. induction B as [| bt B IH]; intros acc; simpl.
  - split; ring.
  - destruct (IH (relevanceStep m acc bt)) as [IH1 IH2].
    rewrite IH1, IH2. unfold relevanceStep; simpl.
    subst m. rewrite userTagMap_lookup. split; ring.
Qed.



(** The code's result, in terms of the two sums. *)
Lemma computeRelevanceScore_sums (U : list UserTagScore) (B : list BountyTag) :
  (0 < sumWeights B -> computeRelevanceScore U B == sumProducts U B / sumWeights B * 2) /\
  (sumWeights B <= 0 -> computeRelevanceScore U B == 0).
Proof.
  unfold computeRelevanceScore.
  destruct B as [| bt B]; [simpl; split; [lra | reflexivity] |].
  change (length (bt :: B) =? 0)%nat with false. cbv iota.
  set (m := mapOfEntries _).
  destruct (relevance_loop U (bt :: B) (0, 0)) as [H1 H2]. fold m in H1, H2.
  cbv zeta. simpl fst in H1, H2. simpl snd in H1, H2.
  rewrite Qplus_0_l in H1, H2.
  destruct (Qgtb _ 0) eqn:Hgt.
  - apply Qgtb_gt in Hgt. split.
    + intros _. rewrite H1, H2. reflexivity.
    + intros Hle. rewrite H2 in Hgt. lra.
  - apply Qgtb_le in Hgt. split.
    + intros Hpos. rewrite H2 in Hgt. lra.
    + reflexivity.
Qed.



End Relevance.


(** ** Social boost *)

Module Social.
Import Recommendation Spec.

Lemma layerMultiplier_decay (l : Layer) : layerMultiplier l == layerDecay l.
Proof. destruct l; reflexivity. Qed.

Lemma layerDecay_pos (l : Layer) : 0 < layerDecay l.
Proof. destruct l; reflexivity. Qed.

Lemma socialStep_contribution b mi (boost : Q) (m : MutualConnection) :
  socialStep b mi boost m == boost + contribution b mi m.
Proof.
  unfold socialStep, contribution, interacted.
  destruct (bool_decide _).
  - rewrite layerMultiplier_decay. reflexivity.
  - ring.
Qed.

Lemma social_loop b mi (ms : list MutualConnection) (boost : Q) :
  fold_left (socialStep b mi) ms boost == boost + socialSum b mi ms.
Proof.
  revert boost. induction ms as [| m ms IH]; intros boost; simpl.
  - ring.
  - rewrite IH, socialStep_contribution. ring.
Qed.

Lemma rawSocialBoost_sum b mi (ms : list MutualConnection) :
  rawSocialBoost b ms mi == socialSum b mi ms.
Proof. unfold rawSocialBoost. rewrite social_loop. ring. Qed.

Lemma contribution_nonneg b mi (m : MutualConnection) :
  0 <= strength m -> 0 <= contribution b mi m.
Proof.
  intros Hs. unfold contribution. destruct (bool_decide _); [| lra].
  apply Qmult_le_0_compat; [exact Hs |]. apply Qlt_le_weak, layerDecay_pos.
Qed.

(** The sum grows when mutuals are added to the list and when more of them
    have interacted with the bounty. *)
Lemma socialSum_mono b mi mi' (ms ms' : list MutualConnection) :
  ms `sublist_of` ms' ->
  Forall (fun m => 0 <= strength m) ms' ->
  Forall (fun m => interacted b mi m -> interacted b mi' m) ms ->
  socialSum b mi ms <= socialSum b mi' ms'.
Proof.
  induction 1 as [| m l1 l2 _ IH | m l1 l2 _ IH]; intros Hall Hmore; simpl.
  - lra.
  - apply Forall_cons in Hall as [Hm Hall]. apply Forall_cons in Hmore as [Hi Hmore].
    specialize (IH Hall Hmore).
    assert (contribution b mi m <= contribution b mi' m) as Hc.
    { unfold contribution at 1. destruct (bool_decide _) eqn:Hd.
      - apply bool_decide_eq_true in Hd. unfold contribution.
        rewrite bool_decide_eq_true_2 by (apply Hi, Hd). lra.
      - apply contribution_nonneg, Hm. }
    lra.
  - apply Forall_cons in Hall as [Hm Hall]. specialize (IH Hall Hmore).
    pose proof (contribution_nonneg b mi' m Hm). lra.
Qed.

Lemma Qmin_mono_l (x y c : Q) : x <= y -> Qmin x c <= Qmin y c.
Proof.
  intros Hxy.
  destruct (Qmin_cases x c) as [[? ->] | [? ->]];
    destruct (Qmin_cases y c) as [[? ->] | [? ->]]; lra.
Qed.

(** C8: [computeSocialBoost] is the sum, over the mutuals whose user
    interacted with the bounty, of strength x multiplier (1, 0.5, 0.25 by
    layer, which is 1 / 2^(layer-1)), capped at 2; it never exceeds 2; with
    non-negative strengths it does not decrease when mutuals are added to the
    list or when more mutuals have interacted with the bounty; one
    interacting layer-1 mutual of strength 1.0 gives exactly 1. *)
Theorem computeSocialBoost_spec (bountyId : Z) (ms ms' : list MutualConnection)
    (mutualInteractions mutualInteractions' : gmap string (list Z)) :
  ms `sublist_of` ms' ->
  Forall (fun m => 0 <= strength m) ms' ->
  Forall (fun m => interacted bountyId mutualInteractions m ->
                   interacted bountyId mutualInteractions' m) ms ->
  computeSocialBoost bountyId ms' mutualInteractions'
    == Qmin (socialSum bountyId mutualInteractions' ms') 2.0 /\
  (forall l, layerMultiplier l == layerDecay l) /\
  computeSocialBoost bountyId ms' mutualInteractions' <= 2 /\
  computeSocialBoost bountyId ms mutualInteractions
    <= computeSocialBoost bountyId ms' mutualInteractions' /\
  (forall m, interacted bountyId mutualInteractions m ->
             layer m = L1 -> strength m == 1 ->
             computeSocialBoost bountyId [m] mutualInteractions == 1).
Proof.
  intros Hsub Hall Hmore. unfold computeSocialBoost.
  split; [rewrite rawSocialBoost_sum; reflexivity |].
  split; [exact layerMultiplier_decay |].
  split; [eapply Qle_trans; [apply Q.le_min_r | lra] |].
  split.
  - apply Qmin_mono_l. rewrite !rawSocialBoost_sum.
    apply socialSum_mono; assumption.
  - intros m Hin Hl Hs. rewrite rawSocialBoost_sum. simpl.
    unfold contribution. rewrite bool_decide_eq_true_2 by exact Hin.
    rewrite Hl, Hs. reflexivity.
Qed.

(** C8 at one layer-1 mutual of strength 1.0 who interacted with bounty 7,
    next to the empty list of mutuals. *)
Lemma computeSocialBoost_spec_witness :
  computeSocialBoost 7 [] {[ "ann" := [7%Z] ]}
    <= computeSocialBoost 7 [{| mutualId := "ann"; layer := L1; strength := 1.0 |}]
         {[ "ann" := [7%Z] ]} /\
  computeSocialBoost 7 [{| mutualId := "ann"; layer := L1; strength := 1.0 |}]
    {[ "ann" := [7%Z] ]} == 1.
Proof.
  pose proof (computeSocialBoost_spec 7 []
                [{| mutualId := "ann"; layer := L1; strength := 1.0 |}]
                {[ "ann" := [7%Z] ]} {[ "ann" := [7%Z] ]}) as H.
  destruct H as (_ & _ & _ & Hmono & Hone).
  - apply sublist_nil_l.
  - repeat constructor. simpl. lra.
  - constructor.
  - split; [exact Hmono |]. apply Hone.
    + unfold interacted. simpl. rewrite lookup_singleton_eq. simpl.
      apply list_elem_of_singleton. reflexivity.
    + reflexivity.
    + reflexivity.
Defined.

End Social.


(** ** Ranking and selection *)

Module Ranking.
Import Recommendation Spec.

Lemma insertDesc_perm (x : ScoredBounty) (l : list ScoredBounty) :
  insertDesc x l ≡ₚ x :: l.
Proof.
  induction l as [| y l IH]; simpl; [reflexivity |].
  destruct (Qltb _ _); [| reflexivity].
  rewrite IH. apply perm_swap.
Qed.

Lemma sortByFinalScore_perm (l : list ScoredBounty) : sortByFinalScore l ≡ₚ l.
Proof.
  unfold sortByFinalScore. induction l as [| x l IH]; simpl; [reflexivity |].
  rewrite insertDesc_perm, IH. reflexivity.
Qed.

Lemma elem_of_sortByFinalScore (l : list ScoredBounty) (sb : ScoredBounty) :
  sb ∈ sortByFinalScore l <-> sb ∈ l.
Proof. rewrite sortByFinalScore_perm. reflexivity. Qed.

Lemma sortByFinalScore_length (l : list ScoredBounty) :
  length (sortByFinalScore l) = length l.
Proof. rewrite sortByFinalScore_perm. reflexivity. Qed.

Lemma sortByFinalScore_nil (l : list ScoredBounty) :
  sortByFinalScore l = [] <-> l = [].
Proof.
  split; intros H.
  - apply Permutation_nil_r. rewrite <- H. symmetry. apply sortByFinalScore_perm.
  - subst l. reflexivity.
Qed.

Lemma insertDesc_sorted (x : ScoredBounty) (l : list ScoredBounty) :
  StronglySorted byFinalScoreDesc l -> StronglySorted byFinalScoreDesc (insertDesc x l).
Proof.
  induction 1 as [| y l Hs IH Hy]; simpl.
  - repeat constructor.
  - destruct (Qltb (finalScore x) (finalScore y)) eqn:Hlt.
    + apply Qltb_lt in Hlt. constructor; [exact IH |].
      rewrite Forall_forall. intros z Hz.
      rewrite insertDesc_perm in Hz. apply elem_of_cons in Hz.
      destruct Hz as [-> | Hz].
      * unfold byFinalScoreDesc. lra.
      * rewrite Forall_forall in Hy. apply Hy. exact Hz.
    + apply Qltb_ge in Hlt. constructor; [constructor; assumption |].
      constructor; [exact Hlt |].
      rewrite Forall_forall in Hy |- *. intros z Hz.
      specialize (Hy z Hz). unfold byFinalScoreDesc in *. lra.
Qed.

Lemma sortByFinalScore_sorted (l : list ScoredBounty) :
  StronglySorted byFinalScoreDesc (sortByFinalScore l).
Proof.
  unfold sortByFinalScore. induction l as [| x l IH]; simpl.
  - constructor.
  - apply insertDesc_sorted, IH.
Qed.

Lemma filter_none {A : Type} (f : A -> bool) (l : list A) :
  (forall x, In x l -> f x = false) -> List.filter f l = [].
Proof.
  induction l as [| x l IH]; intros H; simpl; [reflexivity |].
  rewrite (H x) by (left; reflexivity).
  apply IH. intros y Hy. apply H. right. exact Hy.
Qed.

(** On a list that went through the relevance filter, no element has a
    relevance below 3.0: the stretch selection finds no candidate. *)
Lemma selectStretchBounty_filtered (l : list ScoredBounty) :
  selectStretchBounty (sortByFinalScore (List.filter passesRelevance l)) = None.
Proof.
  unfold selectStretchBounty. rewrite filter_none; [reflexivity |].
  intros sb Hsb.
  apply list_elem_of_In, elem_of_sortByFinalScore, list_elem_of_In, filter_In in Hsb.
  destruct Hsb as [_ Hpass]. unfold passesRelevance, Qgeb, MIN_RELEVANCE_THRESHOLD in Hpass.
  unfold Qltb. rewrite Hpass. reflexivity.
Qed.

(** The three outcomes of [getRecommendations]. *)
Lemma getRecommendations_cases input allBounties bountyTagMap mutualInteractions :
  let accessible := filterByAccessTier allBounties (accessTier (userProfile input)) in
  let allScored := map (scoreBounty input bountyTagMap mutualInteractions) accessible in
  let filtered := sortByFinalScore (List.filter passesRelevance allScored) in
  let allSorted := sortByFinalScore allScored in
  getRecommendations input allBounties bountyTagMap mutualInteractions =
  match filtered with
  | p :: rest =>
      Ok {| primary := p;
            secondary := default p (head rest);
            debug := {| totalCandidates := length allBounties;
                        filteredByTier := length accessible;
                        filteredByRelevance := length filtered;
                        topRelevanceScores := map relevanceScore (take 5 filtered) |} |}
  | [] =>
      match allSorted with
      | [] => Throw "No bounties available for recommendations"
      | f :: rest =>
          Ok {| primary := f;
                secondary := default f (head rest);
                debug := {| totalCandidates := length allBounties;
                            filteredByTier := length accessible;
                            filteredByRelevance := 0;
                            topRelevanceScores :=
                              map relevanceScore (take 5 allSorted) |} |}
      end
  end.
Proof.
  intros accessible allScored filtered allSorted.
  unfold getRecommendations. cbv zeta.
  fold accessible. fold allScored. fold allSorted.
  rewrite selectStretchBounty_filtered. fold filtered.
  destruct filtered as [| p rest] eqn:Hf; simpl.
  - destruct allSorted as [| f rest]; simpl; [reflexivity |].
    destruct rest; reflexivity.
  - destruct rest; reflexivity.
Qed.

End Ranking.


(** ** Final score *)

Module Scoring.
Import Recommendation Spec.







End Scoring.


(** ** The recommendation request *)

Module Recommend.
Import Recommendation Spec.






End Recommend.


(** ** Primary and secondary picks *)

Module Picks.
Import Recommendation Spec.

Lemma filter_passes_nil (l : list ScoredBounty) :
  List.filter passesRelevance l = [] <->
  Forall (fun sb => relevanceScore sb < 3.0) l.
Proof.
  induction l as [| sb l IH]; simpl.
  - split; [constructor | reflexivity].
  - destruct (passesRelevance sb) eqn:Hp.
    + split; [discriminate |]. intros H. apply Forall_cons in H as [H _].
      apply Qgeb_ge in Hp. unfold MIN_RELEVANCE_THRESHOLD in Hp. lra.
    + rewrite IH. apply Qgeb_lt in Hp. unfold MIN_RELEVANCE_THRESHOLD in Hp.
      split; [intros H; constructor; assumption |].
      intros H. apply Forall_cons in H as [_ H]. exact H.
Qed.

(** Outside the fallback, the secondary pick comes from the relevance-filtered
    list, so its relevance is never below the threshold. *)
Lemma secondary_relevance input allBounties bountyTagMap mutualInteractions out :
  getRecommendations input allBounties bountyTagMap mutualInteractions = Ok out ->
  filteredByRelevance (debug out) <> 0%nat ->
  3.0 <= relevanceScore (secondary out).
Proof.
  intros Hout Hn. rewrite Ranking.getRecommendations_cases in Hout. cbv zeta in Hout.
  set (allScored := map _ _) in *.
  destruct (sortByFinalScore (List.filter passesRelevance allScored))
    as [| p rest] eqn:Hf.
  - destruct (sortByFinalScore allScored); [discriminate |].
    injection Hout as <-. simpl in Hn. congruence.
  - injection Hout as <-. simpl.
    assert (forall sb, sb ∈ p :: rest -> 3.0 <= relevanceScore sb) as Hin.
    { intros sb Hsb. rewrite <- Hf in Hsb.
      apply (proj1 (Ranking.elem_of_sortByFinalScore _ _)) in Hsb.
      apply list_elem_of_In, filter_In in Hsb as [_ Hsb].
      apply Qgeb_ge in Hsb. exact Hsb. }
    apply Hin. destruct rest; simpl; [left | right; left].
Qed.

(** C2 (the code at the failing input): the scenario user is offered the
    typescript bounty and a second bounty tagged rust only. The second bounty
    has relevance 0 < 3.0 and final score 2 > 0.2 x 7.5, so it is a stretch
    candidate, and [selectStretchBounty] picks it when given the ranked list
    of all scored bounties; [getRecommendations], which hands it the
    relevance-filtered list, returns the primary bounty itself as secondary. *)
Theorem stretch_candidate_ignored :
  exists out,
    getRecommendations scenarioInput [scenarioBounty; stretchBounty] stretchTagMap ∅
      = Ok out /\
    bounty (primary out) = scenarioBounty /\
    finalScore (primary out) == 7.5 /\
    relevanceScore (scoreBounty scenarioInput stretchTagMap ∅ stretchBounty) == 0 /\
    finalScore (scoreBounty scenarioInput stretchTagMap ∅ stretchBounty) == 2 /\
    relevanceScore (scoreBounty scenarioInput stretchTagMap ∅ stretchBounty) < 3.0 /\
    0.2 * finalScore (primary out)
      < finalScore (scoreBounty scenarioInput stretchTagMap ∅ stretchBounty) /\
    selectStretchBounty
      (sortByFinalScore
         (map (scoreBounty scenarioInput stretchTagMap ∅) [scenarioBounty; stretchBounty]))
      = Some (scoreBounty scenarioInput stretchTagMap ∅ stretchBounty) /\
    secondary out = primary out /\
    bounty (secondary out) <> stretchBounty.
Proof.
  eexists. split; [vm_compute; reflexivity |].
  simpl. repeat split; try reflexivity; try (vm_compute; reflexivity).
  discriminate.
Qed.

(** C3: [getRecommendations] throws exactly when no bounty is accessible.
    When some bounty is accessible and all accessible bounties have relevance
    below 3.0, it returns the first bounty of the unfiltered list ranked by
    decreasing final score as primary and the second one (the primary again
    when there is only one) as secondary, with [filteredByRelevance = 0]; and
    a returned [filteredByRelevance] is 0 only in that situation. *)
Theorem getRecommendations_fallback (input : RecommendationInput)
    (allBounties : list BountyData) (bountyTagMap : gmap Z (list BountyTag))
    (mutualInteractions : gmap string (list Z)) :
  let accessible := filterByAccessTier allBounties (accessTier (userProfile input)) in
  let allScored := map (scoreBounty input bountyTagMap mutualInteractions) accessible in
  let result := getRecommendations input allBounties bountyTagMap mutualInteractions in
  (accessible = [] <-> exists msg, result = Throw msg) /\
  (accessible <> [] ->
   Forall (fun sb => relevanceScore sb < 3.0) allScored ->
   exists out ranked,
     result = Ok out /\
     ranked ≡ₚ allScored /\
     StronglySorted byFinalScoreDesc ranked /\
     ranked !! 0%nat = Some (primary out) /\
     secondary out = default (primary out) (ranked !! 1%nat) /\
     filteredByRelevance (debug out) = 0%nat) /\
  (forall out, result = Ok out ->
     (filteredByRelevance (debug out) = 0%nat <->
      Forall (fun sb => relevanceScore sb < 3.0) allScored)).
Proof.
  intros accessible allScored result.
  pose proof (Ranking.getRecommendations_cases input allBounties bountyTagMap
                mutualInteractions) as Hcases.
  cbv zeta in Hcases. fold accessible allScored result in Hcases.
  assert (allScored = [] <-> accessible = []) as Hnil.
  { subst allScored. destruct accessible; simpl; split; intros; congruence. }
  pose proof (filter_passes_nil allScored) as Hlow.
  destruct (sortByFinalScore (List.filter passesRelevance allScored))
    as [| p rest] eqn:Hf.
  - apply (proj1 (Ranking.sortByFinalScore_nil _)) in Hf.
    destruct (sortByFinalScore allScored) as [| f rest] eqn:Hs.
    + apply (proj1 (Ranking.sortByFinalScore_nil _)) in Hs.
      split; [| split].
      * split; [intros _; eexists; exact Hcases | intros _; apply Hnil; exact Hs].
      * intros Hne. exfalso. apply Hne, Hnil, Hs.
      * intros out Hout. rewrite Hcases in Hout. discriminate.
    + assert (allScored <> []) as Hne.
      { intros H. apply (proj2 (Ranking.sortByFinalScore_nil _)) in H. congruence. }
      split; [| split].
      * split; [intros H; exfalso; apply Hne, Hnil, H |].
        intros [msg Hmsg]. rewrite Hcases in Hmsg. discriminate.
      * intros _ _. eexists. exists (f :: rest).
        split; [exact Hcases |]. simpl.
        split; [rewrite <- Hs; apply Ranking.sortByFinalScore_perm |].
        split; [rewrite <- Hs; apply Ranking.sortByFinalScore_sorted |].
        split; [reflexivity |]. split; [| reflexivity].
        destruct rest; reflexivity.
      * intros out Hout. rewrite Hcases in Hout. injection Hout as <-. simpl.
        split; [intros _; apply Hlow, Hf | reflexivity].
  - assert (List.filter passesRelevance allScored <> []) as Hne.
    { intros H. rewrite H in Hf. discriminate. }
    assert (accessible <> []) as Hacc.
    { intros H. apply Hne. apply Hnil in H. rewrite H. reflexivity. }
    split; [| split].
    + split; [intros H; contradiction |].
      intros [msg Hmsg]. rewrite Hcases in Hmsg. discriminate.
    + intros _ Hall. exfalso. apply Hne, Hlow, Hall.
    + intros out Hout. rewrite Hcases in Hout. injection Hout as <-. simpl.
      split; [discriminate |]. intros Hall. exfalso. apply Hne, Hlow, Hall.
Qed.

(** C3 on the scenario user and a single bounty tagged rust only (relevance
    0): the fallback returns that bounty twice and reports 0. *)
Lemma getRecommendations_fallback_witness :
  exists out,
    getRecommendations scenarioInput [stretchBounty] stretchTagMap ∅ = Ok out /\
    filteredByRelevance (debug out) = 0%nat /\
    secondary out = primary out.
Proof.
  destruct (getRecommendations_fallback scenarioInput [stretchBounty] stretchTagMap ∅)
    as (_ & Hfb & _).
  destruct Hfb as (out & ranked & Hout & _ & _ & _ & _ & Hzero).
  - simpl. discriminate.
  - repeat constructor.
  - exists out. split; [exact Hout |]. split; [exact Hzero |].
    vm_compute in Hout. injection Hout as <-. reflexivity.
Defined.

End Picks.


(** ** Blend weights *)

Module Blend.
Import Schema Behavior BehaviorSpec.

Lemma find_some_holds {A : Type} (p : A -> bool) (l : list A) (x : A) :
  List.find p l = Some x -> In x l /\ p x = true.
Proof. apply find_some. Qed.

Lemma elem_of_updateWhere {A : Type} (p : A -> bool) (f : A -> A) (rows : list A) (r' : A) :
  r' ∈ updateWhere p f rows <->
  exists r, r ∈ rows /\ r' = (if p r then f r else r).
Proof.
  unfold updateWhere. rewrite list_elem_of_fmap.
  split; intros (r & H1 & H2); exists r; tauto.
Qed.

(** An update whose new values leave the selected column alone: the first
    row the condition selects is found again, updated. *)
Lemma find_updateWhere_hit {A : Type} (p : A -> bool) (f : A -> A) (rows : list A) (r : A) :
  (forall x, p (f x) = p x) ->
  List.find p rows = Some r ->
  List.find p (updateWhere p f rows) = Some (f r).
Proof.
  intros Hp. unfold updateWhere.
  induction rows as [| x rows IH]; simpl; [discriminate |].
  destruct (p x) eqn:Hx.
  - intros [= <-]. rewrite Hp, Hx. reflexivity.
  - rewrite Hx. exact IH.
Qed.

(** C5: [updateBlendConfig] stores, for the new interaction total [n], the
    weights (0.8, 0.2) when n < 10, the linear interpolation from (0.8, 0.2)
    to (0.5, 0.5) when 10 <= n < 50 (so (0.65, 0.35) at n = 30), (0.5, 0.5)
    when 50 <= n < 100 and (0.3, 0.7) when n >= 100; the two weights sum to 1
    for every n. The user's configuration is still found after the update,
    it is the old one with the new total and the new weights, the table keeps
    its length, and every row of the user holds these values. *)
Theorem blendWeights_spec (db : DB) (userId : string) (config : UserBlendConfig) (n : Z) :
  List.find (isConfigRow userId) (userBlendConfigTable db) = Some config ->
  n = (totalInteractions config + 1)%Z ->
  (List.find (isConfigRow userId) (userBlendConfigTable (updateBlendConfig db userId))
   = Some (setBlend n (blendWeights n) config) /\
   length (userBlendConfigTable (updateBlendConfig db userId))
   = length (userBlendConfigTable db)) /\
  (forall c, c ∈ userBlendConfigTable (updateBlendConfig db userId) ->
             ubc_userId c = userId ->
             totalInteractions c = n /\
             explicitWeight c = (blendWeights n).1 /\
             implicitWeight c = (blendWeights n).2) /\
  ((n < 10)%Z -> (blendWeights n).1 == 0.8 /\ (blendWeights n).2 == 0.2) /\
  ((10 <= n < 50)%Z ->
   (blendWeights n).1 == 0.8 + inject_Z (n - 10) / inject_Z (50 - 10) * (0.5 - 0.8) /\
   (blendWeights n).2 == 0.2 + inject_Z (n - 10) / inject_Z (50 - 10) * (0.5 - 0.2)) /\
  ((blendWeights 30).1 == 0.65 /\ (blendWeights 30).2 == 0.35) /\
  ((50 <= n < 100)%Z -> (blendWeights n).1 == 0.5 /\ (blendWeights n).2 == 0.5) /\
  ((100 <= n)%Z -> (blendWeights n).1 == 0.3 /\ (blendWeights n).2 == 0.7) /\
  (blendWeights n).1 + (blendWeights n).2 == 1.
Proof.
  intros Hfind Hn.
  split.
  { unfold updateBlendConfig. rewrite Hfind. simpl. subst n. split.
    - apply find_updateWhere_hit; [intros x; reflexivity | exact Hfind].
    - unfold updateWhere. apply length_map. }
  split.
  { intros c Hc Hu. unfold updateBlendConfig in Hc. rewrite Hfind in Hc.
    simpl in Hc. apply elem_of_updateWhere in Hc as (c0 & _ & ->).
    unfold isConfigRow in *.
    destruct (bool_decide (ubc_userId c0 = userId)) eqn:Hb.
    - subst n. simpl. auto.
    - apply bool_decide_eq_false in Hb. contradiction. }
  unfold blendWeights, TRUST_IMPLICIT, EQUAL_WEIGHT, START_BLENDING.
  rewrite !Z.geb_leb.
  split; [| split; [| split; [| split; [| split]]]].
  - intros H. destruct (Z.leb_spec 100 n); [lia |].
    destruct (Z.leb_spec 50 n); [lia |]. destruct (Z.leb_spec 10 n); [lia |].
    simpl. split; reflexivity.
  - intros H. destruct (Z.leb_spec 100 n); [lia |].
    destruct (Z.leb_spec 50 n); [lia |]. destruct (Z.leb_spec 10 n); [| lia].
    simpl. set (p := inject_Z (n - 10) / _). split; ring.
  - split; reflexivity.
  - intros H. destruct (Z.leb_spec 100 n); [lia |].
    destruct (Z.leb_spec 50 n); [| lia]. simpl. split; reflexivity.
  - intros H. destruct (Z.leb_spec 100 n); [| lia]. simpl. split; reflexivity.
  - destruct (100 <=? n)%Z; [reflexivity |].
    destruct (50 <=? n)%Z; [reflexivity |].
    destruct (10 <=? n)%Z; [| reflexivity].
    simpl. set (p := inject_Z (n - 10) / _). ring.
Qed.

(** C5 for a user with 29 interactions who records the 30th: the user's
    configuration is found after the update with the total 30 and the weights
    (0.65, 0.35), which sum to 1. *)
Lemma blendWeights_spec_witness :
  (exists c,
     List.find (isConfigRow "user") (userBlendConfigTable (updateBlendConfig blendDB "user"))
     = Some c /\
     totalInteractions c = 30%Z /\
     explicitWeight c == 0.65 /\ implicitWeight c == 0.35) /\
  (blendWeights 30).1 + (blendWeights 30).2 == 1.
Proof.
  destruct (blendWeights_spec blendDB "user"
              {| ubc_userId := "user"; explicitWeight := 0.8; implicitWeight := 0.2;
                 totalInteractions := 29; divergenceThreshold := 3.0;
                 lastDivergencePrompt := None; divergencePromptCount := 0 |}
              30 eq_refl eq_refl) as ([Hfound _] & _ & _ & _ & [H1 H2] & _ & _ & Hsum).
  split; [| exact Hsum].
  eexists. split; [exact Hfound |].
  split; [reflexivity |]. split; [exact H1 | exact H2].
Defined.

End Blend.


(** ** Per-tag behavior scores *)

Module TagBehavior.
Import Schema Behavior BehaviorSpec.

Lemma find_updateWhere {A : Type} (p : A -> bool) (f : A -> A) (rows : list A) :
  (forall r, p (f r) = p r) ->
  List.find p (updateWhere p f rows) = option_map f (List.find p rows).
Proof.
  intros Hp. unfold updateWhere. induction rows as [| r rows IH]; simpl; [reflexivity |].
  destruct (p r) eqn:Hr.
  - rewrite Hp, Hr. reflexivity.
  - rewrite Hr. exact IH.
Qed.

Lemma find_app_none {A : Type} (p : A -> bool) (rows : list A) (r : A) :
  List.find p rows = None -> p r = true -> List.find p (rows ++ [r]) = Some r.
Proof.
  intros Hnone Hr. induction rows as [| x rows IH]; simpl in *.
  - rewrite Hr. reflexivity.
  - destruct (p x); [discriminate |]. apply IH, Hnone.
Qed.

Lemma isTagRow_setCountScore userId tagId t c s r :
  isTagRow userId tagId (setImplicitScore s (setCountScore t c s r)) = isTagRow userId tagId r.
Proof. reflexivity. Qed.

(** The update path: when a record exists, the record found afterwards has its
    counter incremented, its per-type score and its implicit score recomputed
    by the two formulas. *)
Lemma updateTagBehavior_existing (db : DB) (userId : string) (tagId : Z)
    (t : InteractionType) (existing : UserBehaviorTag) :
  List.find (isTagRow userId tagId) (userBehaviorTagTable db) = Some existing ->
  exists r,
    List.find (isTagRow userId tagId)
      (userBehaviorTagTable (updateTagBehavior db userId tagId t)) = Some r /\
    countField t r = (countField t existing + 1)%Z /\
    scoreField t r = perTypeFormula t r /\
    implicitScore r = implicitFormula r.
Proof.
  intros Hfind. unfold updateTagBehavior. rewrite Hfind. simpl.
  rewrite find_updateWhere by reflexivity. rewrite Hfind. simpl.
  eexists. split; [reflexivity |].
  destruct t; repeat split; reflexivity.
Qed.

(** The creation path: the new record has counter 1 and the per-type score of
    the formula, but its implicit score is that per-type score itself, not the
    weighted combination. *)
Lemma updateTagBehavior_created (db : DB) (userId : string) (tagId : Z)
    (t : InteractionType) :
  List.find (isTagRow userId tagId) (userBehaviorTagTable db) = None ->
  exists r,
    List.find (isTagRow userId tagId)
      (userBehaviorTagTable (updateTagBehavior db userId tagId t)) = Some r /\
    countField t r = 1%Z /\
    scoreField t r == perTypeFormula t r /\
    implicitScore r = scoreField t r /\
    implicitFormula r == scoreField t r * baseWeight t /\
    ~ implicitScore r == implicitFormula r.
Proof.
  intros Hfind. unfold updateTagBehavior. rewrite Hfind. simpl.
  eexists. split.
  - apply find_app_none; [exact Hfind |].
    unfold isTagRow. simpl. rewrite bool_decide_eq_true_2 by reflexivity.
    apply Z.eqb_refl.
  - destruct t; repeat split; try reflexivity; intros H; discriminate H.
Qed.

(** C4 (the code at the failing input): the first view of a bounty carrying
    tag 1 creates the record with view count 1 and view score 0.2, as the
    formula says, but with implicit score 0.2 where the formula gives
    min(10, 0.2 x 0.1) = 0.02; the second view, which goes through the update
    path, stores view score 0.4 and the implicit score 0.04 of the formula. *)
Theorem first_event_implicitScore :
  exists r1 r2,
    userBehaviorTagTable (trackBehavior oneBountyDB "user" 1 view) = [r1] /\
    viewCount r1 = 1%Z /\
    viewScore r1 == 0.2 /\ viewScore r1 == perTypeFormula view r1 /\
    implicitScore r1 == 0.2 /\ implicitFormula r1 == 0.02 /\
    ~ implicitScore r1 == implicitFormula r1 /\
    userBehaviorTagTable
      (trackBehavior (trackBehavior oneBountyDB "user" 1 view) "user" 1 view) = [r2] /\
    viewCount r2 = 2%Z /\
    viewScore r2 == 0.4 /\ viewScore r2 == perTypeFormula view r2 /\
    implicitScore r2 == 0.04 /\ implicitScore r2 == implicitFormula r2.
Proof.
  eexists. eexists.
  split; [vm_compute; reflexivity |].
  split; [reflexivity |]. split; [reflexivity |]. split; [reflexivity |].
  split; [reflexivity |]. split; [reflexivity |].
  split; [intros H; discriminate H |].
  split; [vm_compute; reflexivity |].
  repeat split; reflexivity.
Qed.

End TagBehavior.


(** ** The divergence flag *)

Module Divergence.
Import Schema Behavior BehaviorSpec.

Lemma flagsKept_refl (rows : list UserBehaviorTag) : flagsKept rows rows.
Proof. intros i r Hr. exists r. auto. Qed.

Lemma flagsKept_trans (rows1 rows2 rows3 : list UserBehaviorTag) :
  flagsKept rows1 rows2 -> flagsKept rows2 rows3 -> flagsKept rows1 rows3.
Proof.
  intros H12 H23 i r Hr.
  destruct (H12 i r Hr) as (r2 & Hr2 & Hu2 & Ht2 & Hd2).
  destruct (H23 i r2 Hr2) as (r3 & Hr3 & Hu3 & Ht3 & Hd3).
  exists r3. repeat split; [exact Hr3 | congruence | congruence | auto].
Qed.

Lemma flagsKept_app (rows extra : list UserBehaviorTag) : flagsKept rows (rows ++ extra).
Proof.
  intros i r Hr. exists r. split; [| auto].
  apply lookup_app_l_Some. exact Hr.
Qed.

Lemma flagsKept_updateWhere (p : UserBehaviorTag -> bool)
    (f : UserBehaviorTag -> UserBehaviorTag) (rows : list UserBehaviorTag) :
  (forall r, ubt_userId (f r) = ubt_userId r /\
             ubt_tagId (f r) = ubt_tagId r /\
             (divergenceDetected r = true -> divergenceDetected (f r) = true)) ->
  flagsKept rows (updateWhere p f rows).
Proof.
  intros Hf i r Hr. unfold updateWhere. rewrite list_lookup_fmap, Hr. simpl.
  eexists. split; [reflexivity |].
  destruct (p r); [apply Hf | auto].
Qed.

Lemma updateTagBehavior_flagsKept db userId tagId t :
  flagsKept (userBehaviorTagTable db)
            (userBehaviorTagTable (updateTagBehavior db userId tagId t)).
Proof.
  unfold updateTagBehavior.
  destruct (List.find _ _) as [existing |]; simpl.
  - apply flagsKept_updateWhere. intros r. simpl. auto.
  - apply flagsKept_app.
Qed.

Lemma updateTagBehavior_loop_flagsKept userId t (tags : list Z) db :
  flagsKept (userBehaviorTagTable db)
            (userBehaviorTagTable
               (fold_left (fun d tagId => updateTagBehavior d userId tagId t) tags db)).
Proof.
  revert db. induction tags as [| g tags IH]; intros db; simpl.
  - apply flagsKept_refl.
  - eapply flagsKept_trans; [apply updateTagBehavior_flagsKept | apply IH].
Qed.

Lemma updatePriceBehavior_tags db userId price t :
  userBehaviorTagTable (updatePriceBehavior db userId price t) = userBehaviorTagTable db.
Proof. unfold updatePriceBehavior. destruct (List.find _ _); reflexivity. Qed.

Lemma updateBlendConfig_tags db userId :
  userBehaviorTagTable (updateBlendConfig db userId) = userBehaviorTagTable db.
Proof. unfold updateBlendConfig. destruct (List.find _ _); reflexivity. Qed.

(** Each turn of the divergence check leaves a flag alone or writes [true]. *)
Lemma divergenceStep_flagsKept userId explicitMap rows entry :
  flagsKept rows (divergenceStep userId explicitMap rows entry).
Proof.
  unfold divergenceStep.
  assert (forall e rows0,
            flagsKept rows0
              (updateWhere (isTagRow userId entry.1) (setDivergence true e) rows0))
    as Hset.
  { intros e rows0. apply flagsKept_updateWhere. intros r. simpl. auto. }
  destruct (explicitMap !! entry.1) as [e |]; cbv zeta;
    repeat match goal with
           | |- context [if ?c then _ else _] => destruct c
           end;
    first [ apply flagsKept_refl
          | apply Hset
          | eapply flagsKept_trans; apply Hset ].
Qed.

Lemma checkDivergence_flagsKept db userId :
  flagsKept (userBehaviorTagTable db) (userBehaviorTagTable (checkDivergence db userId)).
Proof.
  unfold checkDivergence. simpl.
  assert (forall entries explicitMap rows,
            flagsKept rows (fold_left (divergenceStep userId explicitMap) entries rows))
    as Hloop.
  { intros entries explicitMap.
    induction entries as [| entry entries IH]; intros rows; simpl.
    - apply flagsKept_refl.
    - eapply flagsKept_trans; [apply divergenceStep_flagsKept | apply IH]. }
  apply Hloop.
Qed.

Lemma trackBehavior_flagsKept db userId bountyId t :
  flagsKept (userBehaviorTagTable db)
            (userBehaviorTagTable (trackBehavior db userId bountyId t)).
Proof.
  unfold trackBehavior. destruct (List.find _ _) as [bountyData |].
  - eapply flagsKept_trans; [| apply checkDivergence_flagsKept].
    rewrite updateBlendConfig_tags, updatePriceBehavior_tags.
    apply updateTagBehavior_loop_flagsKept.
  - apply flagsKept_refl.
Qed.

Lemma clearDivergence_cleared db userId tagId r :
  r ∈ userBehaviorTagTable (clearDivergence db userId tagId) ->
  ubt_userId r = userId -> ubt_tagId r = tagId ->
  divergenceDetected r = false.
Proof.
  unfold clearDivergence. simpl. intros Hr Hu Ht.
  apply Blend.elem_of_updateWhere in Hr as (r0 & _ & ->).
  destruct (isTagRow userId tagId r0) eqn:Hrow; [reflexivity |].
  unfold isTagRow in Hrow. rewrite Hu, Ht in Hrow.
  rewrite bool_decide_eq_true_2, Z.eqb_refl in Hrow by reflexivity. discriminate.
Qed.

(** C10: along any sequence of recorded behavior events every record keeps
    its position, user and tag, and a divergence flag that is set stays set;
    [clearDivergence], and [respondToDivergence] which calls it, leave the
    flag of the user's records for the tag cleared. *)
Theorem divergenceDetected_sticky (db db' : DB) :
  rtc behaviorStep db db' ->
  (forall i r,
     userBehaviorTagTable db !! i = Some r ->
     divergenceDetected r = true ->
     exists r', userBehaviorTagTable db' !! i = Some r' /\
                ubt_userId r' = ubt_userId r /\
                ubt_tagId r' = ubt_tagId r /\
                divergenceDetected r' = true) /\
  (forall userId tagId r,
     r ∈ userBehaviorTagTable (clearDivergence db' userId tagId) ->
     ubt_userId r = userId -> ubt_tagId r = tagId ->
     divergenceDetected r = false) /\
  (forall userId now tagId action newScore r,
     r ∈ userBehaviorTagTable
           (Router.respondToDivergence db' userId now tagId action newScore) ->
     ubt_userId r = userId -> ubt_tagId r = tagId ->
     divergenceDetected r = false).
Proof.
  intros Hsteps.
  assert (flagsKept (userBehaviorTagTable db) (userBehaviorTagTable db')) as Hkept.
  { induction Hsteps as [db | db1 db2 db3 Hstep _ IH]; [apply flagsKept_refl |].
    eapply flagsKept_trans; [| exact IH].
    destruct Hstep. apply trackBehavior_flagsKept. }
  split; [| split].
  - intros i r Hr Hd. destruct (Hkept i r Hr) as (r' & Hr' & Hu & Ht & Hflag).
    exists r'. auto.
  - intros userId tagId r. apply clearDivergence_cleared.
  - intros userId now tagId action newScore r Hr.
    unfold Router.respondToDivergence, markDivergencePromptShown in Hr. simpl in Hr.
    eapply clearDivergence_cleared.
    unfold clearDivergence. simpl.
    destruct action, newScore as [s |]; simpl in Hr;
      try destruct (s =? 0)%Z; exact Hr.
Qed.

(** C10 on a record flagged earlier whose divergence condition no longer
    holds: after one more view the flag is still set. *)
Lemma divergenceDetected_sticky_witness :
  exists r',
    userBehaviorTagTable (trackBehavior flaggedDB "user" 1 view) !! 0%nat = Some r' /\
    ubt_tagId r' = 1%Z /\
    implicitScore r' < 3 /\
    divergenceDetected r' = true.
Proof.
  destruct (divergenceDetected_sticky flaggedDB (trackBehavior flaggedDB "user" 1 view))
    as (Hkeep & _ & _).
  - apply rtc_once. constructor.
  - destruct (Hkeep 0%nat (setDivergence true (Some 0) (defaultBehaviorTag "user" 1))
                eq_refl eq_refl) as (r' & Hr' & _ & Ht & Hd).
    exists r'. split; [exact Hr' |]. split; [exact Ht |]. split; [| exact Hd].
    vm_compute in Hr'. injection Hr' as <-. reflexivity.
Defined.

End Divergence.


(** ** Three-layer mutual expansion *)

Module Mutuals.
Import Schema Recommendation Router RouterSpec.

Lemma layer2_loop (userId : string) (ids : list string) (raw : list MutualRow)
    (acc : gset string * list MutualConnection) :
  let kept :=
    List.filter
      (fun m => negb (bool_decide (m_mutualId m ∈ ids))
                && negb (bool_decide (m_mutualId m = userId))) raw in
  (fold_left (layer2Step userId ids) raw acc).2
    = acc.2 ++ map (fun m => connection L2 (m_strength m * 0.5) m) kept /\
  (forall x, x ∈ (fold_left (layer2Step userId ids) raw acc).1 <->
             x ∈ acc.1 \/ x ∈ map m_mutualId kept).
Proof.
  revert acc. induction raw as [| m raw IH]; intros acc.
  - simpl. split; [rewrite app_nil_r; reflexivity |].
    intros x. rewrite elem_of_nil. tauto.
  - cbn [fold_left]. cbv zeta. cbn [List.filter].
    destruct (negb (bool_decide (m_mutualId m ∈ ids))
              && negb (bool_decide (m_mutualId m = userId))) eqn:Hc.
    + assert (layer2Step userId ids acc m
              = ({[ m_mutualId m ]} ∪ acc.1,
                 acc.2 ++ [connection L2 (m_strength m * 0.5) m])) as ->
        by (unfold layer2Step; rewrite Hc; reflexivity).
      destruct (IH ({[ m_mutualId m ]} ∪ acc.1,
                    acc.2 ++ [connection L2 (m_strength m * 0.5) m])) as [IH2 IH1].
      cbv zeta in IH2, IH1. simpl in IH2, IH1.
      split; [rewrite IH2, <- app_assoc; reflexivity |].
      intros x. rewrite IH1. simpl.
      rewrite elem_of_union, elem_of_singleton, elem_of_cons. tauto.
    + assert (layer2Step userId ids acc m = acc) as ->
        by (unfold layer2Step; rewrite Hc; reflexivity).
      apply IH.
Qed.

Lemma layer3_loop (userId : string) (ids : list string) (ids2 : gset string)
    (raw : list MutualRow) (result : list MutualConnection) :
  fold_left (layer3Step userId ids ids2) raw result
  = result ++
    map (fun m => connection L3 (m_strength m * 0.25) m)
      (List.filter
         (fun m => negb (bool_decide (m_mutualId m ∈ ids))
                   && negb (bool_decide (m_mutualId m ∈ ids2))
                   && negb (bool_decide (m_mutualId m = userId))) raw).
Proof.
  revert result. induction raw as [| m raw IH]; intros result; simpl.
  - rewrite app_nil_r. reflexivity.
  - rewrite IH. unfold layer3Step.
    destruct (negb _ && negb _ && negb _); simpl; [| reflexivity].
    rewrite <- app_assoc. reflexivity.
Qed.

Lemma edgesFrom_ext (table : list MutualRow) (ids ids' : list string) (userId : string) :
  (forall x, x ∈ ids <-> x ∈ ids') ->
  edgesFrom table ids userId = edgesFrom table ids' userId.
Proof.
  intros H. unfold edgesFrom. apply filter_ext. intros m. cbv beta.
  f_equal. apply bool_decide_ext, H.
Qed.

Lemma edgesFrom_nil (table : list MutualRow) (userId : string) :
  edgesFrom table [] userId = [].
Proof.
  unfold edgesFrom. apply Ranking.filter_none. intros m _.
  rewrite bool_decide_eq_false_2 by apply not_elem_of_nil. reflexivity.
Qed.

(** The result is the three layers of the specification, one after the other. *)
Lemma getMutualsThreeLayers_decompose (db : DB) (userId : string) :
  getMutualsThreeLayers db userId
  = map (fun m => connection L1 (m_strength m) m) (layer1Rows db userId)
    ++ map (fun m => connection L2 (m_strength m * 0.5) m) (layer2Rows db userId)
    ++ map (fun m => connection L3 (m_strength m * 0.25) m) (layer3Rows db userId).
Proof.
  unfold getMutualsThreeLayers. fold (layer1Rows db userId).
  destruct (length (layer1Rows db userId) =? 0)%nat eqn:Hlen.
  - apply Nat.eqb_eq, length_zero_iff_nil in Hlen.
    unfold layer3Rows, layer2Ids, layer2Rows, layer1Ids. rewrite Hlen. simpl.
    rewrite edgesFrom_nil. simpl. rewrite edgesFrom_nil. reflexivity.
  - clear Hlen. cbv zeta. fold (layer1Ids db userId).
    destruct (layer2_loop userId (layer1Ids db userId)
                (edgesFrom (mutualTable db) (layer1Ids db userId) userId)
                (∅, map (fun m => connection L1 (m_strength m) m) (layer1Rows db userId)))
      as [Hres Hids].
    cbv zeta in Hres, Hids. fold (layer2Rows db userId) in Hres, Hids.
    fold (layer2Ids db userId) in Hids. simpl in Hres, Hids.
    set (acc := fold_left _ _ _) in *.
    assert (forall x, x ∈ acc.1 <-> x ∈ layer2Ids db userId) as Hids'.
    { intros x. rewrite Hids. rewrite elem_of_empty. tauto. }
    assert (forall m, bool_decide (m_mutualId m ∈ acc.1)
                      = bool_decide (m_mutualId m ∈ layer2Ids db userId)) as Hdec.
    { intros m. apply bool_decide_ext, Hids'. }
    rewrite Hres.
    destruct (0 <? size acc.1)%nat eqn:Hsize.
    + rewrite layer3_loop, <- app_assoc. do 3 f_equal.
      unfold layer3Rows.
      rewrite (edgesFrom_ext _ (elements acc.1) (layer2Ids db userId))
        by (intros x; rewrite elem_of_elements; apply Hids').
      apply filter_ext. intros m. cbv beta. rewrite Hdec. reflexivity.
    + apply Nat.ltb_ge in Hsize.
      assert (layer2Ids db userId = []) as Hnil.
      { assert (acc.1 ≡ ∅) as Hempty
          by (apply size_empty_iff; lia).
        destruct (layer2Ids db userId) as [| x l] eqn:Hl; [reflexivity |].
        exfalso. apply (not_elem_of_empty (C := gset string) x).
        apply Hempty, Hids'. left. }
      unfold layer3Rows. rewrite Hnil, edgesFrom_nil. simpl.
      rewrite app_nil_r. reflexivity.
Qed.

(** C7 (as stated, refuted): in the diamond the user reaches cat through ann
    and through bob, and the result lists cat twice. *)
Lemma getMutualsThreeLayers_duplicates :
  map mutualId (getMutualsThreeLayers diamondDB "user") = ["ann"; "bob"; "cat"; "cat"] /\
  ~ NoDup (map mutualId (getMutualsThreeLayers diamondDB "user")).
Proof.
  assert (map mutualId (getMutualsThreeLayers diamondDB "user")
          = ["ann"; "bob"; "cat"; "cat"]) as Heq by (vm_compute; reflexivity).
  split; [exact Heq |]. rewrite Heq. intros H.
  apply NoDup_cons in H as [_ H]. apply NoDup_cons in H as [_ H].
  apply NoDup_cons in H as [H _]. apply H. left.
Qed.


Lemma elem_of_filter_bool {A : Type} (f : A -> bool) (l : list A) (x : A) :
  x ∈ List.filter f l <-> x ∈ l /\ f x = true.
Proof. rewrite !list_elem_of_In. apply filter_In. Qed.

Lemma elem_of_layer1Rows db userId r :
  r ∈ layer1Rows db userId <-> r ∈ mutualTable db /\ m_userId r = userId.
Proof.
  unfold layer1Rows. rewrite elem_of_filter_bool, bool_decide_eq_true. reflexivity.
Qed.

Lemma elem_of_edgesFrom table ids userId r :
  r ∈ edgesFrom table ids userId <->
  r ∈ table /\ m_userId r ∈ ids /\ m_mutualId r <> userId.
Proof.
  unfold edgesFrom.
  rewrite elem_of_filter_bool, andb_true_iff, negb_true_iff,
    bool_decide_eq_true, bool_decide_eq_false.
  reflexivity.
Qed.

Lemma elem_of_layer2Rows db userId r :
  r ∈ layer2Rows db userId <->
  r ∈ mutualTable db /\ m_userId r ∈ layer1Ids db userId /\
  m_mutualId r <> userId /\ m_mutualId r ∉ layer1Ids db userId.
Proof.
  unfold layer2Rows.
  rewrite elem_of_filter_bool, elem_of_edgesFrom, andb_true_iff, !negb_true_iff,
    !bool_decide_eq_false.
  tauto.
Qed.

Lemma elem_of_layer3Rows db userId r :
  r ∈ layer3Rows db userId <->
  r ∈ mutualTable db /\ m_userId r ∈ layer2Ids db userId /\
  m_mutualId r <> userId /\ (m_mutualId r ∉ layer1Ids db userId) /\
  (m_mutualId r ∉ layer2Ids db userId).
Proof.
  unfold layer3Rows.
  rewrite elem_of_filter_bool, elem_of_edgesFrom, !andb_true_iff, !negb_true_iff,
    !bool_decide_eq_false.
  tauto.
Qed.

Lemma elem_of_getMutualsThreeLayers db userId e :
  e ∈ getMutualsThreeLayers db userId <->
  (exists r, r ∈ layer1Rows db userId /\ e = connection L1 (m_strength r) r) \/
  (exists r, r ∈ layer2Rows db userId /\ e = connection L2 (m_strength r * 0.5) r) \/
  (exists r, r ∈ layer3Rows db userId /\ e = connection L3 (m_strength r * 0.25) r).
Proof.
  rewrite getMutualsThreeLayers_decompose, !elem_of_app, !list_elem_of_fmap.
  split; intros [(r & H1 & H2) | [(r & H1 & H2) | (r & H1 & H2)]]; eauto 6.
Qed.

(** Layer 1 is taken as stored: a stored edge from the user to the user is
    returned as a layer-1 entry. *)
Lemma getMutualsThreeLayers_self_edge :
  map mutualId (getMutualsThreeLayers (graphDB [edge "user" "user" 1.0]) "user")
  = ["user"].
Proof. vm_compute. reflexivity. Qed.

(** C7 (amended): every layer-1 entry is a stored edge of the user with its
    stored strength; every layer-2 entry comes from a stored edge that leaves
    a layer-1 id, is not the user, and carries that edge's strength x 0.5;
    every layer-3 entry comes from a stored edge that leaves a layer-2 id, is
    not the user, and carries that edge's strength x 0.25; an id never
    appears in two different layers; and with non-negative stored strengths
    each entry's strength is at most the strength of its stored edge. *)
Theorem getMutualsThreeLayers_layers (db : DB) (userId : string) :
  let result := getMutualsThreeLayers db userId in
  (forall e, e ∈ result -> layer e = L1 ->
     exists r, r ∈ mutualTable db /\ m_userId r = userId /\
               m_mutualId r = mutualId e /\ strength e = m_strength r) /\
  (forall e, e ∈ result -> layer e = L2 ->
     mutualId e <> userId /\
     exists r e1, r ∈ mutualTable db /\ e1 ∈ result /\ layer e1 = L1 /\
                  m_userId r = mutualId e1 /\ m_mutualId r = mutualId e /\
                  strength e = m_strength r * 0.5) /\
  (forall e, e ∈ result -> layer e = L3 ->
     mutualId e <> userId /\
     exists r e2, r ∈ mutualTable db /\ e2 ∈ result /\ layer e2 = L2 /\
                  m_userId r = mutualId e2 /\ m_mutualId r = mutualId e /\
                  strength e = m_strength r * 0.25) /\
  (forall e1 e2, e1 ∈ result -> e2 ∈ result ->
     mutualId e1 = mutualId e2 -> layer e1 = layer e2) /\
  ((forall r, r ∈ mutualTable db -> 0 <= m_strength r) ->
   forall e, e ∈ result ->
     exists r, r ∈ mutualTable db /\ m_mutualId r = mutualId e /\
               strength e <= m_strength r).
Proof.
  intros result. subst result.
  assert (forall x, x ∈ layer1Ids db userId ->
            exists e1, e1 ∈ getMutualsThreeLayers db userId /\ layer e1 = L1 /\
                       x = mutualId e1) as Hid1.
  { intros x Hx. apply list_elem_of_fmap in Hx as (r & -> & Hr).
    exists (connection L1 (m_strength r) r). split; [| split; reflexivity].
    apply elem_of_getMutualsThreeLayers. left. eauto. }
  assert (forall x, x ∈ layer2Ids db userId ->
            exists e2, e2 ∈ getMutualsThreeLayers db userId /\ layer e2 = L2 /\
                       x = mutualId e2) as Hid2.
  { intros x Hx. apply list_elem_of_fmap in Hx as (r & -> & Hr).
    exists (connection L2 (m_strength r * 0.5) r). split; [| split; reflexivity].
    apply elem_of_getMutualsThreeLayers. right. left. eauto. }
  assert (forall r, r ∈ layer1Rows db userId -> m_mutualId r ∈ layer1Ids db userId)
    as Hin1 by (intros r Hr; apply list_elem_of_fmap; eauto).
  assert (forall r, r ∈ layer2Rows db userId -> m_mutualId r ∈ layer2Ids db userId)
    as Hin2 by (intros r Hr; apply list_elem_of_fmap; eauto).
  split; [| split; [| split; [| split]]].
  - intros e He Hl.
    apply elem_of_getMutualsThreeLayers in He
      as [(r & Hr & ->) | [(r & Hr & ->) | (r & Hr & ->)]]; try discriminate.
    apply elem_of_layer1Rows in Hr as [Hr Hu]. exists r. auto.
  - intros e He Hl.
    apply elem_of_getMutualsThreeLayers in He
      as [(r & Hr & ->) | [(r & Hr & ->) | (r & Hr & ->)]]; try discriminate.
    apply elem_of_layer2Rows in Hr as (Hr & Hfrom & Hself & _).
    split; [exact Hself |].
    destruct (Hid1 _ Hfrom) as (e1 & He1 & Hl1 & Hm1).
    exists r, e1. auto 7.
  - intros e He Hl.
    apply elem_of_getMutualsThreeLayers in He
      as [(r & Hr & ->) | [(r & Hr & ->) | (r & Hr & ->)]]; try discriminate.
    apply elem_of_layer3Rows in Hr as (Hr & Hfrom & Hself & _).
    split; [exact Hself |].
    destruct (Hid2 _ Hfrom) as (e2 & He2 & Hl2 & Hm2).
    exists r, e2. auto 7.
  - intros e1 e2 He1 He2 Hid.
    apply elem_of_getMutualsThreeLayers in He1
      as [(r1 & Hr1 & ->) | [(r1 & Hr1 & ->) | (r1 & Hr1 & ->)]];
      apply elem_of_getMutualsThreeLayers in He2
        as [(r2 & Hr2 & ->) | [(r2 & Hr2 & ->) | (r2 & Hr2 & ->)]];
      simpl in Hid |- *; try reflexivity; exfalso;
      repeat match goal with
             | H : _ ∈ layer1Rows _ _ |- _ => apply Hin1 in H
             | H : _ ∈ layer2Rows _ _ |- _ =>
                 pose proof (Hin2 _ H); apply elem_of_layer2Rows in H as (_ & _ & _ & ?)
             | H : _ ∈ layer3Rows _ _ |- _ =>
                 apply elem_of_layer3Rows in H as (_ & _ & _ & ? & ?)
             end;
      congruence.
  - intros Hpos e He.
    apply elem_of_getMutualsThreeLayers in He
      as [(r & Hr & ->) | [(r & Hr & ->) | (r & Hr & ->)]].
    + apply elem_of_layer1Rows in Hr as [Hr _]. exists r. simpl.
      split; [exact Hr |]. split; [reflexivity | lra].
    + apply elem_of_layer2Rows in Hr as (Hr & _). exists r. simpl.
      specialize (Hpos r Hr). split; [exact Hr |]. split; [reflexivity | lra].
    + apply elem_of_layer3Rows in Hr as (Hr & _). exists r. simpl.
      specialize (Hpos r Hr). split; [exact Hr |]. split; [reflexivity | lra].
Qed.

(** C7 (amended) on the diamond: both entries for cat are layer-2 entries of
    strength 0.5, and no entry has a strength above 1. *)
Lemma getMutualsThreeLayers_layers_witness :
  Forall (fun e => mutualId e = "cat" -> layer e = L2)
    (getMutualsThreeLayers diamondDB "user") /\
  exists r, r ∈ mutualTable diamondDB /\ m_mutualId r = "cat" /\
            (0.5 : Q) <= m_strength r.
Proof.
  destruct (getMutualsThreeLayers_layers diamondDB "user") as (_ & _ & _ & Hsame & Hle).
  split.
  - rewrite Forall_forall. intros e He Hcat.
    apply (Hsame e {| mutualId := "cat"; layer := L2; strength := 1.0 * 0.5 |} He).
    + vm_compute. right. right. left.
    + exact Hcat.
  - destruct (Hle) with (e := {| mutualId := "cat"; layer := L2; strength := 1.0 * 0.5 |})
      as (r & Hr & Hm & Hs).
    + intros r Hr. vm_compute in Hr.
      repeat (apply elem_of_cons in Hr as [-> | Hr]; [simpl; lra |]).
      apply elem_of_nil in Hr. contradiction.
    + vm_compute. right. right. left.
    + exists r. split; [exact Hr |]. split; [exact Hm |]. simpl in Hs. lra.
Defined.

End Mutuals.


(** ** Exact values in binary64 *)

Module Binary64Facts.

#[local] Set Warnings "-inexact-float".

(** In binary64 too the two blend weights sum to exactly 1 for every new
    total. *)
Lemma blendWeights_binary64_sum (n : Z) :
  PrimFloat.eqb ((Binary64.blendWeights64 n).1 + (Binary64.blendWeights64 n).2) 1 = true.
Proof.
  destruct (Z.lt_ge_cases n 10) as [Hlo | Hlo].
  - unfold Binary64.blendWeights64, Behavior.TRUST_IMPLICIT, Behavior.EQUAL_WEIGHT,
      Behavior.START_BLENDING.
    rewrite !Z.geb_leb.
    destruct (Z.leb_spec 100 n); [lia |]. destruct (Z.leb_spec 50 n); [lia |].
    destruct (Z.leb_spec 10 n); [lia |]. vm_compute. reflexivity.
  - destruct (Z.lt_ge_cases n 50) as [Hhi | Hhi].
    + assert (Binary64.sumsToOne 10 40 = true) as Htable by (vm_compute; reflexivity).
      unfold Binary64.sumsToOne in Htable. rewrite forallb_forall in Htable.
      specialize (Htable (Z.to_nat (n - 10))).
      replace (10 + Z.of_nat (Z.to_nat (n - 10)))%Z with n in Htable by lia.
      apply Htable. apply in_seq. lia.
    + unfold Binary64.blendWeights64, Behavior.TRUST_IMPLICIT, Behavior.EQUAL_WEIGHT,
        Behavior.START_BLENDING.
      rewrite !Z.geb_leb.
      destruct (Z.leb_spec 100 n); [vm_compute; reflexivity |].
      destruct (Z.leb_spec 50 n); [| lia]. vm_compute. reflexivity.
Qed.

(** At 30 interactions the binary64 weights are the doubles 0.65 and 0.35. *)
Lemma blendWeights_binary64_30 :
  PrimFloat.eqb (Binary64.blendWeights64 30).1 0.65 = true /\
  PrimFloat.eqb (Binary64.blendWeights64 30).2 0.35 = true.
Proof. split; vm_compute; reflexivity. Qed.

(** The scenario's sub-scores (relevance 10, social boost 0, price affinity 1,
    engagement 0) combine to the double 7.5. *)
Lemma combine_binary64_scenario :
  PrimFloat.eqb (Binary64.combine64 10 0 1 0) 7.5 = true.
Proof. vm_compute. reflexivity. Qed.

End Binary64Facts.


(** ** Price affinity *)

Module PriceAffinity.
Import Recommendation.

Lemma Qdiv_lower (a b c : Q) : 0 < c -> (a <= b / c <-> a * c <= b).
Proof.
  intros Hc. split; intros H.
  - assert (b == b / c * c) as -> by (field; lra).
    apply Qmult_le_r; assumption.
  - apply Qle_shift_div_l; assumption.
Qed.

Lemma Qdiv_upper (a b c : Q) : 0 < c -> (b / c <= a <-> b <= a * c).
Proof.
  intros Hc. split; intros H.
  - assert (b == b / c * c) as -> by (field; lra).
    apply Qmult_le_r; assumption.
  - apply Qle_shift_div_r; assumption.
Qed.

Lemma Qdiv_mono (a b c : Q) : 0 < c -> a <= b -> a / c <= b / c.
Proof.
  intros Hc Hab. apply Qdiv_upper; [exact Hc |].
  assert (b / c * c == b) as -> by (field; lra). exact Hab.
Qed.

(** The three branches of the history score, by the ratio price / average. *)
Lemma computePriceHistoryScore_cases (p avg : Q) :
  0 < avg ->
  (0.5 <= p / avg <= 2 /\ computePriceHistoryScore p avg == 1) \/
  (p / avg < 0.5 /\ computePriceHistoryScore p avg == Qmax 0.1 (p / avg * 2)) \/
  (2 < p / avg /\ computePriceHistoryScore p avg == Qmax 0.2 (2 / (p / avg))).
Proof.
  intros Havg. unfold computePriceHistoryScore.
  destruct (Qleb avg 0) eqn:H0; [apply Qleb_le in H0; lra |]. clear H0.
  cbv zeta.
  destruct (Qgeb (p / avg) 0.5) eqn:Hlo.
  - apply Qgeb_ge in Hlo.
    destruct (Qleb (p / avg) 2.0) eqn:Hhi; simpl.
    + apply Qleb_le in Hhi. left. split; [lra | reflexivity].
    + assert (2 < p / avg) as Hgt.
      { apply Qnot_le_lt. intros H. apply Qleb_le in H.
        unfold Qleb in *. assert (Qle_bool (p / avg) 2.0 = true) as H'
          by (apply Qle_bool_iff; apply Qle_bool_iff in H; lra).
        congruence. }
      destruct (Qltb (p / avg) 0.5) eqn:Hlt; [apply Qltb_lt in Hlt; lra |].
      right. right. split; [exact Hgt |].
      assert (2.0 / (p / avg) == 2 / (p / avg)) as ->
        by (unfold Qdiv; apply Qmult_comp; reflexivity).
      reflexivity.
  - apply Qgeb_lt in Hlo. simpl.
    destruct (Qltb (p / avg) 0.5) eqn:Hlt; [| apply Qltb_ge in Hlt; lra].
    right. left. split; [lra | reflexivity].
Qed.

Lemma two_over_bounds (r : Q) : 2 < r -> 0 < 2 / r /\ 2 / r < 1.
Proof.
  intros Hr. split.
  - apply Qlt_shift_div_l; lra.
  - apply Qlt_shift_div_r; lra.
Qed.

Lemma two_over_antitone (r r' : Q) : 2 < r -> r <= r' -> 2 / r' <= 2 / r.
Proof.
  intros Hr Hrr. apply Qdiv_lower; [lra |].
  assert (2 / r' * r == 2 * r / r') as -> by (field; lra).
  apply Qdiv_upper; lra.
Qed.

Lemma Qmax_mono (a x y : Q) : x <= y -> Qmax a x <= Qmax a y.
Proof.
  intros Hxy.
  destruct (Qmax_cases a x) as [[? ->] | [? ->]];
    destruct (Qmax_cases a y) as [[? ->] | [? ->]]; lra.
Qed.

Lemma Qmax_bounds (a x hi : Q) : a <= hi -> x <= hi -> a <= Qmax a x <= hi.
Proof.
  intros Ha Hx. destruct (Qmax_cases a x) as [[? ->] | [? ->]]; lra.
Qed.

Lemma computePriceHistoryScore_one (p avg : Q) :
  0 < avg -> 0.5 * avg <= p <= 2 * avg -> computePriceHistoryScore p avg == 1.
Proof.
  intros Havg [H1 H2].
  assert (0.5 <= p / avg) as Hlow by (apply Qdiv_lower; lra).
  assert (p / avg <= 2) as Hhigh by (apply Qdiv_upper; lra).
  destruct (computePriceHistoryScore_cases p avg Havg)
    as [[_ ->] | [[Hr _] | [Hr _]]]; lra.
Qed.

(** X1: for a user with a viewing history the history score lies in [0.1, 1];
    it is 1 when the price is between half and twice the average; it does not
    decrease with the price up to twice the average and does not increase
    with the price from half the average on. *)
Theorem computePriceHistoryScore_shape (p p' avg : Q) :
  0 < avg ->
  0.1 <= computePriceHistoryScore p avg <= 1 /\
  (0.5 * avg <= p <= 2 * avg -> computePriceHistoryScore p avg == 1) /\
  (p <= p' -> p' <= 2 * avg ->
   computePriceHistoryScore p avg <= computePriceHistoryScore p' avg) /\
  (0.5 * avg <= p -> p <= p' ->
   computePriceHistoryScore p' avg <= computePriceHistoryScore p avg).
Proof.
  intros Havg.
  assert (forall q, 0.1 <= computePriceHistoryScore q avg <= 1) as Hrange.
  { intros q.
    destruct (computePriceHistoryScore_cases q avg Havg)
      as [[_ ->] | [[Hr ->] | [Hr ->]]].
    - lra.
    - apply Qmax_bounds; lra.
    - destruct (two_over_bounds _ Hr).
      destruct (Qmax_cases 0.2 (2 / (q / avg))) as [[? ->] | [? ->]]; lra. }
  assert (forall q, 0.5 * avg <= q -> 0.5 <= q / avg) as Hlow
    by (intros q Hq; apply Qdiv_lower; lra).
  assert (forall q, q <= 2 * avg -> q / avg <= 2) as Hhigh
    by (intros q Hq; apply Qdiv_upper; lra).
  split; [apply Hrange |]. split; [| split].
  - intros [H1 H2]. specialize (Hlow p H1). specialize (Hhigh p H2).
    destruct (computePriceHistoryScore_cases p avg Havg)
      as [[_ ->] | [[Hr _] | [Hr _]]]; lra.
  - intros Hpp Hp'. specialize (Hhigh p' Hp').
    pose proof (Qdiv_mono p p' avg Havg Hpp) as Hr.
    destruct (computePriceHistoryScore_cases p' avg Havg)
      as [[_ ->] | [[Hr' ->] | [Hr' _]]]; [apply Hrange | | lra].
    destruct (computePriceHistoryScore_cases p avg Havg)
      as [[Hr1 _] | [[Hr1 ->] | [Hr1 _]]]; [lra | | lra].
    apply Qmax_mono. lra.
  - intros Hp Hpp. specialize (Hlow p Hp).
    pose proof (Qdiv_mono p p' avg Havg Hpp) as Hr.
    destruct (computePriceHistoryScore_cases p avg Havg)
      as [[_ ->] | [[Hr1 _] | [Hr1 ->]]]; [apply Hrange | lra |].
    destruct (computePriceHistoryScore_cases p' avg Havg)
      as [[Hr' _] | [[Hr' _] | [Hr' ->]]]; [lra | lra |].
    apply Qmax_mono. apply two_over_antitone; assumption.
Qed.

(** X1 at an average of 500: the price 100 scores less than 600, which scores
    at least as much as 5000. *)
Lemma computePriceHistoryScore_shape_witness :
  computePriceHistoryScore 100 500 <= computePriceHistoryScore 600 500 /\
  computePriceHistoryScore 5000 500 <= computePriceHistoryScore 600 500.
Proof.
  split.
  - destruct (computePriceHistoryScore_shape 100 600 500) as (_ & _ & H & _);
      [reflexivity |]. apply H; [discriminate | discriminate].
  - destruct (computePriceHistoryScore_shape 600 5000 500) as (_ & _ & _ & H);
      [reflexivity |]. apply H; discriminate.
Defined.


Lemma clamp_mono (x y : Q) : x <= y -> Qmax 0 (Qmin 1 x) <= Qmax 0 (Qmin 1 y).
Proof.
  intros Hxy. apply Qmax_mono.
  destruct (Qmin_cases 1 x) as [[? ->] | [? ->]];
    destruct (Qmin_cases 1 y) as [[? ->] | [? ->]]; lra.
Qed.

Lemma clamp_one (x : Q) : 1 <= x -> Qmax 0 (Qmin 1 x) == 1.
Proof.
  intros Hx. rewrite Q.min_l by exact Hx. apply Q.max_r. lra.
Qed.

(** X2: at equal price a bounty of the user's own tier never has a lower
    price affinity than a bounty of a lower tier. Without viewing history
    the own tier scores 0.8 and any other tier 0.5; with a history, an
    own-tier bounty priced between half and twice the average scores 1. *)
Theorem computePriceAffinityTierAware_own_tier (p avg : Q) (t u : Tier) :
  (tierOrder t <= tierOrder u)%Z ->
  computePriceAffinityTierAware p t avg u <= computePriceAffinityTierAware p u avg u /\
  (avg <= 0 ->
   computePriceAffinityTierAware p u avg u == 0.8 /\
   (t <> u -> computePriceAffinityTierAware p t avg u == 0.5)) /\
  (0 < avg -> 0.5 * avg <= p <= 2 * avg ->
   computePriceAffinityTierAware p u avg u == 1).
Proof.
  intros Htier. unfold computePriceAffinityTierAware.
  destruct (Qleb avg 0) eqn:H0.
  - apply Qleb_le in H0.
    destruct (decide (u = u)) as [_ | Hn]; [| congruence].
    split; [| split].
    + destruct (decide (t = u)); lra.
    + intros _. split; [reflexivity |].
      intros Hne. destruct (decide (t = u)); [contradiction | reflexivity].
    + intros Hpos. lra.
  - assert (0 < avg) as Havg.
    { apply Qnot_le_lt. intros H. apply Qleb_le in H. congruence. }
    cbv zeta. rewrite Z.sub_diag. simpl (0 =? 0)%Z. cbv iota.
    split; [| split].
    + apply clamp_mono.
      destruct t, u; simpl in Htier |- *; try lia; lra.
    + intros H. lra.
    + intros _ Hp.
      apply clamp_one. rewrite (computePriceHistoryScore_one p avg Havg Hp). lra.
Qed.

(** X2 for a middle-tier user with an average of 500 and a bounty priced
    600: the middle-tier bounty scores 1, a basic-tier one no more. *)
Lemma computePriceAffinityTierAware_own_tier_witness :
  computePriceAffinityTierAware 600 basic 500 middle
    <= computePriceAffinityTierAware 600 middle 500 middle /\
  computePriceAffinityTierAware 600 middle 500 middle == 1.
Proof.
  destruct (computePriceAffinityTierAware_own_tier 600 500 basic middle)
    as (Hle & _ & Hone).
  - simpl. lia.
  - split; [exact Hle |]. apply Hone; [reflexivity |]. split; discriminate.
Defined.

End PriceAffinity.


(** ** More on the tag match *)

Module RelevanceMore.
Import Recommendation Spec TagMatch.

Lemma sumProducts_mono (U U' : list UserTagScore) (B : list BountyTag) :
  Forall (fun bt => 0 <= weight bt) B ->
  (forall k, userScoreOf U k <= userScoreOf U' k) ->
  sumProducts U B <= sumProducts U' B.
Proof.
  intros HB HU. induction HB as [| bt B Hbt _ IH]; simpl; [lra |].
  assert (userScoreOf U (bt_tagId bt) * weight bt
          <= userScoreOf U' (bt_tagId bt) * weight bt)
    by (apply Qmult_le_compat_r; [apply HU | exact Hbt]).
  lra.
Qed.

(** X3: with non-negative tag weights, raising the user's scores (for one tag
    or for several) never lowers the relevance of a bounty. *)
Theorem computeRelevanceScore_monotone (U U' : list UserTagScore) (B : list BountyTag) :
  Forall (fun bt => 0 <= weight bt) B ->
  (forall k, userScoreOf U k <= userScoreOf U' k) ->
  computeRelevanceScore U B <= computeRelevanceScore U' B.
Proof.
  intros HB HU.
  destruct (Relevance.computeRelevanceScore_sums U B) as [Hpos Hzero].
  destruct (Relevance.computeRelevanceScore_sums U' B) as [Hpos' Hzero'].
  destruct (Qlt_le_dec 0 (sumWeights B)) as [Hgt | Hle].
  - rewrite (Hpos Hgt), (Hpos' Hgt).
    pose proof (sumProducts_mono U U' B HB HU) as Hsum.
    pose proof (PriceAffinity.Qdiv_mono _ _ _ Hgt Hsum) as Hdiv.
    apply Qmult_le_compat_r; [exact Hdiv | discriminate].
  - rewrite (Hzero Hle), (Hzero' Hle). lra.
Qed.

(** X3 for typescript raised from 3 to 5 on a bounty tagged typescript. *)
Lemma computeRelevanceScore_monotone_witness :
  computeRelevanceScore
    [{| ut_tagId := 1; ut_tagName := "typescript"; ut_score := 3 |}]
    [{| bt_tagId := 1; weight := 1.0 |}]
  <= computeRelevanceScore
       [{| ut_tagId := 1; ut_tagName := "typescript"; ut_score := 5 |}]
       [{| bt_tagId := 1; weight := 1.0 |}].
Proof.
  apply computeRelevanceScore_monotone.
  - repeat constructor. simpl. lra.
  - intros k. unfold userScoreOf. cbn [lastScore ut_tagId ut_score].
    destruct (1 =? k)%Z; discriminate.
Defined.




Lemma detailMap_lookup_gen (U : list UserTagScore) (m : gmap Z (Q * string)) (k : Z) :
  fst <$> (fold_left (fun m kv => <[kv.1 := kv.2]> m)
             (map (fun t => (ut_tagId t, (ut_score t, ut_tagName t))) U) m !! k) =
  match lastScore U k with
  | Some v => Some v
  | None => fst <$> (m !! k)
  end.
Proof.
  revert m. induction U as [| t U IH]; intros m; simpl; [reflexivity |].
  rewrite IH. destruct (lastScore U k) as [v |]; [reflexivity |].
  destruct (Z.eqb_spec (ut_tagId t) k) as [-> | Hne].
  - rewrite lookup_insert_eq. reflexivity.
  - rewrite lookup_insert_ne by exact Hne. reflexivity.
Qed.

Lemma detail_userScore (U : list UserTagScore) (k : Z) :
  orZero (fst <$> (mapOfEntries
                     (map (fun t => (ut_tagId t, (ut_score t, ut_tagName t))) U) !! k))
  = userScoreOf U k.
Proof.
  unfold mapOfEntries, userScoreOf. rewrite detailMap_lookup_gen.
  destruct (lastScore U k); [reflexivity |]. rewrite lookup_empty. reflexivity.
Qed.

Lemma details_totals (U : list UserTagScore) (B : list NamedBountyTag) :
  totalContribution (getTagMatchDetails U B) = sumProducts U (map withoutName B) /\
  totalWeight (getTagMatchDetails U B) = sumWeights (map withoutName B).
Proof.
  unfold getTagMatchDetails. cbv zeta.
  induction B as [| bt B [IH1 IH2]]; simpl; [split; reflexivity |].
  rewrite IH1, IH2, detail_userScore. split; reflexivity.
Qed.

(** X5: the breakdown of [getTagMatchDetails] has one line per bounty tag, in
    order; each line shows the score that [computeRelevanceScore] uses for
    the tag and its product with the weight; and the relevance of the bounty
    is twice the total contribution divided by the total weight. *)
Theorem getTagMatchDetails_relevance (U : list UserTagScore) (B : list NamedBountyTag) :
  map tmd_tagId (getTagMatchDetails U B) = map nbt_tagId B /\
  Forall (fun d => userScore d = userScoreOf U (tmd_tagId d) /\
                   contribution d = userScore d * bountyWeight d)
    (getTagMatchDetails U B) /\
  (0 < totalWeight (getTagMatchDetails U B) ->
   computeRelevanceScore U (map withoutName B)
   == totalContribution (getTagMatchDetails U B)
      / totalWeight (getTagMatchDetails U B) * 2).
Proof.
  split; [| split].
  - unfold getTagMatchDetails. cbv zeta. rewrite map_map. reflexivity.
  - unfold getTagMatchDetails. cbv zeta. rewrite Forall_fmap.
    apply Forall_forall. intros bt _. simpl.
    rewrite detail_userScore. split; reflexivity.
  - destruct (details_totals U B) as [-> ->]. intros Hw.
    apply (Relevance.computeRelevanceScore_sums U (map withoutName B)), Hw.
Qed.

End RelevanceMore.


(** ** More on ranking: the best pick, the feed and the debug counters *)

Module RankingMore.
Import Recommendation Spec.

(** The first element of the sorted list is the first of the best elements of
    the original list. *)
Lemma sortByFinalScore_head (l : list ScoredBounty) (p : ScoredBounty)
    (rest : list ScoredBounty) :
  sortByFinalScore l = p :: rest ->
  exists before after,
    l = before ++ p :: after /\
    Forall (fun sb => finalScore sb < finalScore p) before /\
    Forall (fun sb => finalScore sb <= finalScore p) after.
Proof.
  revert p rest. induction l as [| x l IH]; intros p rest Hs; [discriminate |].
  change (sortByFinalScore (x :: l)) with (insertDesc x (sortByFinalScore l)) in Hs.
  destruct (sortByFinalScore l) as [| q rest'] eqn:Hl.
  - apply (proj1 (Ranking.sortByFinalScore_nil _)) in Hl. subst l.
    simpl in Hs. injection Hs as <- <-.
    exists [], []. repeat split; constructor.
  - destruct (IH q rest' eq_refl) as (before & after & Heq & Hb & Ha).
    simpl in Hs. destruct (Qltb (finalScore x) (finalScore q)) eqn:Hlt.
    + apply Qltb_lt in Hlt. injection Hs as <- <-.
      exists (x :: before), after. subst l. repeat split; [| exact Ha].
      constructor; assumption.
    + apply Qltb_ge in Hlt. injection Hs as <- <-.
      exists [], l. repeat split; [constructor |].
      subst l. apply Forall_app. split.
      * eapply Forall_impl; [exact Hb |]. simpl. intros sb Hsb. lra.
      * constructor; [exact Hlt |].
        eapply Forall_impl; [exact Ha |]. simpl. intros sb Hsb. lra.
Qed.

Lemma default_head_in {A : Type} (p : A) (rest : list A) :
  default p (head rest) ∈ p :: rest.
Proof. destruct rest; simpl; [left | right; left]. Qed.

Lemma picks_from_sorted (candidates : list ScoredBounty) (p : ScoredBounty)
    (rest : list ScoredBounty) :
  sortByFinalScore candidates = p :: rest ->
  (exists before after,
     candidates = before ++ p :: after /\
     Forall (fun sb => finalScore sb < finalScore p) before /\
     Forall (fun sb => finalScore sb <= finalScore p) after) /\
  default p (head rest) ∈ candidates /\
  finalScore (default p (head rest)) <= finalScore p.
Proof.
  intros Hs.
  pose proof (sortByFinalScore_head _ _ _ Hs) as Hhead.
  split; [exact Hhead |].
  assert (default p (head rest) ∈ sortByFinalScore candidates) as Hin
    by (rewrite Hs; apply default_head_in).
  apply (proj1 (Ranking.elem_of_sortByFinalScore _ _)) in Hin.
  split; [exact Hin |].
  destruct Hhead as (before & after & Heq & Hb & Ha).
  rewrite Heq in Hin. apply elem_of_app in Hin as [Hin | Hin].
  - rewrite Forall_forall in Hb. specialize (Hb _ Hin). lra.
  - apply elem_of_cons in Hin as [-> | Hin]; [lra |].
    rewrite Forall_forall in Ha. apply Ha, Hin.
Qed.

(** X6: the primary pick has the highest final score of the candidates (the
    bounties that pass the relevance filter or, when none does, all
    accessible bounties), and among candidates of equal final score the one
    that comes first in the input wins; the secondary pick is a candidate too
    and never scores higher than the primary. *)
Theorem primary_is_first_best (input : RecommendationInput)
    (allBounties : list BountyData) (bountyTagMap : gmap Z (list BountyTag))
    (mutualInteractions : gmap string (list Z)) (out : RecommendationOutput) :
  getRecommendations input allBounties bountyTagMap mutualInteractions = Ok out ->
  let allScored :=
    map (scoreBounty input bountyTagMap mutualInteractions)
      (filterByAccessTier allBounties (accessTier (userProfile input))) in
  let candidates :=
    match List.filter passesRelevance allScored with
    | [] => allScored
    | _ => List.filter passesRelevance allScored
    end in
  (exists before after,
     candidates = before ++ primary out :: after /\
     Forall (fun sb => finalScore sb < finalScore (primary out)) before /\
     Forall (fun sb => finalScore sb <= finalScore (primary out)) after) /\
  secondary out ∈ candidates /\
  finalScore (secondary out) <= finalScore (primary out).
Proof.
  intros Hout allScored candidates.
  rewrite Ranking.getRecommendations_cases in Hout. cbv zeta in Hout.
  fold allScored in Hout. subst candidates.
  destruct (List.filter passesRelevance allScored) as [| c cs] eqn:Hfilt.
  - simpl in Hout.
    destruct (sortByFinalScore allScored) as [| f rest] eqn:Hs; [discriminate |].
    injection Hout as <-. simpl. apply picks_from_sorted, Hs.
  - destruct (sortByFinalScore (c :: cs)) as [| p rest] eqn:Hs.
    + apply (proj1 (Ranking.sortByFinalScore_nil _)) in Hs. discriminate.
    + injection Hout as <-. simpl. apply picks_from_sorted, Hs.
Qed.

(** X6 in the end-to-end scenario extended with the rust-only bounty. *)
Lemma primary_is_first_best_witness :
  exists out,
    getRecommendations scenarioInput [stretchBounty; scenarioBounty] stretchTagMap ∅
      = Ok out /\
    finalScore (secondary out) <= finalScore (primary out).
Proof.
  destruct (getRecommendations scenarioInput [stretchBounty; scenarioBounty]
              stretchTagMap ∅) as [out | msg] eqn:Hout;
    [| vm_compute in Hout; discriminate].
  exists out. split; [reflexivity |].
  apply (primary_is_first_best scenarioInput [stretchBounty; scenarioBounty]
           stretchTagMap ∅ out Hout).
Defined.


Lemma filter_sublist {A : Type} (f : A -> bool) (l : list A) :
  List.filter f l `sublist_of` l.
Proof.
  induction l as [| x l IH]; simpl; [constructor |].
  destruct (f x); constructor; exact IH.
Qed.

Lemma bounty_scoreBounty input bountyTagMap mutualInteractions (l : list BountyData) :
  map bounty (map (scoreBounty input bountyTagMap mutualInteractions) l) = l.
Proof. rewrite map_map. apply map_id. Qed.

(** The bounties of the feed, in order, are picked from the input list. *)
Lemma scoreAllBounties_bounties input allBounties bountyTagMap mutualInteractions flag :
  map bounty (scoreAllBounties input allBounties bountyTagMap mutualInteractions flag)
    `sublist_of` allBounties.
Proof.
  unfold scoreAllBounties. cbv zeta.
  transitivity (filterByAccessTier allBounties (accessTier (userProfile input)));
    [| apply filter_sublist].
  destruct flag.
  - rewrite <- (bounty_scoreBounty input bountyTagMap mutualInteractions
                  (filterByAccessTier allBounties (accessTier (userProfile input)))) at 2.
    apply (fmap_sublist bounty), filter_sublist.
  - rewrite bounty_scoreBounty. reflexivity.
Qed.

Lemma scoreAllBounties_NoDup input allBounties bountyTagMap mutualInteractions flag :
  NoDup (map id allBounties) ->
  NoDup (map (fun sb => id (bounty sb))
           (scoreAllBounties input allBounties bountyTagMap mutualInteractions flag)).
Proof.
  intros Hnd. rewrite <- (map_map bounty id).
  apply (sublist_NoDup _ (map id allBounties)); [exact Hnd |].
  apply (fmap_sublist id), scoreAllBounties_bounties.
Qed.

(** X8: the feed of [scoreAllBounties] lists bounties of the input in input
    order, each at most as often as the input does (so never twice when ids
    are unique); every listed bounty is within the user's tier and carries
    the score of [scoreBounty]; with the relevance filter on every listed
    bounty has relevance at least 3.0, and the filtered feed is a sublist of
    the unfiltered one. *)
Theorem scoreAllBounties_feed (input : RecommendationInput)
    (allBounties : list BountyData) (bountyTagMap : gmap Z (list BountyTag))
    (mutualInteractions : gmap string (list Z)) (applyRelevanceFilter : bool) :
  let feed :=
    scoreAllBounties input allBounties bountyTagMap mutualInteractions
      applyRelevanceFilter in
  map bounty feed `sublist_of` allBounties /\
  (NoDup (map id allBounties) -> NoDup (map (fun sb => id (bounty sb)) feed)) /\
  (forall sb, sb ∈ feed ->
     bounty sb ∈ allBounties /\
     (tierOrder (tier (bounty sb)) <= tierOrder (accessTier (userProfile input)))%Z /\
     sb = scoreBounty input bountyTagMap mutualInteractions (bounty sb) /\
     (applyRelevanceFilter = true -> 3.0 <= relevanceScore sb)) /\
  scoreAllBounties input allBounties bountyTagMap mutualInteractions true
    `sublist_of`
    scoreAllBounties input allBounties bountyTagMap mutualInteractions false.
Proof.
  intros feed. subst feed.
  pose proof (scoreAllBounties_bounties input allBounties bountyTagMap
                mutualInteractions applyRelevanceFilter) as Hsub.
  split; [exact Hsub |]. split; [| split].
  - apply scoreAllBounties_NoDup.
  - intros sb Hsb.
    assert (sb ∈ map (scoreBounty input bountyTagMap mutualInteractions)
                  (filterByAccessTier allBounties (accessTier (userProfile input)))
            /\ (applyRelevanceFilter = true -> 3.0 <= relevanceScore sb)) as [Hin Hrel].
    { unfold scoreAllBounties in Hsb. cbv zeta in Hsb. destruct applyRelevanceFilter.
      - apply list_elem_of_In, filter_In in Hsb as [Hin Hp].
        split; [apply list_elem_of_In, Hin |]. intros _.
        apply Qgeb_ge in Hp. exact Hp.
      - split; [exact Hsb | discriminate]. }
    apply list_elem_of_fmap in Hin as (b & -> & Hb).
    apply TierFilter.elem_of_filterByAccessTier in Hb as [Hb Ht].
    simpl. auto.
  - unfold scoreAllBounties. cbv zeta. apply filter_sublist.
Qed.

Lemma sorted_pair_distinct (l : list ScoredBounty) (p q : ScoredBounty)
    (rest : list ScoredBounty) :
  NoDup (map (fun sb => id (bounty sb)) l) ->
  sortByFinalScore l = p :: q :: rest ->
  id (bounty p) <> id (bounty q).
Proof.
  intros Hnd Hs.
  assert (NoDup (map (fun sb => id (bounty sb)) (p :: q :: rest))) as Hnd'.
  { rewrite <- Hs.
    apply (NoDup_Permutation_proper _ _
             (fmap_Permutation (fun sb => id (bounty sb)) _ _
                (Ranking.sortByFinalScore_perm l))).
    exact Hnd. }
  simpl in Hnd'. apply NoDup_cons in Hnd' as [Hp _].
  intros Heq. apply Hp. rewrite Heq. left.
Qed.

(** X9: when the relevance-filtered feed is not empty, [getRecommendations]
    succeeds and picks both bounties from that feed: the primary is a feed
    entry of highest final score, the debug counter [filteredByRelevance] is
    the length of the feed, and when the feed has two entries or more and
    bounty ids are unique, primary and secondary are different bounties. *)
Theorem getRecommendations_from_feed (input : RecommendationInput)
    (allBounties : list BountyData) (bountyTagMap : gmap Z (list BountyTag))
    (mutualInteractions : gmap string (list Z)) :
  let feed := scoreAllBounties input allBounties bountyTagMap mutualInteractions true in
  feed <> [] ->
  exists out,
    getRecommendations input allBounties bountyTagMap mutualInteractions = Ok out /\
    primary out ∈ feed /\ secondary out ∈ feed /\
    (forall sb, sb ∈ feed -> finalScore sb <= finalScore (primary out)) /\
    filteredByRelevance (debug out) = length feed /\
    ((2 <= length feed)%nat -> NoDup (map id allBounties) ->
     id (bounty (secondary out)) <> id (bounty (primary out))).
Proof.
  intros feed Hne.
  pose proof (scoreAllBounties_NoDup input allBounties bountyTagMap mutualInteractions true)
    as Hnd. fold feed in Hnd.
  rewrite Ranking.getRecommendations_cases. cbv zeta.
  unfold scoreAllBounties in feed. cbv zeta in feed. fold feed.
  destruct (sortByFinalScore feed) as [| p rest] eqn:Hs.
  { apply (proj1 (Ranking.sortByFinalScore_nil _)) in Hs. contradiction. }
  eexists. split; [reflexivity |]. simpl.
  destruct (picks_from_sorted feed p rest Hs) as ((before & after & Heq & Hb & Ha) & Hsec & _).
  split; [rewrite Heq; apply elem_of_app; right; left |].
  split; [exact Hsec |]. split; [| split].
  - intros sb Hsb. rewrite Heq in Hsb. apply elem_of_app in Hsb as [Hsb | Hsb].
    + rewrite Forall_forall in Hb. specialize (Hb _ Hsb). lra.
    + apply elem_of_cons in Hsb as [-> | Hsb]; [lra |].
      rewrite Forall_forall in Ha. apply Ha, Hsb.
  - rewrite <- (Ranking.sortByFinalScore_length feed), Hs. reflexivity.
  - intros Hlen Hids.
    destruct rest as [| q rest].
    + rewrite <- (Ranking.sortByFinalScore_length feed), Hs in Hlen. simpl in Hlen. lia.
    + simpl. intros Heq'. symmetry in Heq'. revert Heq'.
      eapply sorted_pair_distinct; [apply Hnd, Hids | exact Hs].
Qed.

(** X9 for the scenario user and two typescript bounties. *)
Lemma getRecommendations_from_feed_witness :
  exists out,
    getRecommendations scenarioInput [scenarioBounty; mkBounty 3 700 middle 0]
      {[ 1%Z := [{| bt_tagId := 1; weight := 1.0 |}];
         3%Z := [{| bt_tagId := 1; weight := 0.5 |}] ]} ∅ = Ok out /\
    id (bounty (secondary out)) <> id (bounty (primary out)).
Proof.
  destruct (getRecommendations_from_feed scenarioInput
              [scenarioBounty; mkBounty 3 700 middle 0]
              {[ 1%Z := [{| bt_tagId := 1; weight := 1.0 |}];
                 3%Z := [{| bt_tagId := 1; weight := 0.5 |}] ]} ∅)
    as (out & Hout & _ & _ & _ & _ & Hdiff).
  - vm_compute. discriminate.
  - exists out. split; [exact Hout |]. apply Hdiff.
    + vm_compute. lia.
    + apply (bool_decide_unpack _). vm_compute. exact I.
Defined.

(** X7: the debug record of a successful request: [totalCandidates] counts
    the input, [filteredByTier] the accessible bounties, and
    filteredByRelevance <= filteredByTier <= totalCandidates;
    [topRelevanceScores] has at most five entries and starts with the
    relevance of the primary pick. *)
Theorem getRecommendations_debug (input : RecommendationInput)
    (allBounties : list BountyData) (bountyTagMap : gmap Z (list BountyTag))
    (mutualInteractions : gmap string (list Z)) (out : RecommendationOutput) :
  getRecommendations input allBounties bountyTagMap mutualInteractions = Ok out ->
  totalCandidates (debug out) = length allBounties /\
  filteredByTier (debug out)
    = length (filterByAccessTier allBounties (accessTier (userProfile input))) /\
  (filteredByRelevance (debug out) <= filteredByTier (debug out)
   <= totalCandidates (debug out))%nat /\
  (0 < filteredByTier (debug out))%nat /\
  (length (topRelevanceScores (debug out)) <= 5)%nat /\
  head (topRelevanceScores (debug out)) = Some (relevanceScore (primary out)).
Proof.
  intros Hout.
  rewrite Ranking.getRecommendations_cases in Hout. cbv zeta in Hout.
  set (accessible := filterByAccessTier allBounties (accessTier (userProfile input))) in *.
  set (allScored := map _ accessible) in *.
  assert (length accessible <= length allBounties)%nat as Hacc
    by (apply sublist_length, filter_sublist).
  assert (length allScored = length accessible) as Hall by apply length_map.
  assert (length (sortByFinalScore (List.filter passesRelevance allScored))
          <= length accessible)%nat as Hrel.
  { rewrite Ranking.sortByFinalScore_length, <- Hall.
    apply sublist_length, filter_sublist. }
  assert (forall l : list ScoredBounty,
            (length (map relevanceScore (take 5 l)) <= 5)%nat) as Htop.
  { intros l. rewrite length_map, length_take. lia. }
  destruct (sortByFinalScore (List.filter passesRelevance allScored))
    as [| p rest] eqn:Hf.
  - destruct (sortByFinalScore allScored) as [| f rest] eqn:Hs; [discriminate |].
    injection Hout as <-. simpl.
    assert (0 < length accessible)%nat
      by (rewrite <- Hall, <- (Ranking.sortByFinalScore_length allScored), Hs; simpl; lia).
    repeat split; try lia. apply (Htop (f :: rest)).
  - injection Hout as <-. simpl in *.
    repeat split; try lia. apply (Htop (p :: rest)).
Qed.

(** X7 in the end-to-end scenario. *)
Lemma getRecommendations_debug_witness :
  exists out,
    getRecommendations scenarioInput [scenarioBounty] scenarioTagMap ∅ = Ok out /\
    totalCandidates (debug out) = 1%nat.
Proof.
  destruct (getRecommendations scenarioInput [scenarioBounty] scenarioTagMap ∅)
    as [out | msg] eqn:Hout; [| vm_compute in Hout; discriminate].
  exists out. split; [reflexivity |].
  apply (getRecommendations_debug scenarioInput [scenarioBounty] scenarioTagMap ∅ out Hout).
Defined.

End RankingMore.


(** ** Bounds of the behavior scores *)

Module BehaviorBounds.
Import Schema Behavior BehaviorSpec BehaviorSpec2.

Lemma Forall_updateWhere {A : Type} (P : A -> Prop) (p : A -> bool) (f : A -> A)
    (rows : list A) :
  Forall P rows -> (forall r, P r -> p r = true -> P (f r)) ->
  Forall P (updateWhere p f rows).
Proof.
  intros Hrows Hf. unfold updateWhere. rewrite Forall_fmap.
  eapply Forall_impl; [exact Hrows |]. simpl. intros r Hr.
  destruct (p r) eqn:Hp; [apply Hf; assumption | exact Hr].
Qed.

Lemma BEHAVIOR_WEIGHTS_range (t : InteractionType) :
  0 < BEHAVIOR_WEIGHTS t /\ BEHAVIOR_WEIGHTS t <= 0.4.
Proof. destruct t; split; reflexivity || discriminate. Qed.

Lemma newScore_range (c : Z) (t : InteractionType) :
  (0 <= c)%Z -> 0 <= Qmin 10 (inject_Z c * BEHAVIOR_WEIGHTS t * 2) <= 10.
Proof.
  intros Hc. destruct (BEHAVIOR_WEIGHTS_range t) as [Hw _].
  assert (0 <= inject_Z c) as Hq
    by (change 0 with (inject_Z 0); rewrite <- Zle_Qle; exact Hc).
  assert (0 <= inject_Z c * BEHAVIOR_WEIGHTS t)
    by (apply Qmult_le_0_compat; lra).
  destruct (Qmin_cases 10 (inject_Z c * BEHAVIOR_WEIGHTS t * 2)) as [[? ->] | [? ->]]; lra.
Qed.

Lemma computeImplicitTagScore_range (r : UserBehaviorTag) :
  (forall t, 0 <= scoreField t r <= 10) ->
  0 <= computeImplicitTagScore r <= 10.
Proof.
  intros H. pose proof (H view). pose proof (H like).
  pose proof (H submit). pose proof (H complete). simpl in *.
  unfold computeImplicitTagScore. cbv zeta.
  set (raw := viewScore r * 0.1 + _ + _ + _).
  assert (0 <= raw) by (subst raw; lra).
  destruct (Qmin_cases 10 raw) as [[? ->] | [? ->]]; lra.
Qed.

Lemma setCountScore_fields (t t' : InteractionType) (c : Z) (s : Q) (r : UserBehaviorTag) :
  (countField t' (setCountScore t c s r) = if decide (t' = t) then c else countField t' r) /\
  (scoreField t' (setCountScore t c s r) = if decide (t' = t) then s else scoreField t' r).
Proof. destruct t, t'; split; reflexivity. Qed.

Lemma rowInBounds_update (t : InteractionType) (c : Z) (s v : Q) (r : UserBehaviorTag) :
  rowInBounds r -> (0 <= c)%Z -> 0 <= s <= 10 -> 0 <= v <= 10 ->
  rowInBounds (setImplicitScore v (setCountScore t c s r)).
Proof.
  intros [Hf Hi] Hc Hs Hv. split; [| exact Hv].
  intros t'. destruct (setCountScore_fields t t' c s r) as [Hcnt Hsc].
  change (countField t' (setImplicitScore v (setCountScore t c s r)))
    with (countField t' (setCountScore t c s r)).
  change (scoreField t' (setImplicitScore v (setCountScore t c s r)))
    with (scoreField t' (setCountScore t c s r)).
  rewrite Hcnt, Hsc. destruct (decide (t' = t)); [split; assumption | apply Hf].
Qed.

Lemma updateTagBehavior_bounds db userId tagId t :
  Forall rowInBounds (userBehaviorTagTable db) ->
  Forall rowInBounds (userBehaviorTagTable (updateTagBehavior db userId tagId t)).
Proof.
  intros Hrows. unfold updateTagBehavior.
  destruct (List.find _ _) as [existing |] eqn:Hfind; simpl.
  - apply find_some in Hfind as [Hin _].
    rewrite Forall_forall in Hrows.
    pose proof (Hrows existing (proj2 (list_elem_of_In _ _) Hin)) as Hex.
    assert (0 <= countField t existing + 1)%Z as Hc
      by (destruct Hex as [Hf _]; destruct (Hf t); lia).
    pose proof (newScore_range _ t Hc) as Hs.
    apply Forall_updateWhere; [apply Forall_forall, Hrows |].
    intros r Hr _. apply rowInBounds_update; try assumption.
    apply computeImplicitTagScore_range. intros t'.
    destruct (setCountScore_fields t t' (countField t existing + 1)
                (Qmin 10 (inject_Z (countField t existing + 1) * BEHAVIOR_WEIGHTS t * 2))
                existing) as [_ ->].
    destruct (decide (t' = t)); [exact Hs | apply Hex].
  - apply Forall_app. split; [exact Hrows |]. constructor; [| constructor].
    destruct (BEHAVIOR_WEIGHTS_range t).
    apply rowInBounds_update; try lia; try lra.
    split; [| simpl; lra]. intros t'. destruct t'; simpl; split; try lia; lra.
Qed.

Lemma checkDivergence_bounds db userId :
  Forall rowInBounds (userBehaviorTagTable db) ->
  Forall rowInBounds (userBehaviorTagTable (checkDivergence db userId)).
Proof.
  unfold checkDivergence. simpl.
  generalize (mapOfEntries
                (map (fun t => (utr_tagId t, utr_score t))
                   (List.filter (fun t => bool_decide (utr_userId t = userId))
                      (userTagTable db)))).
  generalize (orderedMapOfEntries
                (map (fun r => (ubt_tagId r, implicitScore r))
                   (List.filter (fun r => bool_decide (ubt_userId r = userId))
                      (userBehaviorTagTable db)))).
  intros entries explicitMap.
  generalize (userBehaviorTagTable db). intros rows. revert rows.
  induction entries as [| entry entries IH]; intros rows Hrows; simpl; [exact Hrows |].
  apply IH. unfold divergenceStep.
  assert (forall e rows0, Forall rowInBounds rows0 ->
            Forall rowInBounds
              (updateWhere (isTagRow userId entry.1) (setDivergence true e) rows0)) as Hset.
  { intros e rows0 H0. apply Forall_updateWhere; [exact H0 |].
    intros r Hr _. exact Hr. }
  destruct (explicitMap !! entry.1) as [e |]; cbv zeta;
    repeat match goal with
           | |- context [if ?c then _ else _] => destruct c
           end;
    auto.
Qed.

Lemma updateTagBehavior_loop_bounds userId t (tags : list Z) db :
  Forall rowInBounds (userBehaviorTagTable db) ->
  Forall rowInBounds
    (userBehaviorTagTable
       (fold_left (fun d tagId => updateTagBehavior d userId tagId t) tags db)).
Proof.
  revert db. induction tags as [| g tags IH]; intros db Hrows; simpl; [exact Hrows |].
  apply IH, updateTagBehavior_bounds, Hrows.
Qed.

Lemma trackBehavior_bounds db userId bountyId t :
  Forall rowInBounds (userBehaviorTagTable db) ->
  Forall rowInBounds (userBehaviorTagTable (trackBehavior db userId bountyId t)).
Proof.
  intros Hrows. unfold trackBehavior.
  destruct (List.find _ _) as [bountyData |]; [| exact Hrows].
  apply checkDivergence_bounds.
  rewrite Divergence.updateBlendConfig_tags, Divergence.updatePriceBehavior_tags.
  apply updateTagBehavior_loop_bounds, Hrows.
Qed.

(** X10: if every behavior record has non-negative counters and scores in
    [0,10], this is still so after any sequence of recorded behavior events:
    the per-type scores and the implicit score never leave [0,10]. *)
Theorem behavior_scores_bounded (db db' : DB) :
  Forall rowInBounds (userBehaviorTagTable db) ->
  rtc behaviorStep db db' ->
  Forall rowInBounds (userBehaviorTagTable db').
Proof.
  intros Hrows Hsteps. induction Hsteps as [db | db1 db2 db3 Hstep _ IH]; [exact Hrows |].
  apply IH. destruct Hstep. apply trackBehavior_bounds, Hrows.
Qed.

(** X10 from the empty behavior table, after two views of bounty 1. *)
Lemma behavior_scores_bounded_witness :
  Forall rowInBounds
    (userBehaviorTagTable
       (trackBehavior (trackBehavior oneBountyDB "user" 1 view) "user" 1 view)).
Proof.
  apply (behavior_scores_bounded oneBountyDB).
  - constructor.
  - eapply rtc_l; [constructor |]. apply rtc_once. constructor.
Defined.

End BehaviorBounds.


(** ** What a behavior event leaves alone *)

Module BehaviorFrame.
Import Schema Behavior BehaviorSpec BehaviorSpec2.

Lemma filter_updateWhere_others {A : Type} (p q : A -> bool) (f : A -> A) (rows : list A) :
  (forall r, p r = true -> q r = false) ->
  (forall r, q (f r) = q r) ->
  List.filter q (updateWhere p f rows) = List.filter q rows.
Proof.
  intros Hpq Hf. unfold updateWhere.
  induction rows as [| r rows IH]; simpl; [reflexivity |].
  destruct (p r) eqn:Hp.
  - rewrite Hf, (Hpq r Hp). exact IH.
  - rewrite IH. reflexivity.
Qed.

Lemma filter_app_other {A : Type} (q : A -> bool) (rows : list A) (r : A) :
  q r = false -> List.filter q (rows ++ [r]) = List.filter q rows.
Proof.
  intros Hq. rewrite List.filter_app. simpl. rewrite Hq. apply app_nil_r.
Qed.

Lemma isTagRow_other userId tagId r :
  isTagRow userId tagId r = true -> negb (bool_decide (ubt_userId r = userId)) = false.
Proof.
  unfold isTagRow. intros H. apply andb_true_iff in H as [H _]. rewrite H. reflexivity.
Qed.

(** What [updateTagBehavior] keeps. *)
Lemma updateTagBehavior_frame db userId tagId t :
  let db' := updateTagBehavior db userId tagId t in
  bountyTable db' = bountyTable db /\ bountyTagTable db' = bountyTagTable db /\
  userTagTable db' = userTagTable db /\ mutualTable db' = mutualTable db /\
  userBehaviorPriceTable db' = userBehaviorPriceTable db /\
  userBlendConfigTable db' = userBlendConfigTable db /\
  othersTags userId (userBehaviorTagTable db') = othersTags userId (userBehaviorTagTable db).
Proof.
  unfold updateTagBehavior. destruct (List.find _ _) as [existing |]; simpl;
    repeat (split; [reflexivity |]); unfold othersTags.
  - apply filter_updateWhere_others; [apply isTagRow_other | reflexivity].
  - apply filter_app_other. simpl. rewrite bool_decide_eq_true_2; reflexivity.
Qed.

Lemma updateTagBehavior_loop_frame userId t (tags : list Z) db :
  let db' := fold_left (fun d tagId => updateTagBehavior d userId tagId t) tags db in
  bountyTable db' = bountyTable db /\ bountyTagTable db' = bountyTagTable db /\
  userTagTable db' = userTagTable db /\ mutualTable db' = mutualTable db /\
  userBehaviorPriceTable db' = userBehaviorPriceTable db /\
  userBlendConfigTable db' = userBlendConfigTable db /\
  othersTags userId (userBehaviorTagTable db') = othersTags userId (userBehaviorTagTable db).
Proof.
  revert db. induction tags as [| g tags IH]; intros db; simpl; [repeat split |].
  destruct (IH (updateTagBehavior db userId g t)) as (H1 & H2 & H3 & H4 & H5 & H6 & H7).
  destruct (updateTagBehavior_frame db userId g t) as (F1 & F2 & F3 & F4 & F5 & F6 & F7).
  cbv zeta in *. repeat split; congruence.
Qed.

Lemma updatePriceBehavior_others db userId price t :
  othersPrices userId (userBehaviorPriceTable (updatePriceBehavior db userId price t))
  = othersPrices userId (userBehaviorPriceTable db).
Proof.
  unfold updatePriceBehavior, othersPrices.
  destruct (List.find _ _) as [existing |]; simpl.
  - apply filter_updateWhere_others; [| reflexivity].
    unfold isPriceRow. intros r ->. reflexivity.
  - apply filter_app_other. simpl. rewrite bool_decide_eq_true_2; reflexivity.
Qed.

Lemma updateBlendConfig_others db userId :
  othersConfigs userId (userBlendConfigTable (updateBlendConfig db userId))
  = othersConfigs userId (userBlendConfigTable db).
Proof.
  unfold updateBlendConfig, othersConfigs.
  destruct (List.find _ _) as [config |]; simpl; [| reflexivity].
  apply filter_updateWhere_others; [| reflexivity].
  unfold isConfigRow. intros r ->. reflexivity.
Qed.

Lemma updatePriceBehavior_static db userId price t :
  let db' := updatePriceBehavior db userId price t in
  bountyTable db' = bountyTable db /\ bountyTagTable db' = bountyTagTable db /\
  userTagTable db' = userTagTable db /\ mutualTable db' = mutualTable db /\
  userBehaviorTagTable db' = userBehaviorTagTable db /\
  userBlendConfigTable db' = userBlendConfigTable db.
Proof.
  unfold updatePriceBehavior. destruct (List.find _ _); simpl; repeat split; reflexivity.
Qed.

Lemma updateBlendConfig_static db userId :
  let db' := updateBlendConfig db userId in
  bountyTable db' = bountyTable db /\ bountyTagTable db' = bountyTagTable db /\
  userTagTable db' = userTagTable db /\ mutualTable db' = mutualTable db /\
  userBehaviorTagTable db' = userBehaviorTagTable db /\
  userBehaviorPriceTable db' = userBehaviorPriceTable db.
Proof.
  unfold updateBlendConfig. destruct (List.find _ _); simpl; repeat split; reflexivity.
Qed.

Lemma checkDivergence_others db userId :
  othersTags userId (userBehaviorTagTable (checkDivergence db userId))
  = othersTags userId (userBehaviorTagTable db).
Proof.
  unfold checkDivergence. simpl.
  assert (forall entries explicitMap rows,
            othersTags userId (fold_left (divergenceStep userId explicitMap) entries rows)
            = othersTags userId rows) as Hloop.
  { intros entries explicitMap.
    induction entries as [| entry entries IH]; intros rows; simpl; [reflexivity |].
    rewrite IH. unfold divergenceStep.
    assert (forall e rows0,
              othersTags userId
                (updateWhere (isTagRow userId entry.1) (setDivergence true e) rows0)
              = othersTags userId rows0) as Hset.
    { intros e rows0. apply filter_updateWhere_others; [apply isTagRow_other | reflexivity]. }
    destruct (explicitMap !! entry.1) as [e |]; cbv zeta;
      repeat match goal with
             | |- context [if ?c then _ else _] => destruct c
             end;
      rewrite ?Hset; reflexivity. }
  apply Hloop.
Qed.

(** X11: a behavior event of one user changes nothing for anybody else: the
    bounty, bounty-tag, user-tag and mutual tables are not written, and the
    behavior-tag, behavior-price and blend-config rows of every other user
    are exactly as before; an event on a bounty id that does not exist
    changes nothing at all. *)
Theorem trackBehavior_isolation (db : DB) (userId : string) (bountyId : Z)
    (t : InteractionType) :
  let db' := trackBehavior db userId bountyId t in
  bountyTable db' = bountyTable db /\ bountyTagTable db' = bountyTagTable db /\
  userTagTable db' = userTagTable db /\ mutualTable db' = mutualTable db /\
  othersTags userId (userBehaviorTagTable db')
    = othersTags userId (userBehaviorTagTable db) /\
  othersPrices userId (userBehaviorPriceTable db')
    = othersPrices userId (userBehaviorPriceTable db) /\
  othersConfigs userId (userBlendConfigTable db')
    = othersConfigs userId (userBlendConfigTable db) /\
  ((forall b, b ∈ bountyTable db -> Recommendation.id b <> bountyId) -> db' = db).
Proof.
  cbv zeta. unfold trackBehavior.
  destruct (List.find _ (bountyTable db)) as [bountyData |] eqn:Hfind.
  - set (tags := map btr_tagId _).
    destruct (updateTagBehavior_loop_frame userId t tags db)
      as (H1 & H2 & H3 & H4 & H5 & H6 & H7). cbv zeta in *.
    set (db1 := fold_left _ tags db) in *.
    pose proof (updatePriceBehavior_others db1 userId (Recommendation.price bountyData) t)
      as Hp.
    set (db2 := updatePriceBehavior db1 userId _ t) in *.
    destruct (updatePriceBehavior_static db1 userId (Recommendation.price bountyData) t)
      as (P1 & P2 & P3 & P4 & P5 & P6). cbv zeta in *. fold db2 in P1, P2, P3, P4, P5, P6.
    pose proof (updateBlendConfig_others db2 userId) as Hc.
    set (db3 := updateBlendConfig db2 userId) in *.
    destruct (updateBlendConfig_static db2 userId) as (C1 & C2 & C3 & C4 & C5 & C6).
    cbv zeta in *. fold db3 in C1, C2, C3, C4, C5, C6.
    pose proof (checkDivergence_others db3 userId) as Hd.
    unfold checkDivergence in *. simpl in *.
    repeat split; try congruence.
    apply find_some in Hfind as [Hin Heq]. apply Z.eqb_eq in Heq.
    intros Hnone. exfalso. apply (Hnone bountyData); [apply list_elem_of_In, Hin | exact Heq].
  - repeat split.
Qed.

End BehaviorFrame.


(** ** The trust curve *)

Module BlendMore.
Import Schema Behavior.

Lemma inject_Z_le (a b : Z) : (a <= b)%Z -> inject_Z a <= inject_Z b.
Proof. intros H. rewrite <- Zle_Qle. exact H. Qed.

(** The progress of the interpolation, between 0 and 1 and growing with the
    total. *)
Lemma progress_range (n : Z) :
  (10 <= n < 50)%Z ->
  0 <= inject_Z (n - 10) / inject_Z (50 - 10) /\
  inject_Z (n - 10) / inject_Z (50 - 10) <= 1.
Proof.
  intros Hn.
  pose proof (inject_Z_le 0 (n - 10) ltac:(lia)) as Hlo.
  pose proof (inject_Z_le (n - 10) 40 ltac:(lia)) as Hhi.
  change (inject_Z 0) with 0 in Hlo. change (inject_Z (50 - 10)) with 40.
  change (inject_Z 40) with 40 in Hhi.
  split.
  - apply PriceAffinity.Qdiv_lower; [reflexivity | lra].
  - apply PriceAffinity.Qdiv_upper; [reflexivity | lra].
Qed.

Lemma progress_mono (n m : Z) :
  (n <= m)%Z ->
  inject_Z (n - 10) / inject_Z (50 - 10) <= inject_Z (m - 10) / inject_Z (50 - 10).
Proof.
  intros Hnm. apply PriceAffinity.Qdiv_mono; [reflexivity |].
  apply inject_Z_le. lia.
Qed.

(** The explicit weight for a total, by segment. *)
Lemma blendWeights_cases (n : Z) :
  ((n < 10)%Z /\ blendWeights n = (0.8, 0.2)) \/
  ((10 <= n < 50)%Z /\
   blendWeights n = (0.8 - inject_Z (n - 10) / inject_Z (50 - 10) * 0.3,
                     0.2 + inject_Z (n - 10) / inject_Z (50 - 10) * 0.3)) \/
  ((50 <= n < 100)%Z /\ blendWeights n = (0.5, 0.5)) \/
  ((100 <= n)%Z /\ blendWeights n = (0.3, 0.7)).
Proof.
  unfold blendWeights, TRUST_IMPLICIT, EQUAL_WEIGHT, START_BLENDING.
  rewrite !Z.geb_leb.
  destruct (Z.leb_spec 100 n); [right; right; right; auto |].
  destruct (Z.leb_spec 50 n); [right; right; left; split; [lia | reflexivity] |].
  destruct (Z.leb_spec 10 n); [right; left; split; [lia | reflexivity] |].
  left. auto.
Qed.

(** X12: the explicit weight stored by [updateBlendConfig] never increases
    and the implicit weight never decreases as the interaction total grows;
    the explicit weight stays in [0.3, 0.8] and the implicit weight in
    [0.2, 0.7]. *)
Theorem blendWeights_monotone (n m : Z) :
  (n <= m)%Z ->
  (blendWeights m).1 <= (blendWeights n).1 /\
  (blendWeights n).2 <= (blendWeights m).2 /\
  0.3 <= (blendWeights n).1 <= 0.8 /\
  0.2 <= (blendWeights n).2 <= 0.7.
Proof.
  intros Hnm.
  destruct (blendWeights_cases n) as [[Hn ->] | [[Hn ->] | [[Hn ->] | [Hn ->]]]];
    destruct (blendWeights_cases m) as [[Hm ->] | [[Hm ->] | [[Hm ->] | [Hm ->]]]];
    try lia; simpl;
    try (pose proof (progress_range n Hn) as [? ?]);
    try (pose proof (progress_range m Hm) as [? ?]);
    try (pose proof (progress_mono n m Hnm));
    repeat match goal with
           | H : context [inject_Z (?k - 10) / inject_Z (50 - 10)] |- _ =>
               let x := fresh "x" in
               set (x := inject_Z (k - 10) / inject_Z (50 - 10)) in *; clearbody x
           end;
    repeat split; lra.
Qed.

(** X12 between 20 and 60 interactions. *)
Lemma blendWeights_monotone_witness :
  (blendWeights 60).1 <= (blendWeights 20).1 /\
  (blendWeights 20).2 <= (blendWeights 60).2.
Proof.
  destruct (blendWeights_monotone 20 60) as (H1 & H2 & _); [lia |].
  split; assumption.
Defined.

End BlendMore.


(** ** Rolling price averages *)

Module PriceBehavior.
Import Schema Behavior BehaviorSpec BehaviorSpec2.









End PriceBehavior.


(** ** What the divergence check decides *)

Module DivergenceCheck.
Import Schema Behavior DivergenceSpec.

Lemma orderedSet_get {V : Type} (k : Z) (v : V) (m : list (Z * V)) (k' : Z) :
  assocGet (orderedSet k v m) k' = if (k =? k')%Z then Some v else assocGet m k'.
Proof.
  induction m as [| kv m IH]; simpl; [reflexivity |].
  destruct (Z.eqb_spec kv.1 k) as [Hk | Hk]; simpl.
  - destruct (Z.eqb_spec k k') as [Hk' | Hk']; [reflexivity |].
    destruct (Z.eqb_spec kv.1 k'); [congruence | reflexivity].
  - rewrite IH. destruct (Z.eqb_spec kv.1 k') as [Hk' | Hk']; [| reflexivity].
    destruct (Z.eqb_spec k k'); [congruence | reflexivity].
Qed.

Lemma orderedSet_keys {V : Type} (k : Z) (v : V) (m : list (Z * V)) (k' : Z) :
  k' ∈ map fst (orderedSet k v m) <-> k' = k \/ k' ∈ map fst m.
Proof.
  induction m as [| kv m IH]; simpl.
  - rewrite elem_of_cons, elem_of_nil. tauto.
  - destruct (Z.eqb_spec kv.1 k) as [Hk | Hk]; simpl.
    + rewrite !elem_of_cons. rewrite Hk. tauto.
    + rewrite !elem_of_cons, IH. tauto.
Qed.

Lemma orderedSet_NoDup {V : Type} (k : Z) (v : V) (m : list (Z * V)) :
  NoDup (map fst m) -> NoDup (map fst (orderedSet k v m)).
Proof.
  induction m as [| kv m IH]; simpl; intros Hnd.
  - apply NoDup_singleton.
  - apply NoDup_cons in Hnd as [Hkv Hnd].
    destruct (Z.eqb_spec kv.1 k) as [Hk | Hk]; simpl.
    + apply NoDup_cons. split; [rewrite <- Hk; exact Hkv | exact Hnd].
    + apply NoDup_cons. split; [| apply IH, Hnd].
      rewrite orderedSet_keys. intros [H | H]; [congruence | contradiction].
Qed.

Lemma orderedMap_gen {V : Type} (entries : list (Z * V)) (m : list (Z * V)) :
  NoDup (map fst m) ->
  NoDup (map fst (fold_left (fun m kv => orderedSet kv.1 kv.2 m) entries m)) /\
  forall k,
    assocGet (fold_left (fun m kv => orderedSet kv.1 kv.2 m) entries m) k =
    match lastValue entries k with
    | Some v => Some v
    | None => assocGet m k
    end.
Proof.
  revert m. induction entries as [| kv entries IH]; intros m Hnd; simpl.
  - split; [exact Hnd | reflexivity].
  - destruct (IH (orderedSet kv.1 kv.2 m) (orderedSet_NoDup _ _ _ Hnd)) as [IH1 IH2].
    split; [exact IH1 |]. intros k. rewrite IH2, orderedSet_get.
    destruct (lastValue entries k); [reflexivity |].
    destruct (kv.1 =? k)%Z; reflexivity.
Qed.

Lemma orderedMapOfEntries_spec {V : Type} (entries : list (Z * V)) :
  NoDup (map fst (orderedMapOfEntries entries)) /\
  forall k, assocGet (orderedMapOfEntries entries) k = lastValue entries k.
Proof.
  destruct (orderedMap_gen entries [] (NoDup_nil_2)) as [H1 H2].
  split; [exact H1 |]. intros k. unfold orderedMapOfEntries. rewrite H2.
  destruct (lastValue entries k); reflexivity.
Qed.

Lemma assocGet_None {V : Type} (m : list (Z * V)) (k : Z) :
  k ∉ map fst m -> assocGet m k = None.
Proof.
  induction m as [| kv m IH]; simpl; intros Hk; [reflexivity |].
  apply not_elem_of_cons in Hk as [Hne Hk].
  destruct (Z.eqb_spec kv.1 k); [congruence | apply IH, Hk].
Qed.

Lemma updateWhere_id {A : Type} (p : A -> bool) (f : A -> A) (rows : list A) :
  (forall r, f r = r) -> updateWhere p f rows = rows.
Proof.
  intros Hf. unfold updateWhere. induction rows as [| r rows IH]; simpl; [reflexivity |].
  rewrite IH, Hf. destruct (p r); reflexivity.
Qed.

(** One turn of the loop applies the verdict for its tag to the user's
    records for that tag. *)
Lemma divergenceStep_verdict userId explicitMap rows entry :
  divergenceStep userId explicitMap rows entry
  = updateWhere (isTagRow userId entry.1)
      (applyVerdict (verdict (explicitMap !! entry.1) entry.2)) rows.
Proof.
  unfold divergenceStep, verdict. cbv zeta.
  destruct (explicitMap !! entry.1) as [e |]; simpl.
  - destruct (e =? 0)%Z; simpl.
    + destruct (Qgeb entry.2 3); simpl; [reflexivity |].
      symmetry. apply updateWhere_id. reflexivity.
    + destruct ((e >=? 4)%Z && Qltb entry.2 1); simpl; [reflexivity |].
      symmetry. apply updateWhere_id. reflexivity.
  - destruct (Qgeb entry.2 3); simpl; [reflexivity |].
    symmetry. apply updateWhere_id. reflexivity.
Qed.

Lemma applyVerdict_keys v r :
  ubt_userId (applyVerdict v r) = ubt_userId r /\
  ubt_tagId (applyVerdict v r) = ubt_tagId r /\
  implicitScore (applyVerdict v r) = implicitScore r.
Proof. destruct v; repeat split; reflexivity. Qed.

Lemma divergence_loop userId explicitMap (entries : list (Z * Q)) rows :
  NoDup (map fst entries) ->
  fold_left (divergenceStep userId explicitMap) entries rows
  = map (fun r =>
           if bool_decide (ubt_userId r = userId) then
             match assocGet entries (ubt_tagId r) with
             | Some s => applyVerdict (verdict (explicitMap !! ubt_tagId r) s) r
             | None => r
             end
           else r) rows.
Proof.
  revert rows. induction entries as [| [g s] entries IH]; intros rows Hnd; simpl.
  - induction rows as [| r rows IHr]; simpl; [reflexivity |].
    rewrite <- IHr. destruct (bool_decide _); reflexivity.
  - simpl in Hnd. apply NoDup_cons in Hnd as [Hg Hnd].
    rewrite (IH _ Hnd), divergenceStep_verdict. unfold updateWhere. rewrite map_map.
    apply map_ext. intros r. simpl.
    unfold isTagRow.
    destruct (bool_decide (ubt_userId r = userId)) eqn:Hu; simpl.
    + destruct (Z.eqb_spec (ubt_tagId r) g) as [Ht | Ht].
      * destruct (applyVerdict_keys (verdict (explicitMap !! g) s) r) as (-> & -> & _).
        rewrite Hu, Ht, (assocGet_None entries g Hg), Z.eqb_refl. reflexivity.
      * rewrite Hu. destruct (Z.eqb_spec g (ubt_tagId r)); [congruence | reflexivity].
    + rewrite Hu. reflexivity.
Qed.

Lemma explicitMap_lookup (rows : list UserTagRow) (userId : string) (k : Z) :
  mapOfEntries
    (map (fun t => (utr_tagId t, utr_score t))
       (List.filter (fun t => bool_decide (utr_userId t = userId)) rows)) !! k
  = explicitScoreOf rows userId k.
Proof.
  unfold mapOfEntries.
  assert (forall m : gmap Z Z,
            fold_left (fun m kv => <[kv.1 := kv.2]> m)
              (map (fun t => (utr_tagId t, utr_score t))
                 (List.filter (fun t => bool_decide (utr_userId t = userId)) rows)) m !! k
            = match explicitScoreOf rows userId k with
              | Some e => Some e
              | None => m !! k
              end) as Hgen.
  { induction rows as [| t rows IH]; intros m; simpl; [reflexivity |].
    destruct (bool_decide (utr_userId t = userId)); simpl.
    - rewrite IH. destruct (explicitScoreOf rows userId k); [reflexivity |].
      destruct (Z.eqb_spec (utr_tagId t) k) as [-> | Hne].
      + apply lookup_insert_eq.
      + rewrite lookup_insert_ne by exact Hne. reflexivity.
    - rewrite IH. destruct (explicitScoreOf rows userId k); reflexivity. }
  rewrite Hgen. destruct (explicitScoreOf rows userId k); [reflexivity |].
  apply lookup_empty.
Qed.

Lemma implicit_lastValue (rows : list UserBehaviorTag) (userId : string) (k : Z) :
  lastValue
    (map (fun r => (ubt_tagId r, implicitScore r))
       (List.filter (fun r => bool_decide (ubt_userId r = userId)) rows)) k
  = implicitScoreOf rows userId k.
Proof.
  induction rows as [| r rows IH]; simpl; [reflexivity |].
  unfold isTagRow.
  destruct (bool_decide (ubt_userId r = userId)); simpl; rewrite IH;
    destruct (implicitScoreOf rows userId k); reflexivity.
Qed.

Lemma implicitScoreOf_map (f : UserBehaviorTag -> UserBehaviorTag)
    (rows : list UserBehaviorTag) (userId : string) (k : Z) :
  (forall r, ubt_userId (f r) = ubt_userId r /\ ubt_tagId (f r) = ubt_tagId r /\
             implicitScore (f r) = implicitScore r) ->
  implicitScoreOf (map f rows) userId k = implicitScoreOf rows userId k.
Proof.
  intros Hf. induction rows as [| r rows IH]; simpl; [reflexivity |].
  rewrite IH. unfold isTagRow. destruct (Hf r) as (-> & -> & ->). reflexivity.
Qed.

Lemma checked_keys db userId r :
  ubt_userId (checked db userId r) = ubt_userId r /\
  ubt_tagId (checked db userId r) = ubt_tagId r /\
  implicitScore (checked db userId r) = implicitScore r.
Proof.
  unfold checked. destruct (bool_decide _); [| auto].
  destruct (implicitScoreOf _ _ _); [apply applyVerdict_keys | auto].
Qed.

Lemma applyVerdict_twice v r : applyVerdict v (applyVerdict v r) = applyVerdict v r.
Proof. destruct v; reflexivity. Qed.

Lemma checkDivergence_table (d : DB) (userId : string) :
  userBehaviorTagTable (checkDivergence d userId)
  = map (checked d userId) (userBehaviorTagTable d).
Proof.
  unfold checkDivergence. cbn [userBehaviorTagTable withBehaviorTags].
  destruct (orderedMapOfEntries_spec
              (map (fun r => (ubt_tagId r, implicitScore r))
                 (List.filter (fun r => bool_decide (ubt_userId r = userId))
                    (userBehaviorTagTable d)))) as [Hnd Hget].
  rewrite (divergence_loop _ _ _ _ Hnd).
  apply map_ext. intros r. unfold checked.
  destruct (bool_decide (ubt_userId r = userId)); [| reflexivity].
  rewrite Hget, implicit_lastValue, explicitMap_lookup. reflexivity.
Qed.

(** X14: [checkDivergence] rewrites each record of the user by the verdict
    for its tag, computed from the user's explicit score for the tag (last
    [user_tag] row) and the implicit score of the user's (last) record for
    the tag: flagged with last explicit score 0 when there is no explicit
    score and the implicit score is at least 3, flagged with the explicit
    score when that is at least 4 and the implicit score is below 1, left
    untouched otherwise, as are the records of other users. Running the
    check a second time changes nothing. *)
Theorem checkDivergence_verdict (db : DB) (userId : string) :
  userBehaviorTagTable (checkDivergence db userId)
    = map (checked db userId) (userBehaviorTagTable db) /\
  userTagTable (checkDivergence db userId) = userTagTable db /\
  checkDivergence (checkDivergence db userId) userId = checkDivergence db userId.
Proof.
  pose proof (fun d => checkDivergence_table d userId) as Hchar.
  split; [apply Hchar |]. split; [reflexivity |].
  assert (forall d, checkDivergence d userId
                    = withBehaviorTags d (userBehaviorTagTable (checkDivergence d userId)))
    as Hshape by (intros d; reflexivity).
  assert (forall r, checked (checkDivergence db userId) userId (checked db userId r)
                    = checked db userId r) as Hpoint.
  { intros r. unfold checked at 1.
    destruct (checked_keys db userId r) as (-> & -> & _).
    change (userTagTable (checkDivergence db userId)) with (userTagTable db).
    rewrite Hchar, implicitScoreOf_map by apply checked_keys.
    unfold checked.
    destruct (bool_decide (ubt_userId r = userId)); [| reflexivity].
    destruct (implicitScoreOf _ _ _); [apply applyVerdict_twice | reflexivity]. }
  transitivity (withBehaviorTags db (map (checked db userId) (userBehaviorTagTable db)));
    [| rewrite <- Hchar; symmetry; apply Hshape].
  rewrite (Hshape (checkDivergence db userId)), (Hchar (checkDivergence db userId)).
  rewrite (Hchar db), map_map.
  rewrite (map_ext _ _ Hpoint). reflexivity.
Qed.

End DivergenceCheck.


(** ** The divergence alerts *)

Module AlertFacts.
Import Schema Behavior Router Alerts DivergenceSpec AlertSpec.

Lemma mapOfEntries_lastValue {V : Type} (entries : list (Z * V)) (k : Z) :
  mapOfEntries entries !! k = lastValue entries k.
Proof.
  unfold mapOfEntries.
  assert (forall m : gmap Z V,
            fold_left (fun m kv => <[kv.1 := kv.2]> m) entries m !! k
            = match lastValue entries k with
              | Some v => Some v
              | None => m !! k
              end) as Hgen.
  { induction entries as [| kv entries IH]; intros m; simpl; [reflexivity |].
    rewrite IH. destruct (lastValue entries k); [reflexivity |].
    destruct (Z.eqb_spec kv.1 k) as [<- | Hne].
    - apply lookup_insert_eq.
    - rewrite lookup_insert_ne by exact Hne. reflexivity. }
  rewrite Hgen. destruct (lastValue entries k); [reflexivity | apply lookup_empty].
Qed.

Lemma lastValue_filter {A V : Type} (key : A -> Z) (val : A -> V) (p : A -> bool)
    (rows : list A) (k : Z) :
  (forall r, key r = k -> p r = true) ->
  lastValue (map (fun r => (key r, val r)) (List.filter p rows)) k
  = lastValue (map (fun r => (key r, val r)) rows) k.
Proof.
  intros Hp. induction rows as [| r rows IH]; simpl; [reflexivity |].
  destruct (p r) eqn:Hr; simpl; rewrite IH; [reflexivity |].
  destruct (lastValue (map (fun r => (key r, val r)) rows) k); [reflexivity |].
  destruct (Z.eqb_spec (key r) k) as [Hk | Hk]; [| reflexivity].
  rewrite (Hp r Hk) in Hr. discriminate.
Qed.

Lemma elem_of_divergentTags db userId r :
  r ∈ divergentTags db userId <-> flagged db userId r.
Proof.
  unfold divergentTags, flagged.
  rewrite Mutuals.elem_of_filter_bool, andb_true_iff, bool_decide_eq_true.
  destruct (divergenceDetected r); simpl; intuition congruence.
Qed.


Lemma omap_sublist {A B : Type} (f : A -> option B) (g : B -> Z) (h : A -> Z)
    (l : list A) :
  (forall x y, f x = Some y -> g y = h x) ->
  map g (omap f l) `sublist_of` map h l.
Proof.
  intros Hf. induction l as [| x l IH]; simpl; [constructor |].
  destruct (f x) as [y |] eqn:Hx; simpl.
  - rewrite (Hf x y Hx). apply sublist_skip, IH.
  - apply sublist_cons, IH.
Qed.

Section NumberFormat.

Variable showNumber : Q -> string.

(** The early return on an empty selection and the guard on [tagIds] do not
    change the result. *)
Lemma getDivergenceAlerts_loop db tags now userId :
  promptedRecently db now userId = false ->
  exists nameMap,
    (forall r, r ∈ divergentTags db userId ->
               nameMap !! ubt_tagId r = lastValue (map (fun t => (tag_id t, tag_name t)) tags)
                                          (ubt_tagId r)) /\
    getDivergenceAlerts showNumber db tags now userId
    = omap (alertFor showNumber nameMap) (divergentTags db userId).
Proof.
  intros Hp. unfold getDivergenceAlerts. rewrite Hp.
  destruct (divergentTags db userId) as [| r0 rest] eqn:Hdiv.
  - exists ∅. split; [intros r Hr; inversion Hr | reflexivity].
  - cbn [length Nat.eqb Nat.ltb Nat.leb map]. cbv zeta.
    eexists. split; [| reflexivity].
    intros r Hr. rewrite mapOfEntries_lastValue.
    apply (lastValue_filter tag_id tag_name). intros t Ht.
    apply bool_decide_eq_true. rewrite Ht.
    change (ubt_tagId r0 :: map ubt_tagId rest) with (map ubt_tagId (r0 :: rest)).
    apply (list_elem_of_fmap_2 ubt_tagId), Hr.
Qed.

Lemma alertFor_Some nameMap r a :
  alertFor showNumber nameMap r = Some a ->
  da_tagId a = ubt_tagId r /\
  da_tagName a = match nameMap !! ubt_tagId r with
                 | Some name => name
                 | None => "Tag " +:+ pretty (ubt_tagId r)
                 end /\
  da_implicitScore a = implicitScore r /\
  match da_type a with
  | new_interest =>
      storedExplicit r == 0 /\ 3 <= implicitScore r /\ da_explicitScore a = 0
  | unused_skill =>
      4 <= storedExplicit r /\ implicitScore r < 1 /\ da_explicitScore a = storedExplicit r
  end.
Proof.
  unfold alertFor, storedExplicit. cbv zeta.
  destruct (Qeq_bool (default 0 (lastExplicitScore r)) 0 && Qgeb (implicitScore r) 3) eqn:H1.
  - intros [= <-]. simpl. apply andb_true_iff in H1 as [He Hi].
    apply Qeq_bool_iff in He. apply Qgeb_ge in Hi.
    split; [reflexivity |]. split; [reflexivity |]. split; [reflexivity |].
    split; [exact He | split; [exact Hi | reflexivity]].
  - destruct (Qgeb (default 0 (lastExplicitScore r)) 4 && Qltb (implicitScore r) 1) eqn:H2;
      [| discriminate].
    intros [= <-]. simpl. apply andb_true_iff in H2 as [He Hi].
    apply Qgeb_ge in He. apply Qltb_lt in Hi.
    split; [reflexivity |]. split; [reflexivity |]. split; [reflexivity |].
    split; [exact He | split; [exact Hi | reflexivity]].
Qed.

Lemma alertFor_is_Some nameMap r :
  (storedExplicit r == 0 /\ 3 <= implicitScore r) \/
  (4 <= storedExplicit r /\ implicitScore r < 1) ->
  exists a, alertFor showNumber nameMap r = Some a.
Proof.
  unfold alertFor, storedExplicit. cbv zeta. intros [[He Hi] | [He Hi]].
  - apply Qeq_bool_iff in He. apply Qgeb_ge in Hi. rewrite He, Hi. simpl. eauto.
  - apply Qgeb_ge in He. apply Qltb_lt in Hi. rewrite He, Hi. simpl.
    destruct (Qeq_bool _ 0 && _); eauto.
Qed.

(** X15: what [getDivergenceAlerts] returns. Within 24 hours of the last
    prompt it returns nothing. Otherwise every alert comes from a flagged
    record of the user, carries its tag id, its implicit score and the name
    of the tag (or the placeholder), and its type is decided by the stored
    explicit score: new interest (shown with explicit score 0) when that is 0
    or null and the implicit score is at least 3, unused skill when it is at
    least 4 and the implicit score below 1. Every flagged record that meets
    one of the two conditions gets an alert; a flagged record that meets
    neither is skipped. The alerts follow the order of the records, at most
    one per record. *)
Theorem getDivergenceAlerts_spec (db : DB) (tags : list TagRow) (now : Z)
    (userId : string) :
  let alerts := getDivergenceAlerts showNumber db tags now userId in
  (promptedRecently db now userId = true -> alerts = []) /\
  (forall a, a ∈ alerts ->
     exists r, flagged db userId r /\
       da_tagId a = ubt_tagId r /\
       da_tagName a = tagNameOf tags (ubt_tagId r) /\
       da_implicitScore a = implicitScore r /\
       match da_type a with
       | new_interest =>
           storedExplicit r == 0 /\ 3 <= implicitScore r /\ da_explicitScore a = 0
       | unused_skill =>
           4 <= storedExplicit r /\ implicitScore r < 1 /\
           da_explicitScore a = storedExplicit r
       end) /\
  (promptedRecently db now userId = false ->
   forall r, flagged db userId r ->
     (storedExplicit r == 0 /\ 3 <= implicitScore r) \/
     (4 <= storedExplicit r /\ implicitScore r < 1) ->
     exists a, a ∈ alerts /\ da_tagId a = ubt_tagId r /\
               da_implicitScore a = implicitScore r) /\
  map da_tagId alerts `sublist_of` map ubt_tagId (divergentTags db userId).
Proof.
  cbv zeta.
  destruct (promptedRecently db now userId) eqn:Hp.
  - assert (getDivergenceAlerts showNumber db tags now userId = []) as ->
      by (unfold getDivergenceAlerts; rewrite Hp; reflexivity).
    split; [reflexivity |]. split; [intros a Ha; inversion Ha |].
    split; [discriminate | apply sublist_nil_l].
  - destruct (getDivergenceAlerts_loop db tags now userId Hp) as (nameMap & Hnames & ->).
    split; [discriminate |]. split; [| split].
    + intros a Ha. apply list_elem_of_omap in Ha as (r & Hr & Ha).
      exists r. split; [apply elem_of_divergentTags, Hr |].
      destruct (alertFor_Some _ _ _ Ha) as (Hid & Hname & Hs & Ht).
      split; [exact Hid |]. split; [| split; [exact Hs | exact Ht]].
      rewrite Hname, (Hnames r Hr). reflexivity.
    + intros _ r Hr Hcond. apply elem_of_divergentTags in Hr.
      destruct (alertFor_is_Some nameMap r Hcond) as [a Ha].
      exists a. split; [apply list_elem_of_omap; eauto |].
      destruct (alertFor_Some _ _ _ Ha) as (Hid & _ & Hs & _). auto.
    + apply omap_sublist. intros r a Ha. apply (alertFor_Some _ _ _ Ha).
Qed.


Lemma verdict_Some explicit implicit e :
  verdict explicit implicit = Some e ->
  (e = 0 /\ 3 <= implicit) \/
  (exists z, e = inject_Z z /\ (4 <= z)%Z /\ implicit < 1).
Proof.
  unfold verdict. destruct explicit as [z |].
  - destruct (z =? 0)%Z.
    + destruct (Qgeb implicit 3) eqn:Hi; [| discriminate].
      intros [= <-]. left. split; [reflexivity | apply Qgeb_ge, Hi].
    + destruct ((z >=? 4)%Z && Qltb implicit 1) eqn:Hc; [| discriminate].
      apply andb_true_iff in Hc as [Hz Hi].
      intros [= <-]. right. exists z. split; [reflexivity |].
      split; [lia | apply Qltb_lt, Hi].
  - destruct (Qgeb implicit 3) eqn:Hi; [| discriminate].
    intros [= <-]. left. split; [reflexivity | apply Qgeb_ge, Hi].
Qed.

(** X16: a record that [checkDivergence] flags is one the alerts report. If
    the verdict for a record of the user (the one whose implicit score the
    check reads for its tag) is to flag it with explicit score [e], then
    after the check, and unless the user was prompted in the last 24 hours,
    [getDivergenceAlerts] holds an alert for the record's tag with that
    explicit score and the record's implicit score: a new interest when [e]
    is 0, an unused skill otherwise. *)
Theorem checkDivergence_alert (db : DB) (tags : list TagRow) (now : Z)
    (userId : string) (r : UserBehaviorTag) (e : Q) :
  promptedRecently db now userId = false ->
  r ∈ userBehaviorTagTable db ->
  ubt_userId r = userId ->
  implicitScoreOf (userBehaviorTagTable db) userId (ubt_tagId r) = Some (implicitScore r) ->
  verdict (explicitScoreOf (userTagTable db) userId (ubt_tagId r)) (implicitScore r)
    = Some e ->
  exists a,
    a ∈ getDivergenceAlerts showNumber (checkDivergence db userId) tags now userId /\
    da_tagId a = ubt_tagId r /\
    da_implicitScore a = implicitScore r /\
    da_explicitScore a = e /\
    da_type a = (if Qeq_bool e 0 then new_interest else unused_skill).
Proof.
  intros Hp Hr Hu Hs Hv.
  assert (promptedRecently (checkDivergence db userId) now userId = false) as Hp'
    by exact Hp.
  destruct (getDivergenceAlerts_loop _ tags now userId Hp') as (nameMap & _ & ->).
  assert (setDivergence true (Some e) r ∈ divergentTags (checkDivergence db userId) userId)
    as Hflag.
  { apply elem_of_divergentTags. split; [| split; [exact Hu | reflexivity]].
    rewrite DivergenceCheck.checkDivergence_table.
    replace (setDivergence true (Some e) r) with (checked db userId r).
    - apply (list_elem_of_fmap_2 (checked db userId)), Hr.
    - unfold checked. rewrite bool_decide_true by exact Hu. rewrite Hs, Hv. reflexivity. }
  destruct (verdict_Some _ _ _ Hv) as [[-> Hi] | (z & -> & Hz & Hi)].
  - eexists. split.
    + apply list_elem_of_omap. eexists. split; [exact Hflag |].
      unfold alertFor. cbv zeta.
      cbn [lastExplicitScore implicitScore setDivergence default ubt_tagId].
      apply Qgeb_ge in Hi. rewrite Hi. reflexivity.
    + repeat split; reflexivity.
  - assert (Qeq_bool (inject_Z z) 0 = false) as Hne.
    { destruct (Qeq_bool (inject_Z z) 0) eqn:Hq; [| reflexivity].
      apply Qeq_bool_iff in Hq. unfold Qeq in Hq. simpl in Hq. lia. }
    assert (Qgeb (inject_Z z) 4 = true) as Hge.
    { apply Qgeb_ge. change 4 with (inject_Z 4). rewrite <- Zle_Qle. exact Hz. }
    eexists. split.
    + apply list_elem_of_omap. eexists. split; [exact Hflag |].
      unfold alertFor. cbv zeta.
      cbn [lastExplicitScore implicitScore setDivergence default ubt_tagId].
      unfold id. apply Qltb_lt in Hi. rewrite Hne, Hge, Hi. reflexivity.
    + rewrite Hne. repeat split; reflexivity.
Qed.




End NumberFormat.

Lemma checkDivergence_alert_witness :
  exists a,
    a ∈ getDivergenceAlerts showInteger (checkDivergence interestedDB "user") rustTags 0 "user" /\
    da_tagId a = 1%Z /\
    da_implicitScore a = 3.5 /\
    da_explicitScore a = 0 /\
    da_type a = new_interest.
Proof.
  apply (checkDivergence_alert showInteger interestedDB rustTags 0 "user"
           (setImplicitScore 3.5 (defaultBehaviorTag "user" 1)) 0).
  - reflexivity.
  - apply list_elem_of_here.
  - reflexivity.
  - reflexivity.
  - reflexivity.
Defined.

End AlertFacts.


(** ** The procedures of the recommendation router *)

Module ProcedureFacts.
Import Recommendation Schema Behavior Router Alerts Endpoints EndpointSpec.

Lemma pushTo_lookup `{Countable K} {V : Type} (m : gmap K (list V)) (k k' : K) (v : V) :
  pushTo m k v !! k' =
  if decide (k = k') then Some (default [] (m !! k) ++ [v]) else m !! k'.
Proof.
  unfold pushTo. cbv zeta.
  destruct (bool_decide (is_Some (m !! k))) eqn:Hhas.
  - destruct (decide (k = k')) as [<- | Hne].
    + apply lookup_insert_eq.
    + apply lookup_insert_ne, Hne.
  - apply bool_decide_eq_false in Hhas.
    assert (m !! k = None) as Hnone.
    { destruct (m !! k) eqn:Hk; [| reflexivity]. exfalso. apply Hhas. eauto. }
    rewrite Hnone. rewrite (lookup_insert_eq m k). simpl.
    destruct (decide (k = k')) as [<- | Hne].
    + apply lookup_insert_eq.
    + rewrite !lookup_insert_ne by exact Hne. reflexivity.
Qed.

(** The grouping loop: each key ends up with the values of its rows, in the
    order of the rows. *)
Lemma group_lookup `{Countable K} {A V : Type} (key : A -> K) (val : A -> V)
    (rows : list A) (m0 : gmap K (list V)) (k : K) :
  fold_left (fun m r => pushTo m (key r) (val r)) rows m0 !! k =
  match map val (List.filter (fun r => bool_decide (key r = k)) rows) with
  | [] => m0 !! k
  | v :: vs => Some (default [] (m0 !! k) ++ v :: vs)
  end.
Proof.
  revert m0. induction rows as [| r rows IH]; intros m0; simpl; [reflexivity |].
  rewrite IH, pushTo_lookup.
  destruct (decide (key r = k)) as [Hk | Hk].
  - rewrite (bool_decide_true _ Hk). simpl. rewrite Hk.
    destruct (map val (List.filter (fun r => bool_decide (key r = k)) rows)) as [| v vs].
    + reflexivity.
    + rewrite <- app_assoc. reflexivity.
  - rewrite (bool_decide_false _ Hk). reflexivity.
Qed.

Lemma group_default `{Countable K} {A V : Type} (key : A -> K) (val : A -> V)
    (rows : list A) (k : K) :
  default [] (fold_left (fun m r => pushTo m (key r) (val r)) rows ∅ !! k)
  = map val (List.filter (fun r => bool_decide (key r = k)) rows).
Proof.
  rewrite group_lookup, lookup_empty.
  destruct (map val _); reflexivity.
Qed.

Lemma filter_ext_bool {A : Type} (f g : A -> bool) (l : list A) :
  (forall x, f x = g x) -> List.filter f l = List.filter g l.
Proof.
  intros Hfg. induction l as [| x l IH]; simpl; [reflexivity |].
  rewrite Hfg, IH. reflexivity.
Qed.

Lemma filter_filter_bool {A : Type} (f g : A -> bool) (l : list A) :
  List.filter f (List.filter g l) = List.filter (fun x => f x && g x) l.
Proof.
  induction l as [| x l IH]; simpl; [reflexivity |].
  destruct (g x); simpl.
  - rewrite andb_true_r. destruct (f x); rewrite IH; reflexivity.
  - rewrite andb_false_r. exact IH.
Qed.

Lemma bountyTagMapOf_default (db : DB) (b : Z) :
  default [] (bountyTagMapOf (bountyTagTable db) !! b) = tagsOfBounty db b.
Proof.
  unfold bountyTagMapOf, tagsOfBounty.
  rewrite (group_default btr_bountyId
             (fun bt => {| bt_tagId := btr_tagId bt; weight := btr_weight bt |})).
  f_equal. apply filter_ext_bool. intros bt.
  destruct (Z.eqb_spec (btr_bountyId bt) b) as [Hb | Hb].
  - apply bool_decide_eq_true, Hb.
  - apply bool_decide_eq_false, Hb.
Qed.

Lemma mutualInteractionsOf_default (st : Store) (mutualIds : list string) (u : string) :
  default [] (mutualInteractionsOf st mutualIds !! u)
  = if bool_decide (u ∈ mutualIds) then interactionsOf st u else [].
Proof.
  unfold mutualInteractionsOf, interactionsOf.
  destruct mutualIds as [| i ids].
  - change (0 <? length (@nil string))%nat with false. cbv iota.
    rewrite lookup_empty.
    rewrite bool_decide_false by (intros Hin; inversion Hin). reflexivity.
  - change (0 <? length (i :: ids))%nat with true. cbv iota zeta.
    rewrite (group_default bi_userId bi_bountyId), filter_filter_bool.
    destruct (bool_decide (u ∈ i :: ids)) eqn:Hin.
    + apply bool_decide_eq_true in Hin. f_equal. apply filter_ext_bool. intros mi.
      destruct (bool_decide (bi_userId mi = u)) eqn:Hu; [| reflexivity].
      apply bool_decide_eq_true in Hu. simpl. apply bool_decide_eq_true.
      rewrite Hu. exact Hin.
    + apply bool_decide_eq_false in Hin.
      rewrite Ranking.filter_none; [reflexivity |].
      intros mi _. destruct (bool_decide (bi_userId mi = u)) eqn:Hu; [| reflexivity].
      apply bool_decide_eq_true in Hu. simpl. apply bool_decide_eq_false.
      rewrite Hu. exact Hin.
Qed.

(** X18: the two grouping loops of the procedures. The entry of
    [bountyTagMap] for a bounty holds exactly the tags of the [bounty_tag]
    rows of that bounty, in table order, and a bounty without rows has no
    entry; the entry of [mutualInteractions] for a mutual holds exactly the
    bounties of the mutual's [bounty_interaction] rows, in table order, and
    users who are not mutuals have no entry. So the relevance score of a
    bounty is computed from its own tags only, and a mutual counts as having
    interacted with a bounty exactly when an interaction row says so. *)
Theorem grouping_loops (st : Store) (mutualIds : list string) :
  (forall b, default [] (bountyTagMapOf (bountyTagTable (core st)) !! b)
             = tagsOfBounty (core st) b) /\
  (forall b, bountyTagMapOf (bountyTagTable (core st)) !! b = None
             <-> tagsOfBounty (core st) b = []) /\
  (forall u, default [] (mutualInteractionsOf st mutualIds !! u)
             = if bool_decide (u ∈ mutualIds) then interactionsOf st u else []) /\
  (forall u, u ∉ mutualIds -> mutualInteractionsOf st mutualIds !! u = None) /\
  (forall m b, mutualId m ∈ mutualIds ->
     Spec.interacted b (mutualInteractionsOf st mutualIds) m <->
     exists mi, mi ∈ bountyInteractionTable st /\
                bi_userId mi = mutualId m /\ bi_bountyId mi = b).
Proof.
  split; [apply bountyTagMapOf_default |]. split; [| split; [| split]].
  - intros b. rewrite <- bountyTagMapOf_default.
    unfold bountyTagMapOf.
    rewrite (group_lookup btr_bountyId
               (fun bt => {| bt_tagId := btr_tagId bt; weight := btr_weight bt |})),
      lookup_empty.
    destruct (map _ _) as [| v vs]; simpl; split; intros; congruence.
  - apply mutualInteractionsOf_default.
  - intros u Hu. unfold mutualInteractionsOf.
    destruct (0 <? length mutualIds)%nat; [| apply lookup_empty].
    cbv zeta. rewrite (group_lookup bi_userId bi_bountyId), filter_filter_bool.
    rewrite Ranking.filter_none; [apply lookup_empty |].
    intros mi _. destruct (bool_decide (bi_userId mi = u)) eqn:Hmi; [| reflexivity].
    apply bool_decide_eq_true in Hmi. simpl. apply bool_decide_eq_false.
    rewrite Hmi. exact Hu.
  - intros m b Hm. unfold Spec.interacted.
    rewrite mutualInteractionsOf_default, (bool_decide_true _ Hm).
    unfold interactionsOf. rewrite list_elem_of_fmap. split.
    + intros (mi & -> & Hmi). apply Mutuals.elem_of_filter_bool in Hmi as [Hin Hu].
      apply bool_decide_eq_true in Hu. eauto.
    + intros (mi & Hin & Hu & Hb). exists mi. split; [auto |].
      apply Mutuals.elem_of_filter_bool. split; [exact Hin |].
      apply bool_decide_eq_true, Hu.
Qed.

(** What the service returns on a list of bounties. *)
Lemma getRecommendations_picks input allBounties bountyTagMap mutualInteractions :
  let accessible := filterByAccessTier allBounties (accessTier (userProfile input)) in
  let allScored := map (scoreBounty input bountyTagMap mutualInteractions) accessible in
  (accessible = [] ->
   getRecommendations input allBounties bountyTagMap mutualInteractions
   = Throw "No bounties available for recommendations") /\
  (accessible <> [] ->
   exists out,
     getRecommendations input allBounties bountyTagMap mutualInteractions = Ok out /\
     primary out ∈ allScored /\ secondary out ∈ allScored /\
     finalScore (secondary out) <= finalScore (primary out)).
Proof.
  intros accessible allScored.
  rewrite Ranking.getRecommendations_cases. cbv zeta. fold accessible. fold allScored.
  split.
  - intros Hnil. subst allScored. rewrite Hnil. reflexivity.
  - intros Hne.
    assert (allScored <> []) as Hne' by (subst allScored; destruct accessible; simpl; congruence).
    destruct (sortByFinalScore (List.filter passesRelevance allScored)) as [| p rest] eqn:Hf.
    + destruct (sortByFinalScore allScored) as [| f rest] eqn:Hs.
      * apply (proj1 (Ranking.sortByFinalScore_nil _)) in Hs. contradiction.
      * eexists. split; [reflexivity |]. simpl.
        destruct (RankingMore.picks_from_sorted _ _ _ Hs)
          as ((before & after & Heq & _ & _) & Hsec & Hle).
        split; [rewrite Heq; apply elem_of_app; right; left |]. split; assumption.
    + eexists. split; [reflexivity |]. simpl.
      destruct (RankingMore.picks_from_sorted _ _ _ Hf)
        as ((before & after & Heq & _ & _) & Hsec & Hle).
      assert (forall sb, sb ∈ List.filter passesRelevance allScored -> sb ∈ allScored) as Hsub.
      { intros sb Hsb. apply Mutuals.elem_of_filter_bool in Hsb. tauto. }
      split; [apply Hsub; rewrite Heq; apply elem_of_app; right; left |].
      split; [apply Hsub, Hsec | exact Hle].
Qed.

Lemma filter_nil_length {A : Type} (l : list A) : (length l =? 0)%nat = true <-> l = [].
Proof. destruct l; simpl; split; intros; congruence. Qed.

(** X19: the outcomes of the [getRecommendations] procedure. It fails with
    the profile message when the user has no profile row, with "No open
    bounties available" when no bounty is open, and with the service's
    message when no open bounty is within the user's access tier; in every
    other case it succeeds. On success both returned bounties are open
    bounties of the table within the user's tier, each carries the scores of
    [scoreBounty] (its relevance computed from the user's named tags and the
    bounty's own [bounty_tag] rows) and its tag names, the secondary never
    scores higher than the primary, and exactly one row is appended to
    [recommendation_log], holding the user, the two bounty ids, their final
    scores and their score breakdowns; no other table changes. *)
Theorem getRecommendationsProcedure_outcome (st : Store) (userId : string) :
  let openBounties := List.filter isOpen (bountyTable (core st)) in
  match List.find (isProfileRow userId) (userProfileTable st) with
  | None =>
      getRecommendationsProcedure st userId
      = Throw "User profile not found. Please complete your profile setup."
  | Some profile =>
      let accessible := filterByAccessTier openBounties (upr_accessTier profile) in
      let input := inputOf st userId profile in
      let scored :=
        scoreBounty input (bountyTagMapOf (bountyTagTable (core st)))
          (mutualInteractionsOf st (map mutualId (mutuals input))) in
      (openBounties = [] ->
       getRecommendationsProcedure st userId = Throw "No open bounties available") /\
      (openBounties <> [] -> accessible = [] ->
       getRecommendationsProcedure st userId
       = Throw "No bounties available for recommendations") /\
      (accessible <> [] ->
       exists resp st',
         getRecommendationsProcedure st userId = Ok (resp, st') /\
         Forall (fun card =>
                   card_bounty card ∈ bountyTable (core st) /\
                   status (card_bounty card) = open /\
                   (tierOrder (tier (card_bounty card))
                    <= tierOrder (upr_accessTier profile))%Z /\
                   card_scores card = scoresOf (scored (card_bounty card)) /\
                   sc_relevance (card_scores card)
                   = computeRelevanceScore (userTagsWithNames st userId)
                       (tagsOfBounty (core st) (id (card_bounty card))) /\
                   card_tags card = getBountyTagNames st (id (card_bounty card)))
           [rec_primary resp; rec_secondary resp] /\
         sc_final (card_scores (rec_secondary resp))
           <= sc_final (card_scores (rec_primary resp)) /\
         rec_userProfile resp = summaryOf profile /\
         st' = withLog st
                 (recommendationLogTable st ++
                    [{| rl_userId := userId;
                        primaryBountyId := id (card_bounty (rec_primary resp));
                        secondaryBountyId := id (card_bounty (rec_secondary resp));
                        primaryScore := sc_final (card_scores (rec_primary resp));
                        secondaryScore := sc_final (card_scores (rec_secondary resp));
                        reasonPrimary :=
                          {| reason_relevance := sc_relevance (card_scores (rec_primary resp));
                             reason_social := sc_social (card_scores (rec_primary resp));
                             reason_price := sc_price (card_scores (rec_primary resp)) |};
                        reasonSecondary :=
                          {| reason_relevance :=
                               sc_relevance (card_scores (rec_secondary resp));
                             reason_social := sc_social (card_scores (rec_secondary resp));
                             reason_price :=
                               sc_price (card_scores (rec_secondary resp)) |} |}]))
  end.
Proof.
  cbv zeta. unfold getRecommendationsProcedure.
  destruct (List.find (isProfileRow userId) (userProfileTable st)) as [profile |];
    [| reflexivity].
  cbv zeta.
  set (openBounties := List.filter isOpen (bountyTable (core st))).
  set (input := inputOf st userId profile).
  set (btm := bountyTagMapOf (bountyTagTable (core st))).
  change (getMutualsThreeLayers (core st) userId) with (mutuals input).
  set (mi := mutualInteractionsOf st (map mutualId (mutuals input))).
  destruct (getRecommendations_picks input openBounties btm mi) as [Hthrow Hok].
  cbv zeta in Hthrow, Hok.
  change (accessTier (userProfile input)) with (upr_accessTier profile) in Hthrow, Hok.
  split; [| split].
  - intros Hnil. rewrite Hnil. reflexivity.
  - intros Hne Hacc.
    destruct (length openBounties =? 0)%nat eqn:Hlen.
    + apply filter_nil_length in Hlen. contradiction.
    + rewrite (Hthrow Hacc). reflexivity.
  - intros Hacc.
    destruct (length openBounties =? 0)%nat eqn:Hlen.
    { apply filter_nil_length in Hlen. exfalso. apply Hacc. rewrite Hlen. reflexivity. }
    destruct (Hok Hacc) as (out & -> & Hp & Hs & Hle).
    eexists. eexists. split; [reflexivity |].
    assert (forall sb,
              sb ∈ map (scoreBounty input btm mi)
                     (filterByAccessTier openBounties (upr_accessTier profile)) ->
              bounty sb ∈ bountyTable (core st) /\
              status (bounty sb) = open /\
              (tierOrder (tier (bounty sb)) <= tierOrder (upr_accessTier profile))%Z /\
              scoresOf sb = scoresOf (scoreBounty input btm mi (bounty sb)) /\
              relevanceScore sb
              = computeRelevanceScore (userTagsWithNames st userId)
                  (tagsOfBounty (core st) (id (bounty sb)))) as Hcard.
    { intros sb Hsb. apply list_elem_of_fmap in Hsb as (b & -> & Hb).
      apply TierFilter.elem_of_filterByAccessTier in Hb as [Hb Ht].
      apply Mutuals.elem_of_filter_bool in Hb as [Hb Hopen].
      cbn [bounty scoreBounty].
      split; [exact Hb |]. split.
      { unfold isOpen in Hopen. destruct (status b); congruence. }
      split; [exact Ht |]. split; [reflexivity |].
      change (relevanceScore (scoreBounty input btm mi b))
        with (computeRelevanceScore (userTags input) (default [] (btm !! id b))).
      subst btm. rewrite bountyTagMapOf_default. reflexivity. }
    split.
    + constructor; [| constructor; [| constructor]].
      * destruct (Hcard _ Hp) as (H1 & H2 & H3 & H4 & H5).
        cbn [card_bounty card_scores card_tags sc_relevance scoresOf].
        repeat split; assumption || reflexivity.
      * destruct (Hcard _ Hs) as (H1 & H2 & H3 & H4 & H5).
        cbn [card_bounty card_scores card_tags sc_relevance scoresOf].
        repeat split; assumption || reflexivity.
    + split; [exact Hle |]. split; reflexivity.
Qed.

End ProcedureFacts.


(** ** Sorting with a comparator *)

Module ArraySortFacts.
Import ArraySort.

Lemma insertWith_perm {A : Type} (cmp : A -> A -> Q) (x : A) (l : list A) :
  insertWith cmp x l ≡ₚ x :: l.
Proof.
  induction l as [| y l IH]; simpl; [reflexivity |].
  destruct (Qgtb (cmp x y) 0); [| reflexivity].
  rewrite IH. apply perm_swap.
Qed.

Lemma sortWith_perm {A : Type} (cmp : A -> A -> Q) (l : list A) : sortWith cmp l ≡ₚ l.
Proof.
  unfold sortWith. induction l as [| x l IH]; simpl; [reflexivity |].
  rewrite insertWith_perm, IH. reflexivity.
Qed.

Lemma insertWith_sorted {A : Type} (cmp : A -> A -> Q) (key : A -> Q) (x : A)
    (l : list A) :
  (forall a b, cmp a b == key b - key a) ->
  StronglySorted (fun a b => key b <= key a) l ->
  StronglySorted (fun a b => key b <= key a) (insertWith cmp x l).
Proof.
  intros Hcmp. induction 1 as [| y l Hs IH Hy]; simpl.
  - repeat constructor.
  - destruct (Qgtb (cmp x y) 0) eqn:Hgt.
    + apply Qgtb_gt in Hgt. rewrite Hcmp in Hgt.
      constructor; [exact IH |].
      apply Forall_forall. intros z Hz.
      rewrite insertWith_perm in Hz. apply elem_of_cons in Hz as [-> | Hz].
      * lra.
      * apply (proj1 (Forall_forall _ _) Hy), Hz.
    + apply Qgtb_le in Hgt. rewrite Hcmp in Hgt.
      constructor; [constructor; assumption |].
      constructor; [lra |].
      apply Forall_forall. intros z Hz.
      pose proof (proj1 (Forall_forall _ _) Hy z Hz) as Hyz. simpl in Hyz. lra.
Qed.

Lemma sortWith_sorted {A : Type} (cmp : A -> A -> Q) (key : A -> Q) (l : list A) :
  (forall a b, cmp a b == key b - key a) ->
  StronglySorted (fun a b => key b <= key a) (sortWith cmp l).
Proof.
  intros Hcmp. unfold sortWith. induction l as [| x l IH]; simpl.
  - constructor.
  - apply (insertWith_sorted cmp key); assumption.
Qed.

Lemma sorted_sublist {A : Type} (R : A -> A -> Prop) (l l' : list A) :
  l' `sublist_of` l -> StronglySorted R l -> StronglySorted R l'.
Proof.
  induction 1 as [| x l1 l2 Hsub IH | x l1 l2 Hsub IH]; intros Hs.
  - constructor.
  - apply StronglySorted_inv in Hs as [Hs Hx]. constructor; [apply IH, Hs |].
    apply Forall_forall. intros y Hy.
    apply (proj1 (Forall_forall _ _) Hx). apply (sublist_subseteq _ _ Hsub), Hy.
  - apply StronglySorted_inv in Hs as [Hs _]. apply IH, Hs.
Qed.

Lemma sorted_map {A B : Type} (R : A -> A -> Prop) (R' : B -> B -> Prop)
    (f : A -> B) (l : list A) :
  (forall a b, R a b -> R' (f a) (f b)) ->
  StronglySorted R l -> StronglySorted R' (map f l).
Proof.
  intros Hf. induction 1 as [| x l Hs IH Hx]; simpl; constructor; [exact IH |].
  apply Forall_forall. intros y Hy.
  apply list_elem_of_fmap in Hy as (a & -> & Ha).
  apply Hf. apply (proj1 (Forall_forall _ _) Hx), Ha.
Qed.

End ArraySortFacts.


(** ** The bounty feed *)

Module FeedFacts.
Import Recommendation Schema Behavior Router Alerts TagMatch Endpoints EndpointSpec.
Import ArraySort ArraySortFacts FeedProcedure FeedSpec.

(** The two maps of the feed are filled side by side. *)
Lemma feedTagStep_loop (rows : list (Z * NamedBountyTag))
    (m : gmap Z (list BountyTag)) (n : gmap Z (list NamedBountyTag)) :
  (forall k, is_Some (m !! k) <-> is_Some (n !! k)) ->
  fold_left feedTagStep rows (m, n)
  = (fold_left (fun m bt => pushTo m bt.1 (withoutName bt.2)) rows m,
     fold_left (fun n bt => pushTo n bt.1 bt.2) rows n).
Proof.
  revert m n. induction rows as [| bt rows IH]; intros m n Hdom; simpl; [reflexivity |].
  assert (feedTagStep (m, n) bt = (pushTo m bt.1 (withoutName bt.2), pushTo n bt.1 bt.2))
    as ->.
  { unfold feedTagStep, pushTo. cbn [fst snd].
    rewrite (bool_decide_ext _ _ (Hdom bt.1)).
    destruct (bool_decide (is_Some (n !! bt.1))); reflexivity. }
  apply IH. intros k. rewrite !ProcedureFacts.pushTo_lookup.
  destruct (decide (bt.1 = k)); [| apply Hdom].
  split; intros _; eauto.
Qed.

Lemma feed_maps (st : Store) (b : Z) :
  let maps := fold_left feedTagStep (bountyTagsWithNames st) (∅, ∅) in
  default [] (maps.2 !! b) = namedTagsOf st b /\
  default [] (maps.1 !! b) = map withoutName (namedTagsOf st b).
Proof.
  cbv zeta. rewrite feedTagStep_loop.
  - cbn [fst snd]. unfold namedTagsOf. split.
    + apply (ProcedureFacts.group_default fst snd).
    + rewrite (ProcedureFacts.group_default fst (fun bt => withoutName bt.2)).
      rewrite map_map. reflexivity.
  - intros k. rewrite !lookup_empty. split; intros [? H]; discriminate H.
Qed.

Lemma comparator_key (s : SortBy) (a b : ScoredBounty) :
  comparator s a b == scoredKey s b - scoredKey s a.
Proof. destruct s; simpl; ring. Qed.

Lemma filter_map_bool {A B : Type} (f : A -> B) (p : B -> bool) (l : list A) :
  List.filter p (map f l) = map f (List.filter (fun x => p (f x)) l).
Proof.
  induction l as [| x l IH]; simpl; [reflexivity |].
  destruct (p (f x)); simpl; rewrite IH; reflexivity.
Qed.

Lemma existsb_map {A B : Type} (f : A -> B) (p : B -> bool) (l : list A) :
  existsb p (map f l) = existsb (fun x => p (f x)) l.
Proof.
  induction l as [| x l IH]; simpl; [reflexivity |]. rewrite IH. reflexivity.
Qed.

(** The candidates of the feed are the scored [listed] bounties, in table
    order. *)
Lemma feedCandidates_listed (st : Store) (userId : string) (profile : UserProfileRow)
    (i : FeedInput) :
  exists bountyTagMap mutualInteractions,
    (forall b, default [] (bountyTagMap !! b) = map withoutName (namedTagsOf st b)) /\
    (feedCandidates st userId profile i).1
    = map (scoreBounty (inputOf st userId profile) bountyTagMap mutualInteractions)
        (List.filter (listed st userId profile i) (bountyTable (core st))) /\
    forall b, default [] ((feedCandidates st userId profile i).2 !! b) = namedTagsOf st b.
Proof.
  unfold feedCandidates. cbv zeta. cbn [fst snd].
  set (maps := fold_left feedTagStep (bountyTagsWithNames st) (∅, ∅)).
  set (mi := mutualInteractionsOf st _).
  exists maps.1, mi.
  assert (forall b, default [] (maps.1 !! b) = map withoutName (namedTagsOf st b)) as Hm1
    by (intros b; apply feed_maps).
  split; [exact Hm1 |]. split; [| intros b; apply feed_maps].
  unfold scoreAllBounties. cbv zeta.
  rewrite filter_map_bool. f_equal.
  unfold filterByAccessTier. cbv zeta.
  change (accessTier (userProfile (inputOf st userId profile)))
    with (upr_accessTier profile).
  assert (forall (f : option (list Tier)) (l : list BountyData),
            match f with
            | Some tiers =>
                if (0 <? length tiers)%nat
                then List.filter (fun b => bool_decide (tier b ∈ tiers)) l
                else l
            | None => l
            end
            = List.filter
                (fun b => passesFilter f (fun tiers => bool_decide (tier b ∈ tiers))) l)
    as Htier.
  { intros f l. unfold passesFilter. destruct f as [tiers |].
    - destruct (0 <? length tiers)%nat; [reflexivity |].
      symmetry. apply forallb_filter_id. apply forallb_forall. reflexivity.
    - symmetry. apply forallb_filter_id. apply forallb_forall. reflexivity. }
  assert (forall (f : option (list Z)) (l : list BountyData),
            match f with
            | Some tagIds =>
                if (0 <? length tagIds)%nat
                then List.filter
                       (fun b => existsb (fun t => bool_decide (bt_tagId t ∈ tagIds))
                                   (default [] (maps.1 !! id b))) l
                else l
            | None => l
            end
            = List.filter
                (fun b => passesFilter f
                            (fun tagIds =>
                               existsb (fun t => bool_decide (nbt_tagId t ∈ tagIds))
                                 (namedTagsOf st (id b)))) l)
    as Htag.
  { intros f l. unfold passesFilter. destruct f as [tagIds |].
    - destruct (0 <? length tagIds)%nat.
      + apply ProcedureFacts.filter_ext_bool. intros b.
        rewrite Hm1, existsb_map. reflexivity.
      + symmetry. apply forallb_filter_id. apply forallb_forall. reflexivity.
    - symmetry. apply forallb_filter_id. apply forallb_forall. reflexivity. }
  rewrite Htier, Htag.
  rewrite !ProcedureFacts.filter_filter_bool.
  apply ProcedureFacts.filter_ext_bool. intros b.
  unfold listed, passesRelevance, MIN_RELEVANCE_THRESHOLD.
  change (relevanceScore (scoreBounty (inputOf st userId profile) maps.1 mi b))
    with (computeRelevanceScore (userTagsWithNames st userId)
            (default [] (maps.1 !! id b))).
  rewrite Hm1.
  destruct (isOpen b), (passesFilter (tierFilter i) _), (passesFilter (tagFilter i) _),
    (tierOrder (tier b) <=? tierOrder (upr_accessTier profile))%Z, (Qgeb _ 3.0);
    reflexivity.
Qed.

Lemma page_sublist {A : Type} (l : list A) (o n : nat) :
  take n (drop o l) `sublist_of` l.
Proof. transitivity (drop o l); [apply sublist_take | apply sublist_drop]. Qed.

Lemma sumProducts_no_tags (B : list BountyTag) : Spec.sumProducts [] B == 0.
Proof.
  induction B as [| bt B IH]; [reflexivity |].
  change (Spec.sumProducts [] (bt :: B))
    with (Spec.userScoreOf [] (bt_tagId bt) * weight bt + Spec.sumProducts [] B).
  rewrite IH.
  assert (Spec.userScoreOf [] (bt_tagId bt) = 0) as -> by reflexivity.
  ring.
Qed.

(** Without named tags no bounty is relevant. *)
Lemma computeRelevanceScore_no_tags (B : list BountyTag) :
  computeRelevanceScore [] B == 0.
Proof.
  destruct (Relevance.computeRelevanceScore_sums [] B) as [Hpos Hzero].
  destruct (Qlt_le_dec 0 (Spec.sumWeights B)) as [Hlt | Hle]; [| apply Hzero, Hle].
  rewrite (Hpos Hlt), sumProducts_no_tags. unfold Qdiv. ring.
Qed.

Lemma feedItem_fields st userId profile names sb :
  item_bounty (feedItem st userId profile names sb) = bounty sb /\
  item_scores (feedItem st userId profile names sb) = scoresOf sb.
Proof. split; reflexivity. Qed.

(** X20: what [getBountyFeed] lists. It fails only when the user has no
    profile row. Otherwise the total is the number of bounties that are open,
    pass the tier filter and the tag filter (an absent or empty filter lets
    everything through), are within the user's access tier and have a
    relevance of at least 3.0 for the user: the relevance filter of
    [scoreAllBounties] is on, so the feed is not the full list of accessible
    bounties, and a user without named tags gets an empty feed. Every entry
    is such a bounty of the table, with the relevance computed from its own
    named tags, its tag names and its tag match details; the first page,
    when it is large enough, lists every such bounty exactly as often as the
    table does. *)
Theorem getBountyFeed_listing (st : Store) (userId : string) (input : option FeedInput) :
  let i := default defaultFeedInput input in
  match List.find (isProfileRow userId) (userProfileTable st) with
  | None =>
      getBountyFeed st userId input
      = Throw "User profile not found. Please complete your profile setup."
  | Some profile =>
      let listing := List.filter (listed st userId profile i) (bountyTable (core st)) in
      exists feed,
        getBountyFeed st userId input = Ok feed /\
        pg_total (feed_pagination feed) = length listing /\
        (forall x, x ∈ feed_bounties feed ->
           item_bounty x ∈ listing /\
           sc_relevance (item_scores x)
           = computeRelevanceScore (userTagsWithNames st userId)
               (map withoutName (namedTagsOf st (id (item_bounty x)))) /\
           3.0 <= sc_relevance (item_scores x) /\
           item_tags x
           = map (fun t => (nbt_tagName t, nbt_weight t))
               (namedTagsOf st (id (item_bounty x))) /\
           tagMatches (item_debug x)
           = getTagMatchDetails (userTagsWithNames st userId)
               (namedTagsOf st (id (item_bounty x)))) /\
        (userTagsWithNames st userId = [] ->
         feed_bounties feed = [] /\ pg_total (feed_pagination feed) = 0%nat) /\
        (offset i = 0%nat -> (length listing <= limit i)%nat ->
         map item_bounty (feed_bounties feed) ≡ₚ listing)
  end.
Proof.
  cbv zeta. unfold getBountyFeed. cbv zeta.
  set (i := default defaultFeedInput input).
  destruct (List.find (isProfileRow userId) (userProfileTable st)) as [profile |];
    [| reflexivity].
  destruct (feedCandidates_listed st userId profile i) as (btm & mi & Hm1 & Hc & Hn).
  set (listing := List.filter (listed st userId profile i) (bountyTable (core st))) in *.
  set (names := (feedCandidates st userId profile i).2) in *.
  rewrite Hc.
  set (scored := scoreBounty (inputOf st userId profile) btm mi) in *.
  set (sorted := sortWith (comparator (sortBy i)) (map scored listing)).
  assert (sorted ≡ₚ map scored listing) as Hperm by apply sortWith_perm.
  assert (length sorted = length listing) as Hlen
    by (rewrite Hperm; apply length_map).
  eexists. split; [reflexivity |].
  cbn [feed_bounties feed_pagination pg_total].
  split; [exact Hlen |]. split; [| split].
  - intros x Hx. apply list_elem_of_fmap in Hx as (sb & -> & Hsb).
    apply (sublist_subseteq _ _ (page_sublist sorted (offset i) (limit i))) in Hsb.
    rewrite Hperm in Hsb. apply list_elem_of_fmap in Hsb as (b & -> & Hb).
    assert (relevanceScore (scored b)
            = computeRelevanceScore (userTagsWithNames st userId)
                (map withoutName (namedTagsOf st (id b)))) as Hrel.
    { subst scored.
      change (relevanceScore (scoreBounty (inputOf st userId profile) btm mi b))
        with (computeRelevanceScore (userTagsWithNames st userId)
                (default [] (btm !! id b))).
      rewrite Hm1. reflexivity. }
    cbn [item_bounty item_scores item_tags item_debug tagMatches feedItem bounty
         scoresOf sc_relevance].
    change (bounty (scored b)) with b.
    split; [exact Hb |]. split; [exact Hrel |]. split.
    + rewrite Hrel. subst listing.
      apply Mutuals.elem_of_filter_bool in Hb as [_ Hl].
      unfold listed in Hl. apply andb_true_iff in Hl as [_ Hq].
      apply Qgeb_ge in Hq. exact Hq.
    + subst names. rewrite Hn. split; reflexivity.
  - intros Hno.
    assert (listing = []) as Hnil.
    { subst listing. apply Ranking.filter_none. intros b _.
      unfold listed. rewrite Hno.
      assert (Qgeb (computeRelevanceScore [] (map withoutName (namedTagsOf st (id b)))) 3.0
              = false) as ->.
      { apply Qgeb_lt. rewrite computeRelevanceScore_no_tags. reflexivity. }
      apply andb_false_r. }
    subst sorted. rewrite Hnil. simpl. rewrite drop_nil, take_nil. split; reflexivity.
  - intros Ho Hl. rewrite Ho, drop_0, take_ge by (rewrite Hlen; exact Hl).
    rewrite map_map.
    rewrite (map_ext (fun sb => item_bounty (feedItem st userId profile names sb)) bounty)
      by reflexivity.
    rewrite Hperm. subst scored. rewrite RankingMore.bounty_scoreBounty. reflexivity.
Qed.

(** X21: the pages of the feed. A page holds at most [limit] entries, as
    many as remain from [offset]; the total does not depend on the page;
    [hasMore] says exactly that entries remain after the page, and when it is
    false the next page is empty; consecutive pages concatenate to the larger
    page, so paging through the feed shows each entry once and in order; and
    every page is ordered by the chosen key: final score, price, engagement
    or creation time, larger first, or price smaller first for
    [price_low]. *)
Theorem getBountyFeed_pages (st : Store) (userId : string) (i : FeedInput)
    (o l l' : nat) :
  let answer := fun o l => getBountyFeed st userId (page i o l) in
  length (bountiesOf (answer o l)) = Nat.min l (totalOf (answer o l) - o) /\
  totalOf (answer o l) = totalOf (answer 0%nat 0%nat) /\
  bountiesOf (answer o l) ++ bountiesOf (answer (o + l)%nat l')
    = bountiesOf (answer o (l + l')%nat) /\
  StronglySorted (fun x y => sortKey (sortBy i) y <= sortKey (sortBy i) x)
    (bountiesOf (answer o l)) /\
  (forall feed, answer o l = Ok feed ->
     (hasMore (feed_pagination feed) = true
      <-> (o + l < pg_total (feed_pagination feed))%nat) /\
     (hasMore (feed_pagination feed) = false ->
      bountiesOf (answer (o + l)%nat l') = [])).
Proof.
  cbv zeta. unfold getBountyFeed, page. cbv zeta.
  cbn [default]. unfold Datatypes.id. cbn [offset limit sortBy].
  destruct (List.find (isProfileRow userId) (userProfileTable st)) as [profile |].
  2:{ cbn [bountiesOf totalOf]. rewrite Nat.min_0_r.
      repeat split; try reflexivity; try constructor; intros; discriminate. }
  cbn [bountiesOf totalOf feed_bounties feed_pagination pg_total].
  assert (forall o l,
            feedCandidates st userId profile
              {| sortBy := sortBy i; tierFilter := tierFilter i;
                 tagFilter := tagFilter i; limit := l; offset := o |}
            = feedCandidates st userId profile i) as Hc by reflexivity.
  rewrite !Hc.
  set (names := (feedCandidates st userId profile i).2).
  set (sorted := sortWith (comparator (sortBy i)) (feedCandidates st userId profile i).1).
  split; [rewrite length_map, length_take, length_drop; reflexivity |].
  split; [reflexivity |]. split; [| split].
  - rewrite <- map_app. f_equal.
    rewrite <- drop_drop. apply take_take_drop.
  - apply (sorted_map (fun a b => scoredKey (sortBy i) b <= scoredKey (sortBy i) a)).
    + intros a b Hab. destruct (sortBy i); exact Hab.
    + apply (sorted_sublist _ sorted); [apply page_sublist |].
      apply sortWith_sorted. apply comparator_key.
  - intros feed [= <-]. cbn [feed_pagination hasMore pg_total]. split.
    + apply Nat.ltb_lt.
    + intros Hno. apply Nat.ltb_ge in Hno.
      rewrite drop_ge by exact Hno. rewrite take_nil. reflexivity.
Qed.

End FeedFacts.


(** ** The mutations of the recommendation router *)

Module MutationFacts.
Import Recommendation Schema Behavior Router Alerts Endpoints Mutations MutationSpec.

(** [trackBehavior] writes behavior tables only. *)
Lemma trackBehavior_static (db : DB) (userId : string) (bountyId : Z)
    (t : InteractionType) :
  let db' := trackBehavior db userId bountyId t in
  bountyTable db' = bountyTable db /\ bountyTagTable db' = bountyTagTable db /\
  userTagTable db' = userTagTable db /\ mutualTable db' = mutualTable db.
Proof.
  cbv zeta. unfold trackBehavior.
  destruct (List.find _ (bountyTable db)) as [bountyData |]; [| repeat split].
  set (tags := map btr_tagId _).
  destruct (BehaviorFrame.updateTagBehavior_loop_frame userId t tags db)
    as (H1 & H2 & H3 & H4 & _). cbv zeta in *.
  set (db1 := fold_left _ tags db) in *.
  destruct (BehaviorFrame.updatePriceBehavior_static db1 userId
              (Recommendation.price bountyData) t) as (P1 & P2 & P3 & P4 & _).
  cbv zeta in *.
  set (db2 := updatePriceBehavior db1 userId _ t) in *.
  destruct (BehaviorFrame.updateBlendConfig_static db2 userId) as (C1 & C2 & C3 & C4 & _).
  cbv zeta in *.
  set (db3 := updateBlendConfig db2 userId) in *.
  unfold checkDivergence. simpl. repeat split; congruence.
Qed.

Lemma updateMetrics_raised (type : RecordedType) (bountyId : Z) (now : Z)
    (rows : list BountyData) :
  Forall2
    (fun b b' => raisedBy (if (id b =? bountyId)%Z then increments type
                           else (0%Z, 0%Z, 0%Z)) b b')
    rows (updateMetrics type bountyId now rows).
Proof.
  assert (forall b, raisedBy (0%Z, 0%Z, 0%Z) b b) as Hsame.
  { intros b. unfold raisedBy. simpl. rewrite !Z.add_0_r. repeat split. }
  assert (forall f : BountyData -> BountyData,
            (forall b, raisedBy (increments type) b (f b)) ->
            Forall2
              (fun b b' => raisedBy (if (id b =? bountyId)%Z then increments type
                                     else (0%Z, 0%Z, 0%Z)) b b')
              rows (updateWhere (isBounty bountyId) f rows)) as Hupd.
  { intros f Hf. unfold updateWhere, isBounty.
    induction rows as [| b rows IH]; simpl; constructor; [| exact IH].
    destruct (id b =? bountyId)%Z; [apply Hf | apply Hsame]. }
  destruct type; simpl updateMetrics.
  - apply Hupd. intros b. unfold raisedBy. simpl. rewrite !Z.add_0_r. repeat split.
  - apply Hupd. intros b. unfold raisedBy. simpl. rewrite !Z.add_0_r. repeat split.
  - apply Hupd. intros b. unfold raisedBy. simpl. rewrite !Z.add_0_r. repeat split.
  - clear Hupd. induction rows as [| b rows IH]; [constructor |].
    constructor; [| exact IH].
    simpl. destruct (id b =? bountyId)%Z; apply Hsame.
  - clear Hupd. induction rows as [| b rows IH]; [constructor |].
    constructor; [| exact IH].
    simpl. destruct (id b =? bountyId)%Z; apply Hsame.
Qed.

Lemma recordInteraction_tables (st : Store) (userId : string) (bountyId : Z)
    (type : RecordedType) (now : Z) :
  let st' := (recordInteraction st userId bountyId type now).1 in
  let db1 :=
    match trackableType type with
    | Some t => trackBehavior (core st) userId bountyId t
    | None => core st
    end in
  bountyInteractionTable st'
  = bountyInteractionTable st ++
      [{| bi_userId := userId; bi_bountyId := bountyId; bi_type := type |}] /\
  bountyTable (core st') = updateMetrics type bountyId now (bountyTable (core st)) /\
  userBehaviorTagTable (core st') = userBehaviorTagTable db1 /\
  userBehaviorPriceTable (core st') = userBehaviorPriceTable db1 /\
  userBlendConfigTable (core st') = userBlendConfigTable db1 /\
  userTagTable (core st') = userTagTable (core st) /\
  tagTable st' = tagTable st /\
  recommendationLogTable st' = recommendationLogTable st.
Proof.
  cbv zeta. unfold recordInteraction. cbv zeta.
  destruct (trackableType type) as [t |]; cbn -[trackBehavior updateMetrics];
    [| repeat split].
  destruct (trackBehavior_static (core st) userId bountyId t) as (H1 & H2 & H3 & H4).
  cbv zeta in *. rewrite H1, H3. repeat split.
Qed.

(** X22: what [recordInteraction] does, for an interaction with a bounty of
    the table (the foreign key of [bounty_interaction] admits no other). With
    [k] interactions of the user recorded before, it appends
    one interaction row, returns min(2 (k + 1), 100) as the new engagement
    score, a value between 2 and 100, and stores it together with the total
    k + 1 in every profile row of the user, leaving the profiles of other
    users alone. In [bounty] only the counters of the interaction's bounty
    move: views for a view, likes for a like, submissions for a submit, each
    by one, and nothing for a claim or a complete. A claim leaves the
    behavior tables untouched; every other type updates them as
    [trackBehavior] does. *)
Theorem recordInteraction_effect (st : Store) (userId : string) (bountyId : Z)
    (type : RecordedType) (now : Z) :
  bountyId ∈ map id (bountyTable (core st)) ->
  let k := interactionsRecorded st userId in
  let st' := (recordInteraction st userId bountyId type now).1 in
  let score := (recordInteraction st userId bountyId type now).2 in
  score = Z.min (2 * (k + 1)) 100 /\
  (2 <= score <= 100)%Z /\
  interactionsRecorded st' userId = (k + 1)%Z /\
  (forall p, p ∈ userProfileTable st' -> upr_userId p = userId ->
     upr_totalInteractions p = (k + 1)%Z /\ upr_engagementScore p = inject_Z score) /\
  (forall p, upr_userId p <> userId ->
     p ∈ userProfileTable st' <-> p ∈ userProfileTable st) /\
  Forall2
    (fun b b' => raisedBy (if (id b =? bountyId)%Z then increments type
                           else (0%Z, 0%Z, 0%Z)) b b')
    (bountyTable (core st)) (bountyTable (core st')) /\
  match trackableType type with
  | Some t =>
      userBehaviorTagTable (core st')
        = userBehaviorTagTable (trackBehavior (core st) userId bountyId t) /\
      userBehaviorPriceTable (core st')
        = userBehaviorPriceTable (trackBehavior (core st) userId bountyId t) /\
      userBlendConfigTable (core st')
        = userBlendConfigTable (trackBehavior (core st) userId bountyId t)
  | None =>
      type = rec_claim /\
      userBehaviorTagTable (core st') = userBehaviorTagTable (core st) /\
      userBehaviorPriceTable (core st') = userBehaviorPriceTable (core st) /\
      userBlendConfigTable (core st') = userBlendConfigTable (core st)
  end.
Proof.
  intros _. cbv zeta.
  destruct (recordInteraction_tables st userId bountyId type now)
    as (Hi & Hb & Ht & Hp & Hc & _). cbv zeta in *.
  assert (interactionsRecorded (recordInteraction st userId bountyId type now).1 userId
          = (interactionsRecorded st userId + 1)%Z) as Hcount.
  { unfold interactionsRecorded. rewrite Hi, List.filter_app, length_app. simpl.
    rewrite bool_decide_true by reflexivity. simpl. lia. }
  assert (forall st2,
            bountyInteractionTable st2
            = bountyInteractionTable st ++
                [{| bi_userId := userId; bi_bountyId := bountyId; bi_type := type |}] ->
            Z.of_nat
              (length (List.filter (fun mi => bool_decide (bi_userId mi = userId))
                         (bountyInteractionTable st2)))
            = (interactionsRecorded st userId + 1)%Z) as Hst2.
  { intros st2 ->. unfold interactionsRecorded.
    rewrite List.filter_app, length_app. simpl.
    rewrite bool_decide_true by reflexivity. simpl. lia. }
  assert ((recordInteraction st userId bountyId type now).2
          = Z.min (2 * (interactionsRecorded st userId + 1)) 100) as Hscore.
  { unfold recordInteraction. cbv zeta. cbn [snd].
    rewrite Hst2 by (destruct (trackableType type); reflexivity).
    f_equal. lia. }
  assert (0 <= interactionsRecorded st userId)%Z as Hk
    by (unfold interactionsRecorded; lia).
  split; [exact Hscore |]. split; [rewrite Hscore; lia |].
  split; [exact Hcount |].
  assert (userProfileTable (recordInteraction st userId bountyId type now).1
          = updateWhere (isProfileRow userId)
              (setEngagement (interactionsRecorded st userId + 1)
                 (inject_Z (recordInteraction st userId bountyId type now).2))
              (userProfileTable st)) as Hprof.
  { rewrite Hscore. unfold recordInteraction. cbv zeta.
    cbn [fst userProfileTable withCore withProfiles].
    rewrite Hst2 by (destruct (trackableType type); reflexivity).
    replace (Z.min ((interactionsRecorded st userId + 1) * 2) 100)
      with (Z.min (2 * (interactionsRecorded st userId + 1)) 100) by (f_equal; lia).
    destruct (trackableType type); reflexivity. }
  split; [| split; [| split]].
  - intros p Hin Hu. rewrite Hprof in Hin.
    apply Blend.elem_of_updateWhere in Hin as (p0 & _ & ->).
    unfold isProfileRow in *.
    destruct (bool_decide (upr_userId p0 = userId)) eqn:Hd; [split; reflexivity |].
    apply bool_decide_eq_false in Hd. contradiction.
  - intros p Hu. rewrite Hprof, Blend.elem_of_updateWhere. unfold isProfileRow. split.
    + intros (p0 & Hin & ->).
      destruct (bool_decide (upr_userId p0 = userId)) eqn:Hd; [| exact Hin].
      apply bool_decide_eq_true in Hd. simpl in Hu. contradiction.
    + intros Hin. exists p. split; [exact Hin |].
      rewrite bool_decide_false by exact Hu. reflexivity.
  - rewrite Hb. apply updateMetrics_raised.
  - destruct (trackableType type) eqn:Htype.
    + split; [exact Ht | split; [exact Hp | exact Hc]].
    + split; [destruct type; simpl in Htype; congruence |].
      split; [exact Ht | split; [exact Hp | exact Hc]].
Qed.

(** X22 for a like of the scenario bounty by a user without earlier
    interactions: the score becomes 2. *)
Lemma recordInteraction_effect_witness :
  (recordInteraction EndpointSpec.scenarioStore "user" 1 rec_like 0).2 = 2%Z.
Proof.
  destruct (recordInteraction_effect EndpointSpec.scenarioStore "user" 1 rec_like 0)
    as (H & _).
  - apply list_elem_of_here.
  - rewrite H. reflexivity.
Defined.

Lemma explicitScoreOf_append rows1 rows2 userId tagId :
  DivergenceSpec.explicitScoreOf (rows1 ++ rows2) userId tagId
  = match DivergenceSpec.explicitScoreOf rows2 userId tagId with
    | Some e => Some e
    | None => DivergenceSpec.explicitScoreOf rows1 userId tagId
    end.
Proof.
  induction rows1 as [| t rows1 IH]; simpl.
  - destruct (DivergenceSpec.explicitScoreOf rows2 userId tagId); reflexivity.
  - rewrite IH. destruct (DivergenceSpec.explicitScoreOf rows2 userId tagId); reflexivity.
Qed.

Lemma explicitScoreOf_without rows userId userId' tagId :
  DivergenceSpec.explicitScoreOf
    (List.filter (fun t => negb (bool_decide (utr_userId t = userId))) rows)
    userId' tagId
  = if bool_decide (userId' = userId) then None
    else DivergenceSpec.explicitScoreOf rows userId' tagId.
Proof.
  induction rows as [| t rows IH]; simpl.
  - destruct (bool_decide (userId' = userId)); reflexivity.
  - destruct (bool_decide (utr_userId t = userId)) eqn:Ht; simpl.
    + rewrite IH. apply bool_decide_eq_true in Ht.
      destruct (bool_decide (userId' = userId)) eqn:Hu; [reflexivity |].
      apply bool_decide_eq_false in Hu.
      rewrite (bool_decide_false (utr_userId t = userId')) by congruence.
      simpl. destruct (DivergenceSpec.explicitScoreOf rows userId' tagId); reflexivity.
    + rewrite IH. apply bool_decide_eq_false in Ht.
      destruct (bool_decide (userId' = userId)) eqn:Hu; [| reflexivity].
      apply bool_decide_eq_true in Hu.
      rewrite (bool_decide_false (utr_userId t = userId')) by congruence.
      reflexivity.
Qed.

Lemma explicitScoreOf_inserted (tags : list (Z * Z)) userId userId' src tagId :
  DivergenceSpec.explicitScoreOf
    (map (fun t => {| utr_userId := userId; utr_tagId := t.1; utr_score := t.2;
                      utr_source := src |}) tags) userId' tagId
  = if bool_decide (userId' = userId) then DivergenceSpec.lastValue tags tagId else None.
Proof.
  induction tags as [| t tags IH]; simpl.
  - destruct (bool_decide (userId' = userId)); reflexivity.
  - rewrite IH. destruct (bool_decide (userId' = userId)) eqn:Hu.
    + apply bool_decide_eq_true in Hu.
      rewrite (bool_decide_true (userId = userId')) by congruence. reflexivity.
    + apply bool_decide_eq_false in Hu.
      rewrite (bool_decide_false (userId = userId')) by congruence. reflexivity.
Qed.



End MutationFacts.


(** ** The blended tag scores *)

Module BlendedFacts.
Import Recommendation Schema Behavior Alerts Endpoints ArraySort ArraySortFacts.
Import Blended BlendedSpec.

Lemma orderedGet_entries {V : Type} (entries : list (Z * V)) (k : Z) :
  orderedGet (orderedMapOfEntries entries) k = DivergenceSpec.lastValue entries k.
Proof. apply (DivergenceCheck.orderedMapOfEntries_spec entries). Qed.

Lemma orderedGet_keys {V : Type} (m : list (Z * V)) (k : Z) :
  is_Some (orderedGet m k) <-> k ∈ map fst m.
Proof.
  induction m as [| kv m IH]; simpl.
  - split; [intros [? H]; discriminate H | intros H; inversion H].
  - rewrite elem_of_cons. destruct (Z.eqb_spec kv.1 k) as [Hk | Hk].
    + split; [intros _; left; congruence | intros _; eauto].
    + rewrite IH. split; [tauto |]. intros [H | H]; [congruence | exact H].
Qed.

Lemma orderedSetOf_spec (ids : list Z) :
  NoDup (orderedSetOf ids) /\ forall x, x ∈ orderedSetOf ids <-> x ∈ ids.
Proof.
  unfold orderedSetOf.
  assert (forall acc,
            NoDup acc ->
            NoDup (fold_left (fun acc x => if bool_decide (x ∈ acc) then acc
                                           else acc ++ [x]) ids acc) /\
            forall x, x ∈ fold_left (fun acc x => if bool_decide (x ∈ acc) then acc
                                                  else acc ++ [x]) ids acc
                      <-> x ∈ acc \/ x ∈ ids) as Hgen.
  { induction ids as [| i ids IH]; intros acc Hnd; simpl.
    - split; [exact Hnd |]. intros x. rewrite elem_of_nil. tauto.
    - destruct (bool_decide (i ∈ acc)) eqn:Hi.
      + apply bool_decide_eq_true in Hi.
        destruct (IH acc Hnd) as [H1 H2]. split; [exact H1 |].
        intros x. rewrite H2, elem_of_cons. split; [tauto |].
        intros [H | [-> | H]]; tauto.
      + apply bool_decide_eq_false in Hi.
        assert (NoDup (acc ++ [i])) as Hnd'.
        { apply NoDup_app. split; [exact Hnd |]. split; [| apply NoDup_singleton].
          intros x Hx Hx'. apply list_elem_of_singleton in Hx'. congruence. }
        destruct (IH (acc ++ [i]) Hnd') as [H1 H2]. split; [exact H1 |].
        intros x. rewrite H2, elem_of_app, list_elem_of_singleton, elem_of_cons. tauto. }
  destruct (Hgen [] (NoDup_nil_2)) as [H1 H2]. split; [exact H1 |].
  intros x. rewrite H2, elem_of_nil. tauto.
Qed.

Lemma lastValue_keys {V : Type} (entries : list (Z * V)) (k : Z) :
  is_Some (DivergenceSpec.lastValue entries k) <-> k ∈ map fst entries.
Proof.
  induction entries as [| kv entries IH]; simpl.
  - split; [intros [? H]; discriminate H | intros H; inversion H].
  - rewrite elem_of_cons, <- IH.
    destruct (DivergenceSpec.lastValue entries k) as [v |].
    + split; [intros _; right; eauto | intros _; eauto].
    + destruct (Z.eqb_spec kv.1 k) as [Hk | Hk].
      * split; [intros _; left; congruence | intros _; eauto].
      * split; [intros [? H]; discriminate H |].
        intros [H | [? H]]; [congruence | discriminate H].
Qed.

(** The entries before the sort. *)
Lemma getBlendedTagScores_entries (st : Store) (userId : string) :
  exists (tagIds : list Z) (tagNameMap : gmap Z string),
    NoDup tagIds /\
    (forall g, g ∈ tagIds <->
               is_Some (explicitOf st userId g) \/ is_Some (implicitOf st userId g)) /\
    getBlendedTagScores st userId
    = sortWith (fun a b => blendedScore b - blendedScore a)
        (map (fun g =>
                let explicit := explicitOf st userId g in
                let implicit := implicitOf st userId g in
                let e := match explicit with Some e => e.2 | None => 0 end in
                let i := match implicit with Some i => i.1 | None => 0 end in
                {| bts_tagId := g;
                   bts_tagName :=
                     match explicit with
                     | Some e => e.1
                     | None => match tagNameMap !! g with
                               | Some name => name
                               | None => "Tag " +:+ pretty g
                               end
                     end;
                   bts_explicitScore := e;
                   bts_implicitScore := i;
                   blendedScore :=
                     e * (weightsOf st userId).1 + i * (weightsOf st userId).2;
                   divergent := match implicit with Some i => i.2 | None => false end |})
           tagIds).
Proof.
  unfold getBlendedTagScores. cbv zeta.
  set (explicitEntries :=
         map (fun t => (ut_tagId t, (ut_tagName t, ut_score t)))
           (userTagsWithNames st userId)).
  set (implicitEntries :=
         map (fun r => (ubt_tagId r, (implicitScore r, divergenceDetected r)))
           (List.filter (fun r => bool_decide (ubt_userId r = userId))
              (userBehaviorTagTable (core st)))).
  set (explicitMap := orderedMapOfEntries explicitEntries).
  set (implicitMap := orderedMapOfEntries implicitEntries).
  set (tagNameMap := mapOfEntries _).
  set (tagIds := orderedSetOf (map fst explicitMap ++ map fst implicitMap)).
  exists tagIds, tagNameMap.
  destruct (orderedSetOf_spec (map fst explicitMap ++ map fst implicitMap)) as [Hnd Hin].
  fold tagIds in Hnd, Hin.
  split; [exact Hnd |]. split.
  - intros g. rewrite Hin, elem_of_app.
    unfold explicitOf, implicitOf. fold explicitEntries implicitEntries.
    rewrite <- !orderedGet_keys. subst explicitMap implicitMap.
    rewrite !orderedGet_entries. reflexivity.
  - f_equal. apply map_ext. intros g. unfold blendedEntry. cbv zeta.
    subst explicitMap implicitMap. rewrite !orderedGet_entries.
    unfold explicitOf, implicitOf, weightsOf. fold explicitEntries implicitEntries.
    destruct (List.find (isConfigRow userId) (userBlendConfigTable (core st)));
      reflexivity.
Qed.

(** X24: the list of [getBlendedTagScores]. It is ordered by decreasing
    blended score and holds exactly one entry for every tag for which the
    user has a named explicit tag or a behavior record. An entry carries the
    explicit score (0 without an explicit tag), the implicit score and the
    divergence flag of the behavior record (0 and false without one), and the
    blend explicit x explicitWeight + implicit x implicitWeight with the
    weights of the user's blend configuration, or 0.8 and 0.2 when there is
    none. *)
Theorem getBlendedTagScores_spec (st : Store) (userId : string) :
  let results := getBlendedTagScores st userId in
  StronglySorted (fun a b => blendedScore b <= blendedScore a) results /\
  NoDup (map bts_tagId results) /\
  (forall g, g ∈ map bts_tagId results <->
             is_Some (explicitOf st userId g) \/ is_Some (implicitOf st userId g)) /\
  (forall r, r ∈ results ->
     bts_explicitScore r
     = match explicitOf st userId (bts_tagId r) with Some e => e.2 | None => 0 end /\
     bts_implicitScore r
     = match implicitOf st userId (bts_tagId r) with Some i => i.1 | None => 0 end /\
     divergent r
     = match implicitOf st userId (bts_tagId r) with Some i => i.2 | None => false end /\
     blendedScore r
     = bts_explicitScore r * (weightsOf st userId).1
       + bts_implicitScore r * (weightsOf st userId).2 /\
     (forall e, explicitOf st userId (bts_tagId r) = Some e -> bts_tagName r = e.1)).
Proof.
  cbv zeta.
  destruct (getBlendedTagScores_entries st userId) as (tagIds & names & Hnd & Hin & ->).
  set (entry := fun g : Z => _).
  split; [apply (sortWith_sorted _ blendedScore); intros a b; reflexivity |].
  assert (map bts_tagId (map entry tagIds) = tagIds) as Hids.
  { rewrite map_map. apply map_id. }
  assert (map bts_tagId (sortWith (fun a b => blendedScore b - blendedScore a)
                           (map entry tagIds)) ≡ₚ tagIds) as Hperm.
  { rewrite <- Hids at 2. apply (fmap_Permutation bts_tagId), sortWith_perm. }
  split; [| split].
  - rewrite Hperm. exact Hnd.
  - intros g. rewrite Hperm. apply Hin.
  - intros r Hr. rewrite sortWith_perm in Hr.
    apply list_elem_of_fmap in Hr as (g & -> & _). subst entry. cbv zeta.
    cbn [bts_tagId bts_explicitScore bts_implicitScore divergent blendedScore bts_tagName].
    repeat split. intros e ->. reflexivity.
Qed.






End BlendedFacts.


(** ** The first event on a tag the user claims to know *)

Module FirstEvent.
Import Recommendation Schema Behavior Alerts DivergenceSpec AlertSpec.

Lemma isTagRow_tags userId g g' r :
  g' <> g -> isTagRow userId g' r = true -> isTagRow userId g r = false.
Proof.
  unfold isTagRow. intros Hne H. apply andb_true_iff in H as [_ H].
  apply Z.eqb_eq in H. apply andb_false_iff. right. apply Z.eqb_neq. congruence.
Qed.

Lemma isTagRow_setters userId g t c s v r :
  isTagRow userId g (setImplicitScore v (setCountScore t c s r)) = isTagRow userId g r.
Proof. reflexivity. Qed.

(** An update for another tag leaves the records of the tag alone. *)
Lemma updateTagBehavior_other_tag db userId g g' t :
  g' <> g ->
  List.filter (isTagRow userId g) (userBehaviorTagTable (updateTagBehavior db userId g' t))
  = List.filter (isTagRow userId g) (userBehaviorTagTable db).
Proof.
  intros Hne. unfold updateTagBehavior.
  destruct (List.find _ _) as [existing |]; cbn [userBehaviorTagTable withBehaviorTags].
  - apply BehaviorFrame.filter_updateWhere_others.
    + intros r. apply isTagRow_tags, Hne.
    + intros r. apply isTagRow_setters.
  - apply BehaviorFrame.filter_app_other.
    unfold isTagRow. simpl. apply andb_false_iff. right. apply Z.eqb_neq, Hne.
Qed.

Lemma updateTagBehavior_loop_other_tag userId g t (tags : list Z) db :
  g ∉ tags ->
  List.filter (isTagRow userId g)
    (userBehaviorTagTable
       (fold_left (fun d tagId => updateTagBehavior d userId tagId t) tags db))
  = List.filter (isTagRow userId g) (userBehaviorTagTable db).
Proof.
  revert db. induction tags as [| g' tags IH]; intros db Hg; simpl; [reflexivity |].
  apply not_elem_of_cons in Hg as [Hne Hg].
  rewrite IH by exact Hg. apply updateTagBehavior_other_tag. congruence.
Qed.

Lemma find_filter_nil {A : Type} (p : A -> bool) (l : list A) :
  List.filter p l = [] -> List.find p l = None.
Proof.
  induction l as [| x l IH]; simpl; [reflexivity |].
  destruct (p x); [discriminate | exact IH].
Qed.

(** The record created by the first event of a type on a tag. *)
Lemma updateTagBehavior_first db userId g t :
  List.filter (isTagRow userId g) (userBehaviorTagTable db) = [] ->
  List.filter (isTagRow userId g) (userBehaviorTagTable (updateTagBehavior db userId g t))
  = [setImplicitScore (BEHAVIOR_WEIGHTS t * 2)
       (setCountScore t 1 (BEHAVIOR_WEIGHTS t * 2) (defaultBehaviorTag userId g))].
Proof.
  intros Hnone. unfold updateTagBehavior.
  rewrite (find_filter_nil _ _ Hnone). cbv zeta.
  cbn [userBehaviorTagTable withBehaviorTags].
  rewrite List.filter_app, Hnone. simpl.
  unfold isTagRow. simpl. rewrite bool_decide_true by reflexivity.
  rewrite Z.eqb_refl. reflexivity.
Qed.

Lemma updateTagBehavior_loop_first userId g t (tags : list Z) db :
  NoDup tags -> g ∈ tags ->
  List.filter (isTagRow userId g) (userBehaviorTagTable db) = [] ->
  List.filter (isTagRow userId g)
    (userBehaviorTagTable
       (fold_left (fun d tagId => updateTagBehavior d userId tagId t) tags db))
  = [setImplicitScore (BEHAVIOR_WEIGHTS t * 2)
       (setCountScore t 1 (BEHAVIOR_WEIGHTS t * 2) (defaultBehaviorTag userId g))].
Proof.
  revert db. induction tags as [| g' tags IH]; intros db Hnd Hg Hnone.
  - inversion Hg.
  - apply NoDup_cons in Hnd as [Hnew Hnd]. simpl.
    destruct (decide (g' = g)) as [-> | Hne].
    + rewrite updateTagBehavior_loop_other_tag by exact Hnew.
      apply updateTagBehavior_first, Hnone.
    + apply elem_of_cons in Hg as [Hg | Hg]; [congruence |].
      apply IH; [exact Hnd | exact Hg |].
      rewrite updateTagBehavior_other_tag by exact Hne. exact Hnone.
Qed.

Lemma implicitScoreOf_none rows userId g :
  List.filter (isTagRow userId g) rows = [] -> implicitScoreOf rows userId g = None.
Proof.
  induction rows as [| r rows IH]; simpl; [reflexivity |].
  destruct (isTagRow userId g r); [discriminate |].
  intros H. rewrite (IH H). reflexivity.
Qed.

Lemma implicitScoreOf_single rows userId g r :
  List.filter (isTagRow userId g) rows = [r] ->
  implicitScoreOf rows userId g = Some (implicitScore r).
Proof.
  induction rows as [| r1 rows IH]; simpl; [discriminate |].
  destruct (isTagRow userId g r1).
  - intros [= -> Hrest]. rewrite (implicitScoreOf_none _ _ _ Hrest). reflexivity.
  - intros H. rewrite (IH H). reflexivity.
Qed.

Lemma filter_map_keys (f : UserBehaviorTag -> UserBehaviorTag) userId g rows :
  (forall r, ubt_userId (f r) = ubt_userId r /\ ubt_tagId (f r) = ubt_tagId r /\
             implicitScore (f r) = implicitScore r) ->
  List.filter (isTagRow userId g) (map f rows)
  = map f (List.filter (isTagRow userId g) rows).
Proof.
  intros Hf. induction rows as [| r rows IH]; simpl; [reflexivity |].
  assert (isTagRow userId g (f r) = isTagRow userId g r) as ->.
  { unfold isTagRow. destruct (Hf r) as (-> & -> & _). reflexivity. }
  destruct (isTagRow userId g r); simpl; rewrite IH; reflexivity.
Qed.

(** The record of the tag after the whole of [trackBehavior]. *)
Lemma trackBehavior_first db userId bountyId t g (e : Z) bountyData :
  List.find (fun b => (id b =? bountyId)%Z) (bountyTable db) = Some bountyData ->
  let tags :=
    map btr_tagId
      (List.filter (fun bt => (btr_bountyId bt =? bountyId)%Z) (bountyTagTable db)) in
  NoDup tags -> g ∈ tags ->
  List.filter (isTagRow userId g) (userBehaviorTagTable db) = [] ->
  explicitScoreOf (userTagTable db) userId g = Some e -> (4 <= e)%Z ->
  List.filter (isTagRow userId g)
    (userBehaviorTagTable (trackBehavior db userId bountyId t))
  = [setDivergence true (Some (inject_Z e))
       (setImplicitScore (BEHAVIOR_WEIGHTS t * 2)
          (setCountScore t 1 (BEHAVIOR_WEIGHTS t * 2) (defaultBehaviorTag userId g)))].
Proof.
  intros Hfind tags Hnd Hg Hnone He H4.
  unfold trackBehavior. rewrite Hfind. cbv zeta. fold tags.
  set (db1 := fold_left _ tags db).
  set (db2 := updatePriceBehavior db1 userId _ t).
  set (db3 := updateBlendConfig db2 userId).
  set (r0 := setImplicitScore (BEHAVIOR_WEIGHTS t * 2)
               (setCountScore t 1 (BEHAVIOR_WEIGHTS t * 2) (defaultBehaviorTag userId g))).
  assert (List.filter (isTagRow userId g) (userBehaviorTagTable db3) = [r0]) as Hone.
  { subst db3 db2. rewrite Divergence.updateBlendConfig_tags,
      Divergence.updatePriceBehavior_tags.
    apply updateTagBehavior_loop_first; assumption. }
  assert (userTagTable db3 = userTagTable db) as Htags.
  { destruct (BehaviorFrame.updateTagBehavior_loop_frame userId t tags db)
      as (_ & _ & H3 & _). cbv zeta in H3. fold db1 in H3.
    destruct (BehaviorFrame.updatePriceBehavior_static db1 userId
                (Recommendation.price bountyData) t) as (_ & _ & P3 & _).
    cbv zeta in P3. fold db2 in P3.
    destruct (BehaviorFrame.updateBlendConfig_static db2 userId) as (_ & _ & C3 & _).
    cbv zeta in C3. fold db3 in C3. congruence. }
  rewrite DivergenceCheck.checkDivergence_table.
  rewrite filter_map_keys by apply DivergenceCheck.checked_keys.
  rewrite Hone. simpl. f_equal.
  unfold checked. assert (ubt_userId r0 = userId) as Hu by reflexivity.
  rewrite (bool_decide_true _ Hu).
  change (ubt_tagId r0) with g.
  rewrite (implicitScoreOf_single _ _ _ _ Hone), Htags, He.
  unfold verdict.
  destruct (Z.eqb_spec e 0) as [H0 | _]; [lia |].
  assert ((e >=? 4)%Z = true) as -> by (apply Z.geb_le; lia).
  assert (Qltb (implicitScore r0) 1 = true) as ->
    by (apply Qltb_lt; destruct t; reflexivity).
  reflexivity.
Qed.

Lemma promptedRecently_tracked db userId bountyId t now :
  promptedRecently (trackBehavior db userId bountyId t) now userId
  = promptedRecently db now userId.
Proof.
  unfold promptedRecently, trackBehavior.
  destruct (List.find _ (bountyTable db)) as [bountyData |]; [| reflexivity].
  set (tags := map btr_tagId _).
  destruct (BehaviorFrame.updateTagBehavior_loop_frame userId t tags db)
    as (_ & _ & _ & _ & _ & H6 & _). cbv zeta in H6.
  set (db1 := fold_left _ tags db) in *.
  destruct (BehaviorFrame.updatePriceBehavior_static db1 userId
              (Recommendation.price bountyData) t) as (_ & _ & _ & _ & _ & P6).
  cbv zeta in P6.
  set (db2 := updatePriceBehavior db1 userId _ t) in *.
  change (userBlendConfigTable (checkDivergence (updateBlendConfig db2 userId) userId))
    with (userBlendConfigTable (updateBlendConfig db2 userId)).
  rewrite <- H6, <- P6. unfold updateBlendConfig.
  destruct (List.find (isConfigRow userId) (userBlendConfigTable db2)) as [c |] eqn:Hc.
  - cbn [userBlendConfigTable withBlendConfigs].
    rewrite TagBehavior.find_updateWhere by reflexivity. rewrite Hc. reflexivity.
  - rewrite Hc. reflexivity.
Qed.

Section NumberFormat.

Variable showNumber : Q -> string.

(** X26: the first tracked event on a skill the user rates 4 or more raises
    an unused-skill alert. When the user has no behavior record yet for a tag
    with explicit score [e >= 4], an event of any type on a bounty that
    carries the tag (once) leaves exactly one record for the tag: it holds
    the initial implicit score, twice the weight of the type and so at most
    0.8, and it is flagged with last explicit score [e], because the check
    that ends [trackBehavior] finds the implicit score below 1. Unless the
    user was prompted within the last 24 hours, [getDivergenceAlerts] then
    reports the tag as an unused skill. *)
Theorem first_event_flags_skill (db : DB) (userId : string) (bountyId : Z)
    (t : InteractionType) (g : Z) (e : Z) (tagRows : list TagRow) (now : Z) :
  bountyId ∈ map id (bountyTable db) ->
  NoDup (map btr_tagId
           (List.filter (fun bt => (btr_bountyId bt =? bountyId)%Z) (bountyTagTable db))) ->
  g ∈ map btr_tagId
        (List.filter (fun bt => (btr_bountyId bt =? bountyId)%Z) (bountyTagTable db)) ->
  List.filter (isTagRow userId g) (userBehaviorTagTable db) = [] ->
  explicitScoreOf (userTagTable db) userId g = Some e ->
  (4 <= e)%Z ->
  let db' := trackBehavior db userId bountyId t in
  let created :=
    setImplicitScore (BEHAVIOR_WEIGHTS t * 2)
      (setCountScore t 1 (BEHAVIOR_WEIGHTS t * 2) (defaultBehaviorTag userId g)) in
  List.filter (isTagRow userId g) (userBehaviorTagTable db')
  = [setDivergence true (Some (inject_Z e)) created] /\
  implicitScore created <= 0.8 /\
  (promptedRecently db now userId = false ->
   exists a,
     a ∈ getDivergenceAlerts showNumber db' tagRows now userId /\
     da_type a = unused_skill /\ da_tagId a = g /\
     da_explicitScore a = inject_Z e /\
     da_implicitScore a = BEHAVIOR_WEIGHTS t * 2).
Proof.
  intros Hb Hnd Hg Hnone He H4 db' created.
  destruct (List.find (fun b => (id b =? bountyId)%Z) (bountyTable db))
    as [bountyData |] eqn:Hfind.
  2:{ exfalso. apply list_elem_of_fmap in Hb as (b & -> & Hin).
      apply list_elem_of_In in Hin.
      apply (find_none _ _ Hfind) in Hin. rewrite Z.eqb_refl in Hin. discriminate. }
  pose proof (trackBehavior_first db userId bountyId t g e bountyData Hfind Hnd Hg
                Hnone He H4) as Hrow.
  fold db' created in Hrow.
  split; [exact Hrow |]. split; [destruct t; discriminate |].
  intros Hp.
  assert (promptedRecently db' now userId = false) as Hp'
    by (subst db'; rewrite promptedRecently_tracked; exact Hp).
  destruct (AlertFacts.getDivergenceAlerts_loop showNumber db' tagRows now userId Hp')
    as (nameMap & _ & ->).
  assert (setDivergence true (Some (inject_Z e)) created ∈ divergentTags db' userId)
    as Hflag.
  { apply AlertFacts.elem_of_divergentTags.
    split; [| split; reflexivity].
    assert (setDivergence true (Some (inject_Z e)) created
            ∈ List.filter (isTagRow userId g) (userBehaviorTagTable db')) as Hin
      by (rewrite Hrow; left).
    apply Mutuals.elem_of_filter_bool in Hin. tauto. }
  assert (Qeq_bool (inject_Z e) 0 = false) as Hne.
  { destruct (Qeq_bool (inject_Z e) 0) eqn:Hq; [| reflexivity].
    apply Qeq_bool_iff in Hq. unfold Qeq in Hq. simpl in Hq. lia. }
  assert (Qgeb (inject_Z e) 4 = true) as Hge.
  { apply Qgeb_ge. change 4 with (inject_Z 4). rewrite <- Zle_Qle. exact H4. }
  assert (Qltb (BEHAVIOR_WEIGHTS t * 2) 1 = true) as Hlt
    by (apply Qltb_lt; destruct t; reflexivity).
  eexists. split.
  - apply list_elem_of_omap. eexists. split; [exact Hflag |].
    unfold alertFor. cbv zeta.
    cbn [lastExplicitScore implicitScore setDivergence setImplicitScore created default
         ubt_tagId].
    unfold Datatypes.id. rewrite Hne, Hge, Hlt. reflexivity.
  - repeat split; reflexivity.
Qed.

End NumberFormat.

(** X26 for the scenario user, who rates typescript 5 and views the
    scenario bounty: the new record has implicit score 0.2 and is flagged. *)
Lemma first_event_flags_skill_witness :
  List.filter (isTagRow "user" 1)
    (userBehaviorTagTable
       (trackBehavior (Endpoints.core EndpointSpec.scenarioStore) "user" 1 view))
  = [setDivergence true (Some 5)
       (setImplicitScore (0.1 * 2)
          (setCountScore view 1 (0.1 * 2) (defaultBehaviorTag "user" 1)))].
Proof.
  apply (first_event_flags_skill showInteger
           (Endpoints.core EndpointSpec.scenarioStore) "user" 1 view 1 5 rustTags 0).
  - apply list_elem_of_here.
  - apply (bool_decide_unpack _). vm_compute. exact I.
  - apply list_elem_of_here.
  - reflexivity.
  - reflexivity.
  - lia.
Defined.

End FirstEvent.


(** ** The feed and the recommendation agree *)

Module FeedVsPrimary.
Import Recommendation Schema Behavior Router Alerts TagMatch Endpoints EndpointSpec.
Import ArraySort ArraySortFacts FeedProcedure FeedSpec.

(** On final scores the comparator sort is the sort of the service. *)
Lemma sortWith_finalScore (l : list ScoredBounty) :
  sortWith (comparator sort_relevance) l = sortByFinalScore l.
Proof.
  unfold sortWith, sortByFinalScore.
  induction l as [| x l IH]; simpl; [reflexivity |].
  rewrite IH. generalize (foldr insertDesc [] l). intros s.
  induction s as [| y s IHs]; simpl; [reflexivity |].
  assert (Qgtb (finalScore y - finalScore x) 0 = Qltb (finalScore x) (finalScore y)) as ->.
  { destruct (Qltb (finalScore x) (finalScore y)) eqn:Hlt.
    - apply Qltb_lt in Hlt. apply Qgtb_gt. lra.
    - apply Qltb_ge in Hlt. apply Qgtb_le. lra. }
  rewrite IHs. reflexivity.
Qed.

(** When every [bounty_tag] row names exactly one tag, the join with [tag]
    loses and duplicates nothing. *)
Lemma namedTagsOf_lossless (st : Store) (b : Z) :
  Forall (fun bt => exists t,
            List.filter (fun t => (tag_id t =? btr_tagId bt)%Z) (tagTable st) = [t])
    (bountyTagTable (core st)) ->
  map withoutName (namedTagsOf st b) = tagsOfBounty (core st) b.
Proof.
  unfold namedTagsOf, tagsOfBounty, bountyTagsWithNames.
  induction (bountyTagTable (core st)) as [| bt rows IH]; intros Hall; [reflexivity |].
  apply Forall_cons in Hall as [[t Ht] Hall].
  cbn [flat_map]. rewrite Ht. cbn [map app List.filter fst].
  destruct (Z.eqb_spec (btr_bountyId bt) b) as [Hb | Hb].
  - rewrite (bool_decide_true _ Hb). cbn [map snd]. rewrite (IH Hall). reflexivity.
  - rewrite (bool_decide_false _ Hb). apply IH, Hall.
Qed.

Lemma scoreBounty_tags input m1 m2 mi b :
  default [] (m1 !! id b) = default [] (m2 !! id b) ->
  scoreBounty input m1 mi b = scoreBounty input m2 mi b.
Proof. intros H. unfold scoreBounty. cbv zeta. rewrite H. reflexivity. Qed.

(** X27: the default feed starts with the primary recommendation. When
    every [bounty_tag] row names exactly one tag (as the foreign key and the
    primary key of [tag] ensure), and both procedures answer on the same
    store, the first entry of the feed requested without input is the bounty
    that [getRecommendations] returns as primary, with the same scores; and
    the feed is empty exactly when the recommendation fell back to the
    bounties below the relevance threshold ([filteredByRelevance = 0]). *)
Theorem feed_top_is_primary (st : Store) (userId : string)
    (resp : Recommendations) (st' : Store) (feed : Feed) :
  Forall (fun bt => exists t,
            List.filter (fun t => (tag_id t =? btr_tagId bt)%Z) (tagTable st) = [t])
    (bountyTagTable (core st)) ->
  getRecommendationsProcedure st userId = Ok (resp, st') ->
  getBountyFeed st userId None = Ok feed ->
  match feed_bounties feed with
  | [] => filteredByRelevance (rec_debug resp) = 0%nat
  | x :: _ =>
      item_bounty x = card_bounty (rec_primary resp) /\
      item_scores x = card_scores (rec_primary resp) /\
      filteredByRelevance (rec_debug resp) = pg_total (feed_pagination feed)
  end.
Proof.
  intros Hall Hproc Hfeed.
  unfold getRecommendationsProcedure in Hproc. unfold getBountyFeed in Hfeed.
  cbv zeta in Hproc, Hfeed.
  destruct (List.find (isProfileRow userId) (userProfileTable st)) as [profile |];
    [| discriminate].
  set (openBounties := List.filter isOpen (bountyTable (core st))) in *.
  destruct (length openBounties =? 0)%nat; [discriminate |].
  set (input := inputOf st userId profile) in *.
  set (mi := mutualInteractionsOf st (map mutualId (getMutualsThreeLayers (core st) userId)))
    in *.
  set (btm := bountyTagMapOf (bountyTagTable (core st))) in *.
  (* the candidates of the feed *)
  assert ((feedCandidates st userId profile (default defaultFeedInput None)).1
          = List.filter passesRelevance
              (map (scoreBounty input btm mi)
                 (filterByAccessTier openBounties (upr_accessTier profile)))) as Hc.
  { unfold feedCandidates. cbv zeta. cbn [fst default defaultFeedInput tierFilter tagFilter].
    unfold Datatypes.id. cbn [tierFilter tagFilter].
    fold openBounties. fold mi. fold input.
    unfold scoreAllBounties. cbv zeta.
    change (accessTier (userProfile input)) with (upr_accessTier profile).
    f_equal. apply map_ext_in. intros b _.
    apply scoreBounty_tags.
    destruct (FeedFacts.feed_maps st (id b)) as [_ Hm]. cbv zeta in Hm.
    rewrite Hm, (namedTagsOf_lossless st (id b) Hall).
    subst btm. symmetry. apply ProcedureFacts.bountyTagMapOf_default. }
  rewrite Hc in Hfeed.
  cbn [default defaultFeedInput] in Hfeed. unfold Datatypes.id in Hfeed.
  cbn [sortBy limit offset] in Hfeed.
  rewrite sortWith_finalScore in Hfeed.
  rewrite Ranking.getRecommendations_cases in Hproc. cbv zeta in Hproc.
  change (accessTier (userProfile input)) with (upr_accessTier profile) in Hproc.
  set (allScored := map (scoreBounty input btm mi)
                      (filterByAccessTier openBounties (upr_accessTier profile))) in *.
  injection Hfeed as <-. cbn [feed_bounties feed_pagination pg_total].
  destruct (sortByFinalScore (List.filter passesRelevance allScored)) as [| p rest] eqn:Hs.
  - simpl.
    destruct (sortByFinalScore allScored) as [| f rest']; [discriminate |].
    injection Hproc as <- _. reflexivity.
  - injection Hproc as <- _. simpl. repeat split.
Qed.

(** X27 on the scenario store: feed and recommendation both start with the
    scenario bounty. *)
Lemma feed_top_is_primary_witness :
  exists resp st' feed,
    getRecommendationsProcedure scenarioStore "user" = Ok (resp, st') /\
    getBountyFeed scenarioStore "user" None = Ok feed /\
    map item_bounty (feed_bounties feed) = [card_bounty (rec_primary resp)].
Proof.
  destruct (getRecommendationsProcedure scenarioStore "user") as [[resp st'] |] eqn:Hp;
    [| vm_compute in Hp; discriminate].
  destruct (getBountyFeed scenarioStore "user" None) as [feed |] eqn:Hf;
    [| vm_compute in Hf; discriminate].
  exists resp, st', feed. split; [reflexivity |]. split; [reflexivity |].
  assert (Forall (fun bt => exists t,
                    List.filter (fun t => (tag_id t =? btr_tagId bt)%Z)
                      (tagTable scenarioStore) = [t])
            (bountyTagTable (core scenarioStore))) as Hall
    by (repeat constructor; eexists; reflexivity).
  pose proof (feed_top_is_primary scenarioStore "user" resp st' feed Hall Hp Hf) as H.
  assert (length (feed_bounties feed) = 1%nat) as Hlen
    by (clear H; vm_compute in Hf; injection Hf as <-; reflexivity).
  destruct (feed_bounties feed) as [| x [| y l]]; try discriminate Hlen.
  simpl. f_equal. apply H.
Defined.

End FeedVsPrimary.


(** ** The blend configuration along a sequence of events *)

Module BlendProgress.
Import Recommendation Schema Behavior EventSpec.

(** One tracked event on a bounty of the table updates the configuration of
    the user as [updateBlendConfig] does on the user's first row. *)
Lemma trackBehavior_config db userId bountyId t :
  bountyId ∈ map id (bountyTable db) ->
  List.find (isConfigRow userId)
    (userBlendConfigTable (trackBehavior db userId bountyId t))
  = option_map
      (fun c => setBlend (totalInteractions c + 1)
                  (blendWeights (totalInteractions c + 1)) c)
      (List.find (isConfigRow userId) (userBlendConfigTable db)).
Proof.
  intros Hb. unfold trackBehavior.
  destruct (List.find _ (bountyTable db)) as [bountyData |] eqn:Hfind.
  - set (tags := map btr_tagId _).
    destruct (BehaviorFrame.updateTagBehavior_loop_frame userId t tags db)
      as (_ & _ & _ & _ & _ & H6 & _). cbv zeta in H6.
    set (db1 := fold_left _ tags db) in *.
    destruct (BehaviorFrame.updatePriceBehavior_static db1 userId
                (Recommendation.price bountyData) t) as (_ & _ & _ & _ & _ & P6).
    cbv zeta in P6.
    set (db2 := updatePriceBehavior db1 userId _ t) in *.
    change (userBlendConfigTable (checkDivergence (updateBlendConfig db2 userId) userId))
      with (userBlendConfigTable (updateBlendConfig db2 userId)).
    rewrite <- H6, <- P6. unfold updateBlendConfig.
    destruct (List.find (isConfigRow userId) (userBlendConfigTable db2)) as [c |] eqn:Hc.
    + cbn [userBlendConfigTable withBlendConfigs].
      rewrite TagBehavior.find_updateWhere by reflexivity. rewrite Hc. reflexivity.
    + rewrite Hc. reflexivity.
  - exfalso. apply list_elem_of_fmap in Hb as (b & -> & Hin).
    apply list_elem_of_In in Hin.
    apply (find_none _ _ Hfind) in Hin. rewrite Z.eqb_refl in Hin. discriminate.
Qed.

(** X28: the blend configuration after a run of events. For a user with a
    blend configuration, after [n] tracked events on bounties of the table
    the stored interaction total has grown by [n], and as soon as one event
    has been tracked the stored weights are those of [blendWeights] at the
    stored total, so with the thresholds 10, 50 and 100 counted in tracked
    events since the configuration was created; the prompt time and the
    prompt count are never touched. A user without a configuration never
    gets one. *)
Theorem blend_after_events (db : DB) (userId : string)
    (events : list (Z * InteractionType)) :
  Forall (fun ev => ev.1 ∈ map id (bountyTable db)) events ->
  match List.find (isConfigRow userId) (userBlendConfigTable db) with
  | Some c =>
      exists c',
        List.find (isConfigRow userId) (userBlendConfigTable (trackAll db userId events))
        = Some c' /\
        totalInteractions c' = (totalInteractions c + Z.of_nat (length events))%Z /\
        (events <> [] ->
         (explicitWeight c', implicitWeight c') = blendWeights (totalInteractions c')) /\
        lastDivergencePrompt c' = lastDivergencePrompt c /\
        divergencePromptCount c' = divergencePromptCount c
  | None =>
      List.find (isConfigRow userId) (userBlendConfigTable (trackAll db userId events))
      = None
  end.
Proof.
  unfold trackAll. revert db.
  induction events as [| [b t] events IH]; intros db Hall.
  - simpl. destruct (List.find _ _) as [c |]; [| reflexivity].
    exists c. rewrite Z.add_0_r. repeat split. intros H. contradiction.
  - apply Forall_cons in Hall as [Hb Hall]. cbn [fst snd] in Hb.
    cbn [fold_left fst snd].
    pose proof (trackBehavior_config db userId b t Hb) as Hstep.
    assert (bountyTable (trackBehavior db userId b t) = bountyTable db) as Hbt
      by apply MutationFacts.trackBehavior_static.
    assert (Forall (fun ev => ev.1 ∈ map id (bountyTable (trackBehavior db userId b t)))
              events) as Hall' by (rewrite Hbt; exact Hall).
    specialize (IH (trackBehavior db userId b t) Hall').
    rewrite Hstep in IH.
    destruct (List.find (isConfigRow userId) (userBlendConfigTable db)) as [c |].
    + cbn [option_map] in IH. destruct IH as (c' & Hfind & Htotal & Hw & Hp & Hn).
      exists c'. split; [exact Hfind |].
      cbn [totalInteractions setBlend] in Htotal.
      split; [rewrite Htotal; cbn [length]; lia |]. split; [| split; assumption].
      intros _. destruct events as [| ev events'].
      * simpl in Hfind. rewrite Hstep in Hfind. injection Hfind as <-.
        cbn [explicitWeight implicitWeight totalInteractions setBlend].
        destruct (blendWeights _); reflexivity.
      * apply Hw. discriminate.
    + exact IH.
Qed.

(** X28 on a configuration with 29 interactions: one more event gives 30
    and the weights 0.65 and 0.35. *)
Lemma blend_after_events_witness :
  exists c',
    List.find (isConfigRow "user")
      (userBlendConfigTable (trackAll BehaviorSpec.blendDB "user" [(1%Z, view)]))
    = Some c' /\
    totalInteractions c' = 30%Z /\
    explicitWeight c' == 0.65 /\ implicitWeight c' == 0.35.
Proof.
  pose proof (blend_after_events BehaviorSpec.blendDB "user" [(1%Z, view)]) as H.
  change (List.find (isConfigRow "user") (userBlendConfigTable BehaviorSpec.blendDB))
    with (Some {| ubc_userId := "user"; explicitWeight := 0.8; implicitWeight := 0.2;
                  totalInteractions := 29; divergenceThreshold := 3.0;
                  lastDivergencePrompt := None; divergencePromptCount := 0 |}) in H.
  destruct H as (c' & Hfind & Htotal & Hw & _).
  - repeat constructor.
  - exists c'. split; [exact Hfind |]. cbn in Htotal. split; [exact Htotal |].
    specialize (Hw ltac:(discriminate)). rewrite Htotal in Hw.
    injection Hw as -> ->. split; reflexivity.
Defined.

End BlendProgress.


(** ** The onboarding *)

Module OnboardingFacts.
Import Schema Behavior Onboarding OnboardingSpec.









(** X29 for a user whose first tracked event came before the onboarding:
    the event created the price record, so [initialize] throws on its third
    insert; the onboarding row and the blend configuration are there all the
    same, the user counts as started, and a second call returns the id. *)
Lemma onboarding_after_event :
  let st := withDB freshStore (trackBehavior BehaviorSpec.oneBountyDB "user" 1 view) in
  (initialize st "user").1 = Throw (uniqueViolation "user_behavior_price_user_id_unique") /\
  started (getStatus (initialize st "user").2 "user") = true /\
  List.find (isConfigRow "user") (userBlendConfigTable (ob_core (initialize st "user").2))
  = Some (newBlendConfig "user") /\
  (initialize (initialize st "user").2 "user").1 = Ok 1%Z.
Proof. vm_compute. repeat split; reflexivity. Qed.

End OnboardingFacts.


(** ** Recording a view *)

Module ViewFacts.
Import Recommendation Schema Behavior Endpoints ArraySort ArraySortFacts ViewProcedure.







End ViewFacts.
